(** * Shopify MCP server: the tool invocation pipeline

    A shallow embedding of the TypeScript/JavaScript sources of the
    Shopify MCP server (formatters, error handler, GraphQL client handle,
    the mutation tools, get-product-by-id and the create-order handler of
    index.ts), and the properties of the pipeline proved over it.

    Conventions of the embedding
    - JavaScript values are the inductive [JsVal]; numbers are restricted to
      integers ([Z]), which is all the modelled code paths compare or copy,
      and are printed in plain decimal (the engine's text below 10^21).
    - Objects are association lists in the order the properties were
      written; they are read by key only (the engine's own enumeration
      order for integer-like keys is not modelled).
    - [throw] / [try ... catch] are the [Completion] monad and [try_catch].
    - [await client.request(doc, vars)] is an application of the client
      function to the variables: a client stands for the transport under
      one tool's document, and is never shared between tools.
    - What is posted is [wire vars], the reading of
      [JSON.stringify(vars)]: keys bound to [undefined] are not written.
    - Tool inputs are the records of [z.infer<typeof Schema>]: an optional
      field is an [option], [None] when the validated input has no such
      key. The tool of src/tools/createOrder.ts is called by the handler of
      index.ts on an object the handler rebuilt, and takes that object.
    - [console.error] logging is left out. *)

From Stdlib Require Import String Ascii List ZArith Bool Lia DecimalString.
Import ListNotations.
Local Open Scope list_scope.
Local Open Scope string_scope.

Set Implicit Arguments.
Set Warnings "-register-all".

(* ===================================================================== *)
(** ** JavaScript values                                                  *)
(* ===================================================================== *)

Inductive JsVal : Type :=
| JUndefined
| JNull
| JBool (b : bool)
| JNum (n : Z)
| JStr (s : string)
| JArr (items : list JsVal)
| JObj (props : list (string * JsVal)).

(** An object literal's property table. *)
Definition Props := list (string * JsVal).

(** [o[k]] on a property table: the own property, if any. *)
Fixpoint get_own (o : Props) (k : string) : option JsVal :=
  match o with
  | [] => None
  | (k', v) :: rest => if String.eqb k' k then Some v else get_own rest k
  end.

(** [k in o]. *)
Definition has_key (o : Props) (k : string) : bool :=
  match get_own o k with Some _ => true | None => false end.

(** [o[k] = v]: overwrite in place when the key exists, append otherwise. *)
Fixpoint set_prop (o : Props) (k : string) (v : JsVal) : Props :=
  match o with
  | [] => [(k, v)]
  | (k', v') :: rest =>
      if String.eqb k' k then (k', v) :: rest else (k', v') :: set_prop rest k v
  end.

(** [o[k] = v] with a computed key on a plain object: ["__proto__"] names
    the accessor inherited from [Object.prototype], so assigning to it
    makes no own property; any other key is set. *)
Definition assign_computed (o : Props) (k : string) (v : JsVal) : Props :=
  if String.eqb k "__proto__" then o else set_prop o k v.

(** [delete o[k]]. *)
Fixpoint delete_prop (o : Props) (k : string) : Props :=
  match o with
  | [] => []
  | (k', v') :: rest =>
      if String.eqb k' k then delete_prop rest k else (k', v') :: delete_prop rest k
  end.

(** [{...a, ...b}]: the properties of [b] laid over those of [a]. *)
Definition spread (a b : Props) : Props :=
  fold_left (fun acc kv => set_prop acc (fst kv) (snd kv)) b a.

(** The value read by [o.k] once [o] is known to be an object. *)
Definition field_of (o : Props) (k : string) : JsVal :=
  match get_own o k with Some v => v | None => JUndefined end.

(** JavaScript truthiness ([if (v)], [!v], [a || b]). *)
Definition truthy (v : JsVal) : bool :=
  match v with
  | JUndefined | JNull => false
  | JBool b => b
  | JNum n => negb (Z.eqb n 0)
  | JStr s => negb (String.eqb s "")
  | JArr _ | JObj _ => true
  end.

Definition is_undefined (v : JsVal) : bool :=
  match v with JUndefined => true | _ => false end.

Definition is_null (v : JsVal) : bool :=
  match v with JNull => true | _ => false end.

(** [Array.isArray(v)]. *)
Definition isArray (v : JsVal) : bool :=
  match v with JArr _ => true | _ => false end.

(** [Array.prototype.join] on strings. *)
Fixpoint join (sep : string) (l : list string) : string :=
  match l with
  | [] => ""
  | [x] => x
  | x :: rest => x ++ sep ++ join sep rest
  end.

Definition string_of_Z (n : Z) : string :=
  NilZero.string_of_int (Z.to_int n).

Definition string_of_nat (n : nat) : string := string_of_Z (Z.of_nat n).

(** [String(v)], also what a template literal applies to an interpolated
    value. *)
Fixpoint js_String (v : JsVal) : string :=
  match v with
  | JUndefined => "undefined"
  | JNull => "null"
  | JBool true => "true"
  | JBool false => "false"
  | JNum n => string_of_Z n
  | JStr s => s
  | JArr items =>
      join ","
        ((fix elems (l : list JsVal) : list string :=
            match l with
            | [] => []
            | JUndefined :: r | JNull :: r => "" :: elems r
            | x :: r => js_String x :: elems r
            end) items)
  | JObj _ => "[object Object]"
  end.

(** [hay.includes(needle)]. *)
Fixpoint includes (hay needle : string) : bool :=
  if String.prefix needle hay then true
  else match hay with
       | EmptyString => false
       | String _ rest => includes rest needle
       end.

(** [s.startsWith(p)]. *)
Definition startsWith (s p : string) : bool := String.prefix p s.

(* ===================================================================== *)
(** ** Exceptions and completions                                         *)
(* ===================================================================== *)

(** The classes of [Error] objects the modelled code can meet:
    [new Error(..)], the engine's [TypeError] and [SyntaxError], and the
    transport library's [ClientError]. All are [instanceof Error]. *)
Inductive ErrorClass : Type := PlainError | TypeError | SyntaxError | ClientError.

(** A thrown value: an [Error] instance with its [message], or any other
    JavaScript value. *)
Inductive Thrown : Type :=
| ErrorObj (cls : ErrorClass) (message : string)
| ThrownValue (v : JsVal).

Inductive Completion (A : Type) : Type :=
| Normal (a : A)
| Throw (t : Thrown).

Arguments Normal {A} a.
Arguments Throw {A} t.

Definition bind {A B : Type} (c : Completion A) (k : A -> Completion B)
  : Completion B :=
  match c with
  | Normal a => k a
  | Throw t => Throw t
  end.

Notation "x <- c ;; k" := (bind c (fun x => k))
  (at level 61, c at next level, right associativity).
Notation "c ;;; k" := (bind c (fun _ => k))
  (at level 61, right associativity).

(** [try { body } catch (error) { handler(error) }]. *)
Definition try_catch {A : Type} (body : Completion A)
  (handler : Thrown -> Completion A) : Completion A :=
  match body with
  | Normal a => Normal a
  | Throw t => handler t
  end.

(** [throw new Error(msg)]. *)
Definition throw_Error {A : Type} (msg : string) : Completion A :=
  Throw (ErrorObj PlainError msg).

Fixpoint mapM {A B : Type} (f : A -> Completion B) (l : list A)
  : Completion (list B) :=
  match l with
  | [] => Normal []
  | x :: rest => y <- f x ;; ys <- mapM f rest ;; Normal (y :: ys)
  end.

(** [forEach] with an index, stopping at the first throw. *)
Fixpoint forEach_from {A : Type} (i : nat) (f : A -> nat -> Completion unit)
  (l : list A) : Completion unit :=
  match l with
  | [] => Normal tt
  | x :: rest => f x i ;;; forEach_from (S i) f rest
  end.

Definition forEach {A : Type} (f : A -> nat -> Completion unit) (l : list A)
  : Completion unit := forEach_from 0 f l.

(** Property read [v.k]: a [TypeError] on [undefined] and [null], the own
    property of an object, [length] of arrays and strings, and [undefined]
    for any other read. *)
Definition prop (v : JsVal) (k : string) : Completion JsVal :=
  match v with
  | JUndefined =>
      Throw (ErrorObj TypeError
        ("Cannot read properties of undefined (reading '" ++ k ++ "')"))
  | JNull =>
      Throw (ErrorObj TypeError
        ("Cannot read properties of null (reading '" ++ k ++ "')"))
  | JObj o => Normal (field_of o k)
  | JArr items =>
      if String.eqb k "length" then Normal (JNum (Z.of_nat (List.length items)))
      else Normal JUndefined
  | JStr s =>
      if String.eqb k "length" then Normal (JNum (Z.of_nat (String.length s)))
      else Normal JUndefined
  | JBool _ | JNum _ => Normal JUndefined
  end.

(** Optional chaining [v?.k]. *)
Definition opt_prop (v : JsVal) (k : string) : Completion JsVal :=
  match v with
  | JUndefined | JNull => Normal JUndefined
  | _ => prop v k
  end.

(** [arr.map(f)] on a value of unknown type. [what] is the text before
    [.map] in the engine's "is not a function" message; where a definition
    of this file stands for several call sites it gives the last property
    only. *)
Definition js_map (what : string) (arr : JsVal)
  (f : JsVal -> Completion JsVal) : Completion (list JsVal) :=
  match arr with
  | JArr items => mapM f items
  | JUndefined =>
      Throw (ErrorObj TypeError
        "Cannot read properties of undefined (reading 'map')")
  | JNull =>
      Throw (ErrorObj TypeError
        "Cannot read properties of null (reading 'map')")
  | _ => Throw (ErrorObj TypeError (what ++ ".map is not a function"))
  end.

(** An object literal [{k1: base.k1, k2: base.k2', ...}] whose values are
    all read off one base value, given as (output key, source key) pairs. *)
Fixpoint pick_as (base : JsVal) (keys : list (string * string))
  : Completion Props :=
  match keys with
  | [] => Normal []
  | (out, src) :: rest =>
      v <- prop base src ;;
      o <- pick_as base rest ;;
      Normal ((out, v) :: o)
  end.

Definition pick (base : JsVal) (keys : list string) : Completion Props :=
  pick_as base (map (fun k => (k, k)) keys).

(* ===================================================================== *)
(** ** src/utils/formatters.ts                                            *)
(* ===================================================================== *)

(** [formatGid(type, id)]. *)
Definition formatGid (type id : string) : string :=
  if startsWith id "gid://" then id
  else "gid://shopify/" ++ type ++ "/" ++ id.

(** [mapEdgesToNodes(edges)]: [edges.map(edge => edge.node)]. The declared
    parameter type is an array; the call sites pass [any]. *)
Definition mapEdgesToNodes (edges : JsVal) : Completion (list JsVal) :=
  js_map "edges" edges (fun edge => prop edge "node").

(** The call-site idiom [mapEdgesToNodes(connection.edges)]
    (get-product-by-id, create-product, create-order). *)
Definition unwrapEdges (connection : JsVal) : Completion (list JsVal) :=
  edges <- prop connection "edges" ;;
  mapEdgesToNodes edges.

(** The inline idiom [c?.edges?.map(e => e.node) || []] of
    customers/create-customer.ts. *)
Definition unwrapEdges_optional (connection : JsVal)
  : Completion (list JsVal) :=
  edges <- opt_prop connection "edges" ;;
  match edges with
  | JUndefined | JNull => Normal []
  | _ => js_map "edges" edges (fun e => prop e "node")
  end.

(* ===================================================================== *)
(** ** src/utils/error-handler.ts                                         *)
(* ===================================================================== *)

(** [interface UserError { field: string; message: string }]; the remote
    schema lets [field] be null, which is [None] here. *)
Record UserError : Type := mkUserError {
  field : option string;
  message : string
}.

(** [e.field ? `${e.field}: ${e.message}` : e.message]. *)
Definition describe_user_error (e : UserError) : string :=
  match field e with
  | Some f => if negb (String.eqb f "") then f ++ ": " ++ message e
              else message e
  | None => message e
  end.

(** [handleGraphQLErrors(userErrors, operation)]. *)
Definition handleGraphQLErrors (userErrors : list UserError)
  (operation : string) : Completion unit :=
  if Nat.ltb 0 (List.length userErrors) then
    let errorMessages := join ", " (map describe_user_error userErrors) in
    throw_Error ("Failed to " ++ operation ++ ": " ++ errorMessages)
  else Normal tt.

(** [error instanceof Error ? error.message : String(error)]. *)
Definition message_of (error : Thrown) : string :=
  match error with
  | ErrorObj _ m => m
  | ThrownValue v => js_String v
  end.

(** [handleExecutionError(error, operation): never]. *)
Definition handleExecutionError {A : Type} (error : Thrown)
  (operation : string) : Completion A :=
  let errorMessage := message_of error in
  throw_Error ("Failed to " ++ operation ++ ": " ++ errorMessage).

(* ===================================================================== *)
(** ** src/utils/graphql-client.ts and the transport                      *)
(* ===================================================================== *)

(** [client.request<T>(document, variables)]: one call, the decoded data or
    a throw. A client here is the transport as one tool sees it, with that
    tool's document built in: a function of the variables. Two tools send
    two documents, so nothing below gives one client to two tools. *)
Definition Client (T : Type) : Type := JsVal -> Completion T.

(** The part of a mutation's response the tools look at,
    [data.<mutation>]: the payload object (typed [any], possibly null) and
    the business error list. *)
Record MutationData : Type := mkMutationData {
  payload : JsVal;
  userErrors : list UserError
}.

(** [getGraphQLClient()] over the module-level handle [shopifyClient]. *)
Definition getGraphQLClient {T : Type} (shopifyClient : option (Client T))
  : Completion (Client T) :=
  match shopifyClient with
  | None =>
      throw_Error
        "GraphQL client not initialized. Call initializeGraphQLClient first."
  | Some c => Normal c
  end.

(** [shopifyClient.request(..)] of the tools that keep their own handle,
    set by [initialize]: calling through an unset handle is a TypeError. *)
Definition request_via {T : Type} (shopifyClient : option (Client T))
  (variables : JsVal) : Completion T :=
  match shopifyClient with
  | None =>
      Throw (ErrorObj TypeError
        "Cannot read properties of undefined (reading 'request')")
  | Some c => c variables
  end.

(** The catch clause written inline by the tools that do not call
    [handleExecutionError]:
    [throw new Error(`Failed to L: ${error instanceof Error ? error.message : String(error)}`)]. *)
Definition rethrow_failed {A : Type} (operation : string) (error : Thrown)
  : Completion A :=
  throw_Error ("Failed to " ++ operation ++ ": " ++ message_of error).

(** [`${e.field}`]: the text a template literal gives the field. *)
Definition field_text (e : UserError) : string :=
  match field e with Some f => f | None => "null" end.

(** The inline business-error check of those tools:
    [if (userErrors.length > 0) throw new Error(`Failed to L: ${userErrors.map(e => `${e.field}: ${e.message}`).join(", ")}`)]. *)
Definition throw_if_userErrors (operation : string)
  (errs : list UserError) : Completion unit :=
  if Nat.ltb 0 (List.length errs) then
    throw_Error ("Failed to " ++ operation ++ ": "
      ++ join ", " (map (fun e => field_text e ++ ": " ++ message e) errs))
  else Normal tt.

(** Helpers for the typed inputs: an optional field is [None] when the key
    is absent from the validated input, and reads as [undefined]. *)
Definition opt_js {A : Type} (f : A -> JsVal) (x : option A) : JsVal :=
  match x with Some a => f a | None => JUndefined end.

Definition js_strings (l : list string) : JsVal := JArr (map JStr l).

(** [if (c) o[k] = v]. *)
Definition assign_if (c : bool) (k : string) (v : JsVal) (o : Props) : Props :=
  if c then set_prop o k v else o.

(** [v && v.length > 0] (also [v?.length]) for an optional array, which is
    [undefined] when absent. *)
Definition nonempty_arr (v : JsVal) : bool :=
  match v with JArr (_ :: _) => true | _ => false end.

(** [cond ? build(cond) : null], the guard the older tools put around
    nested response objects. *)
Definition when_truthy (v : JsVal) (k : JsVal -> Completion JsVal)
  : Completion JsVal :=
  if truthy v then k v else Normal JNull.

(** [{ k: base.k, ... }] as a value. *)
Definition pick_obj (base : JsVal) (keys : list string) : Completion JsVal :=
  o <- pick base keys ;; Normal (JObj o).

(** [xs.map(x => ({k: x.k, ...}))] over already unwrapped nodes. *)
Definition map_pick (xs : list JsVal) (keys : list string)
  : Completion JsVal :=
  ys <- mapM (fun x => pick_obj x keys) xs ;; Normal (JArr ys).

(** [mapEdgesToNodes(base.k.edges)]. *)
Definition nodes_of (base : JsVal) (k : string) : Completion (list JsVal) :=
  c <- prop base k ;; unwrapEdges c.

(* ===================================================================== *)
(** ** src/tools/customers/create-customer.ts                             *)
(* ===================================================================== *)

Module CreateCustomer.

Record Input : Type := mkInput {
  email : string;
  firstName : option string;
  lastName : option string;
  phone : option string;
  acceptsMarketing : option bool;
  addresses : option (list JsVal);
  metafields : option (list JsVal);
  tags : option (list string)
}.

Definition operation : string := "create customer".

(** Lines 66-78: the required field, then each optional field merged only
    when its guard holds. *)
Definition customerInput (input : Input) : Props :=
  let o := [("email", JStr (email input))] in
  let o := assign_if (truthy (opt_js JStr (firstName input)))
             "firstName" (opt_js JStr (firstName input)) o in
  let o := assign_if (truthy (opt_js JStr (lastName input)))
             "lastName" (opt_js JStr (lastName input)) o in
  let o := assign_if (truthy (opt_js JStr (phone input)))
             "phone" (opt_js JStr (phone input)) o in
  let o := assign_if (negb (is_undefined (opt_js JBool (acceptsMarketing input))))
             "acceptsMarketing" (opt_js JBool (acceptsMarketing input)) o in
  let o := assign_if (truthy (opt_js JArr (addresses input)))
             "addresses" (opt_js JArr (addresses input)) o in
  let o := assign_if (truthy (opt_js JArr (metafields input)))
             "metafields" (opt_js JArr (metafields input)) o in
  let o := assign_if (truthy (opt_js js_strings (tags input)))
             "tags" (opt_js js_strings (tags input)) o in
  o.

Definition mutation_input (input : Input) : Props := customerInput input.

Definition variables (input : Input) : JsVal :=
  JObj [("input", JObj (customerInput input))].

(** Lines 86-104. *)
Definition shape (customer : JsVal) : Completion JsVal :=
  base <- pick customer
    ["id"; "displayName"; "email"; "firstName"; "lastName"; "phone";
     "acceptsMarketing"; "state"; "numberOfOrders"; "createdAt";
     "updatedAt"; "defaultAddress"] ;;
  a <- prop customer "addresses" ;;
  addrs <- unwrapEdges_optional a ;;
  m <- prop customer "metafields" ;;
  metas <- unwrapEdges_optional m ;;
  Normal (JObj [("customer",
    JObj (base ++ [("addresses", JArr addrs); ("metafields", JArr metas)])%list)]).

Definition body (shopifyClient : option (Client MutationData))
  (input : Input) : Completion JsVal :=
  client <- getGraphQLClient shopifyClient ;;
  data <- client (variables input) ;;
  handleGraphQLErrors (userErrors data) operation ;;;
  shape (payload data).

Definition on_error (error : Thrown) : Completion JsVal :=
  handleExecutionError error operation.

Definition execute (shopifyClient : option (Client MutationData))
  (input : Input) : Completion JsVal :=
  try_catch (body shopifyClient input) on_error.

End CreateCustomer.

(* ===================================================================== *)
(** ** src/tools/inventory/adjust-inventory.ts                            *)
(* ===================================================================== *)

Module AdjustInventory.

Record Input : Type := mkInput {
  inventoryItemId : string;
  locationId : string;
  availableDelta : Z;
  reason : option string
}.

(** [AdjustInventoryInputSchema] (lines 7-12) applied to a raw argument
    object: two strings, an integer, an optional string. [None] is a
    validation failure. *)
Definition AdjustInventoryInputSchema (raw : JsVal) : option Input :=
  match raw with
  | JObj o =>
      match field_of o "inventoryItemId", field_of o "locationId",
            field_of o "availableDelta", field_of o "reason" with
      | JStr i, JStr l, JNum d, JUndefined => Some (mkInput i l d None)
      | JStr i, JStr l, JNum d, JStr r => Some (mkInput i l d (Some r))
      | _, _, _, _ => None
      end
  | _ => None
  end.

Definition operation : string := "adjust inventory".

(** Lines 52-59. *)
Definition mutation_input (input : Input) : Props :=
  [("inventoryItemId", JStr (formatGid "InventoryItem" (inventoryItemId input)));
   ("locationId", JStr (formatGid "Location" (locationId input)));
   ("availableDelta", JNum (availableDelta input));
   ("reason", opt_js JStr (reason input))].

Definition variables (input : Input) : JsVal :=
  JObj [("input", JObj (mutation_input input))].

(** [level.quantities.reduce((acc, q) => { acc[q.name] = q.quantity; return acc }, {})]. *)
Definition reduce_quantities (qs : JsVal) : Completion Props :=
  match qs with
  | JArr items =>
      fold_left
        (fun acc q =>
           a <- acc ;;
           n <- prop q "name" ;;
           v <- prop q "quantity" ;;
           Normal (assign_computed a (js_String n) v))
        items (Normal [])
  | JUndefined =>
      Throw (ErrorObj TypeError
        "Cannot read properties of undefined (reading 'reduce')")
  | JNull =>
      Throw (ErrorObj TypeError
        "Cannot read properties of null (reading 'reduce')")
  | _ => Throw (ErrorObj TypeError "level.quantities.reduce is not a function")
  end.

(** Lines 65-85. *)
Definition shape (level : JsVal) : Completion JsVal :=
  qs <- prop level "quantities" ;;
  quantities <- reduce_quantities qs ;;
  id <- prop level "id" ;;
  item <- prop level "item" ;;
  item' <- pick_obj item ["id"; "sku"; "tracked"] ;;
  loc <- prop level "location" ;;
  loc' <- pick_obj loc ["id"; "name"] ;;
  Normal (JObj [("inventoryLevel",
    JObj (set_prop (set_prop (spread [("id", id)] quantities) "item" item')
            "location" loc'))]).

Definition body (shopifyClient : option (Client MutationData))
  (input : Input) : Completion JsVal :=
  client <- getGraphQLClient shopifyClient ;;
  data <- client (variables input) ;;
  handleGraphQLErrors (userErrors data) operation ;;;
  shape (payload data).

Definition on_error (error : Thrown) : Completion JsVal :=
  handleExecutionError error operation.

Definition execute (shopifyClient : option (Client MutationData))
  (input : Input) : Completion JsVal :=
  try_catch (body shopifyClient input) on_error.

End AdjustInventory.

(* ===================================================================== *)
(** ** src/tools/products/get-product-by-id.ts                            *)
(* ===================================================================== *)

Module GetProductById.

Record Input : Type := mkInput { productId : string }.

(** [z.object({ productId: z.string().min(1, ..) })]. *)
Definition GetProductByIdInputSchema (raw : JsVal) : option Input :=
  match raw with
  | JObj o =>
      match field_of o "productId" with
      | JStr s => if Nat.leb 1 (String.length s) then Some (mkInput s) else None
      | _ => None
      end
  | _ => None
  end.

Definition operation : string := "fetch product details".

Definition variables (input : Input) : JsVal :=
  JObj [("id", JStr (formatGid "Product" (productId input)))].

Definition money_of (range : JsVal) (k : string) : Completion JsVal :=
  p <- prop range k ;; pick_obj p ["amount"; "currencyCode"].

(** [formatProductDetails(product)] (lines 43-115). *)
Definition formatProductDetails (product : JsVal) : Completion JsVal :=
  if negb (truthy product) then throw_Error "Product not found"
  else
    variants <- nodes_of product "variants" ;;
    images <- nodes_of product "images" ;;
    metafields <- nodes_of product "metafields" ;;
    collections <- nodes_of product "collections" ;;
    base <- pick product
      ["id"; "title"; "description"; "descriptionHtml"; "handle"; "status";
       "vendor"; "productType"; "tags"; "createdAt"; "updatedAt";
       "totalInventory"] ;;
    range <- prop product "priceRangeV2" ;;
    minPrice <- money_of range "minVariantPrice" ;;
    maxPrice <- money_of range "maxVariantPrice" ;;
    options <- prop product "options" ;;
    variants' <- map_pick variants
      ["id"; "title"; "price"; "sku"; "weight"; "weightUnit";
       "inventoryQuantity"; "inventoryPolicy"; "inventoryManagement";
       "requiresShipping"; "taxable"; "barcode"; "selectedOptions"] ;;
    images' <- map_pick images ["id"; "src"; "altText"; "width"; "height"] ;;
    seo <- prop product "seo" ;;
    metafields' <- map_pick metafields
      ["id"; "namespace"; "key"; "value"; "type"] ;;
    collections' <- map_pick collections ["id"; "title"; "handle"] ;;
    Normal (JObj [("product",
      JObj (base ++
        [("priceRange", JObj [("minPrice", minPrice); ("maxPrice", maxPrice)]);
         ("options", options);
         ("variants", variants');
         ("images", images');
         ("seo", seo);
         ("metafields", metafields');
         ("collections", collections')])%list)]).

(** The try block of [execute] (lines 122-135); the client returns the
    decoded [data]. *)
Definition body (shopifyClient : option (Client JsVal))
  (input : Input) : Completion JsVal :=
  client <- getGraphQLClient shopifyClient ;;
  let productGid := formatGid "Product" (productId input) in
  data <- client (JObj [("id", JStr productGid)]) ;;
  product <- prop data "product" ;;
  formatProductDetails product.

Definition on_error (error : Thrown) : Completion JsVal :=
  handleExecutionError error operation.

Definition execute (shopifyClient : option (Client JsVal))
  (input : Input) : Completion JsVal :=
  try_catch (body shopifyClient input) on_error.

End GetProductById.

(* ===================================================================== *)
(** ** src/tools/orders/create-order.ts                                   *)
(* ===================================================================== *)

Module CreateOrder.

Inductive FinancialStatus : Type := PENDING | PAID | REFUNDED | VOIDED.
Inductive FulfillmentStatus : Type := UNFULFILLED | FULFILLED | PARTIAL.

Definition FinancialStatus_str (s : FinancialStatus) : string :=
  match s with
  | PENDING => "PENDING" | PAID => "PAID"
  | REFUNDED => "REFUNDED" | VOIDED => "VOIDED"
  end.

Definition FulfillmentStatus_str (s : FulfillmentStatus) : string :=
  match s with
  | UNFULFILLED => "UNFULFILLED" | FULFILLED => "FULFILLED"
  | PARTIAL => "PARTIAL"
  end.

(** [LineItemSchema]. *)
Record LineItem : Type := mkLineItem {
  variantId : string;
  quantity : Z;
  price : option string;
  customAttributes : option (list JsVal)
}.

(** [z.infer<typeof CreateOrderInputSchema>]; the two receipt flags carry
    a schema default and are always present after validation. *)
Record Input : Type := mkInput {
  customerId : option string;
  email : option string;
  phone : option string;
  note : option string;
  tags : option (list string);
  lineItems : list LineItem;
  shippingAddress : option Props;
  billingAddress : option Props;
  shippingLine : option Props;
  financialStatus : option FinancialStatus;
  fulfillmentStatus : option FulfillmentStatus;
  sendReceipt : bool;
  sendFulfillmentReceipt : bool;
  metafields : option (list JsVal)
}.

Definition operation : string := "create order".

(** The object built for one line item (lines 77-81). *)
Definition line_item_input (item : LineItem) : Props :=
  [("variantId", JStr (formatGid "ProductVariant" (variantId item)));
   ("quantity", JNum (quantity item));
   ("customAttributes", opt_js JArr (customAttributes item))].

(** [formatOrderInput(input)] (lines 75-103). *)
Definition formatOrderInput (input : Input) : Props :=
  let o := [("lineItems",
             JArr (map (fun item => JObj (line_item_input item))
                     (lineItems input)))] in
  let o := assign_if (truthy (opt_js JStr (customerId input)))
             "customerId"
             (opt_js (fun id => JStr (formatGid "Customer" id))
                (customerId input)) o in
  let o := assign_if (truthy (opt_js JStr (email input)))
             "email" (opt_js JStr (email input)) o in
  let o := assign_if (truthy (opt_js JStr (phone input)))
             "phone" (opt_js JStr (phone input)) o in
  let o := assign_if (truthy (opt_js JStr (note input)))
             "note" (opt_js JStr (note input)) o in
  let o := assign_if (truthy (opt_js js_strings (tags input)))
             "tags" (opt_js js_strings (tags input)) o in
  let o := assign_if (truthy (opt_js JObj (shippingAddress input)))
             "shippingAddress" (opt_js JObj (shippingAddress input)) o in
  let o := assign_if (truthy (opt_js JObj (billingAddress input)))
             "billingAddress" (opt_js JObj (billingAddress input)) o in
  let o := assign_if (truthy (opt_js JObj (shippingLine input)))
             "shippingLine" (opt_js JObj (shippingLine input)) o in
  let fin := opt_js (fun s => JStr (FinancialStatus_str s))
               (financialStatus input) in
  let o := assign_if (truthy fin) "financialStatus" fin o in
  let ful := opt_js (fun s => JStr (FulfillmentStatus_str s))
               (fulfillmentStatus input) in
  let o := assign_if (truthy ful) "fulfillmentStatus" ful o in
  let o := assign_if (negb (is_undefined (JBool (sendReceipt input))))
             "sendReceipt" (JBool (sendReceipt input)) o in
  let o := assign_if (negb (is_undefined (JBool (sendFulfillmentReceipt input))))
             "sendFulfillmentReceipt" (JBool (sendFulfillmentReceipt input)) o in
  let o := assign_if (truthy (opt_js JArr (metafields input)))
             "metafields" (opt_js JArr (metafields input)) o in
  o.

Definition mutation_input (input : Input) : Props := formatOrderInput input.

Definition variables (input : Input) : JsVal :=
  JObj [("order", JObj (formatOrderInput input))].

(** [{amount: order.K.shopMoney.amount, currencyCode: order.K.shopMoney.currencyCode}]. *)
Definition shop_money (order : JsVal) (k : string) : Completion JsVal :=
  s <- prop order k ;;
  m <- prop s "shopMoney" ;;
  pick_obj m ["amount"; "currencyCode"].

(** [formatOrderResponse(order)] (lines 105-179). *)
Definition formatOrderResponse (order : JsVal) : Completion JsVal :=
  lineItems <- nodes_of order "lineItems" ;;
  shippingLines <- nodes_of order "shippingLines" ;;
  fulfillments <- nodes_of order "fulfillments" ;;
  metafields <- nodes_of order "metafields" ;;
  base <- pick order
    ["id"; "name"; "email"; "phone"; "note"; "tags";
     "displayFinancialStatus"; "displayFulfillmentStatus"; "createdAt";
     "updatedAt"; "processedAt"; "closedAt"; "cancelledAt"; "currencyCode"] ;;
  totalPrice <- shop_money order "totalPriceSet" ;;
  subtotalPrice <- shop_money order "subtotalPriceSet" ;;
  totalTax <- shop_money order "totalTaxSet" ;;
  totalShippingPrice <- shop_money order "totalShippingPriceSet" ;;
  rest <- pick order ["billingAddress"; "shippingAddress"; "customer"] ;;
  lineItems' <- map_pick lineItems
    ["id"; "title"; "quantity"; "price"; "originalUnitPrice";
     "discountedUnitPrice"; "discountedTotal"; "variant"; "product"] ;;
  shippingLines' <- map_pick shippingLines
    ["id"; "title"; "price"; "code"; "source"] ;;
  fulfillments' <- map_pick fulfillments
    ["id"; "status"; "createdAt"; "trackingInfo"] ;;
  metafields' <- map_pick metafields
    ["id"; "namespace"; "key"; "value"; "type"] ;;
  Normal (JObj [("order",
    JObj (base ++
      [("totalPrice", totalPrice); ("subtotalPrice", subtotalPrice);
       ("totalTax", totalTax); ("totalShippingPrice", totalShippingPrice)] ++
      rest ++
      [("lineItems", lineItems'); ("shippingLines", shippingLines');
       ("fulfillments", fulfillments'); ("metafields", metafields')])%list)]).

Definition body (shopifyClient : option (Client MutationData))
  (input : Input) : Completion JsVal :=
  client <- getGraphQLClient shopifyClient ;;
  data <- client (variables input) ;;
  handleGraphQLErrors (userErrors data) operation ;;;
  formatOrderResponse (payload data).

Definition on_error (error : Thrown) : Completion JsVal :=
  handleExecutionError error operation.

Definition execute (shopifyClient : option (Client MutationData))
  (input : Input) : Completion JsVal :=
  try_catch (body shopifyClient input) on_error.

End CreateOrder.

(* ===================================================================== *)
(** ** src/tools/products/create-product.ts                               *)
(* ===================================================================== *)

Module CreateProduct.

Record ProductOption : Type := mkOption {
  name : string;
  values : list string
}.

Record Variant : Type := mkVariant {
  options : list string;
  price : string;
  sku : option string;
  weight : option Z;
  weightUnit : option string;
  inventoryQuantity : option Z;
  inventoryPolicy : option string;
  inventoryManagement : option string;
  requiresShipping : option bool;
  taxable : option bool;
  barcode : option string
}.

Record Image : Type := mkImage { src : string; altText : option string }.

Record Metafield : Type := mkMetafield {
  namespace : string; key : string; value : string; type : string
}.

(** [status] has the schema default "ACTIVE": present after validation. *)
Record Input : Type := mkInput {
  title : string;
  descriptionHtml : option string;
  vendor : option string;
  productType : option string;
  tags : option (list string);
  status : string;
  productOptions : option (list ProductOption);
  variants : option (list Variant);
  images : option (list Image);
  seo : option Props;
  metafields : option (list Metafield);
  collectionsToJoin : option (list string);
  giftCard : option bool;
  taxCode : option string
}.

Definition operation : string := "create product".

Definition option_js (o : ProductOption) : JsVal :=
  JObj [("name", JStr (name o)); ("values", js_strings (values o))].

(** The variant object; [default_location] is the text the tool puts in
    [inventoryQuantities.locationId]. *)
Definition variant_input (default_location : string) (variant : Variant)
  : JsVal :=
  JObj
    [("options", js_strings (options variant));
     ("price", JStr (price variant));
     ("sku", opt_js JStr (sku variant));
     ("weight", opt_js JNum (weight variant));
     ("weightUnit", opt_js JStr (weightUnit variant));
     ("inventoryQuantities",
       match inventoryQuantity variant with
       | Some q => JObj [("availableQuantity", JNum q);
                         ("locationId", JStr default_location)]
       | None => JUndefined
       end);
     ("inventoryPolicy", opt_js JStr (inventoryPolicy variant));
     ("inventoryManagement", opt_js JStr (inventoryManagement variant));
     ("requiresShipping", opt_js JBool (requiresShipping variant));
     ("taxable", opt_js JBool (taxable variant));
     ("barcode", opt_js JStr (barcode variant))].

Definition image_input (image : Image) : JsVal :=
  JObj [("src", JStr (src image)); ("altText", opt_js JStr (altText image))].

Definition metafield_input (m : Metafield) : JsVal :=
  JObj [("namespace", JStr (namespace m)); ("key", JStr (key m));
        ("value", JStr (value m)); ("type", JStr (type m))].

Definition opt_list_js {A : Type} (f : A -> JsVal) (l : option (list A))
  : JsVal :=
  opt_js (fun xs => JArr (map f xs)) l.

(** The conditionally merged head of the product input (lines 87-100). *)
Definition productInput (input : Input) : Props :=
  let o := [("title", JStr (title input)); ("status", JStr (status input))] in
  let o := assign_if (truthy (opt_js JStr (descriptionHtml input)))
             "descriptionHtml" (opt_js JStr (descriptionHtml input)) o in
  let o := assign_if (truthy (opt_js JStr (vendor input)))
             "vendor" (opt_js JStr (vendor input)) o in
  let o := assign_if (truthy (opt_js JStr (productType input)))
             "productType" (opt_js JStr (productType input)) o in
  let o := assign_if (nonempty_arr (opt_js js_strings (tags input)))
             "tags" (opt_js js_strings (tags input)) o in
  let o := assign_if (nonempty_arr (opt_list_js option_js (productOptions input)))
             "options" (opt_list_js option_js (productOptions input)) o in
  let o := assign_if (truthy (opt_js JObj (seo input)))
             "seo" (opt_js JObj (seo input)) o in
  let o := assign_if (negb (is_undefined (opt_js JBool (giftCard input))))
             "giftCard" (opt_js JBool (giftCard input)) o in
  o.

(** [formatProductInput(input)] (lines 86-139). *)
Definition formatProductInput (input : Input) : Props :=
  spread (productInput input)
    [("variants",
        opt_list_js (variant_input (formatGid "Location" "1")) (variants input));
     ("images", opt_list_js image_input (images input));
     ("metafields", opt_list_js metafield_input (metafields input));
     ("collectionsToJoin",
        opt_list_js (fun id => JStr (formatGid "Collection" id))
          (collectionsToJoin input))].

Definition mutation_input (input : Input) : Props := formatProductInput input.

Definition variables (input : Input) : JsVal :=
  JObj [("input", JObj (formatProductInput input))].

(** [formatProductResponse(product)] (lines 141-193). *)
Definition formatProductResponse (product : JsVal) : Completion JsVal :=
  variants <- nodes_of product "variants" ;;
  images <- nodes_of product "images" ;;
  metafields <- nodes_of product "metafields" ;;
  base <- pick product
    ["id"; "title"; "descriptionHtml"; "vendor"; "productType"; "tags";
     "status"; "options"] ;;
  variants' <- map_pick variants
    ["id"; "title"; "price"; "sku"; "weight"; "weightUnit";
     "inventoryQuantity"; "inventoryPolicy"; "inventoryManagement";
     "requiresShipping"; "taxable"; "barcode"; "selectedOptions"] ;;
  images' <- map_pick images ["id"; "src"; "altText"; "width"; "height"] ;;
  seo <- prop product "seo" ;;
  metafields' <- map_pick metafields
    ["id"; "namespace"; "key"; "value"; "type"] ;;
  rest <- pick product ["giftCard"; "handle"; "createdAt"; "updatedAt"] ;;
  Normal (JObj [("product",
    JObj (base ++
      [("variants", variants'); ("images", images'); ("seo", seo);
       ("metafields", metafields')] ++ rest)%list)]).

Definition body (shopifyClient : option (Client MutationData))
  (input : Input) : Completion JsVal :=
  client <- getGraphQLClient shopifyClient ;;
  data <- client (variables input) ;;
  handleGraphQLErrors (userErrors data) operation ;;;
  formatProductResponse (payload data).

Definition on_error (error : Thrown) : Completion JsVal :=
  handleExecutionError error operation.

Definition execute (shopifyClient : option (Client MutationData))
  (input : Input) : Completion JsVal :=
  try_catch (body shopifyClient input) on_error.

End CreateProduct.

(* ===================================================================== *)
(** ** Idioms shared by the tools that keep their own client handle       *)
(* ===================================================================== *)

(** [id.startsWith('gid://') ? id : `gid://shopify/T/${id}`], written out
    in place by these tools. *)
Definition inline_gid (resource id : string) : string :=
  if startsWith id "gid://" then id
  else "gid://shopify/" ++ resource ++ "/" ++ id.

(** The validated input seen as an object: zod leaves out the keys of
    optional fields that were not supplied. *)
Definition present (fields : Props) : Props :=
  filter (fun kv => negb (is_undefined (snd kv))) fields.

(** [c?.edges.map(edge => edge.node) || []]. *)
Definition unwrapEdges_if_present (c : JsVal) : Completion (list JsVal) :=
  match c with
  | JUndefined | JNull => Normal []
  | _ => e <- prop c "edges" ;; js_map "edges" e (fun edge => prop edge "node")
  end.

(** [base.k.edges.map(edge => f(edge.node))]. *)
Definition edges_map (base : JsVal) (k : string)
  (f : JsVal -> Completion JsVal) : Completion JsVal :=
  c <- prop base k ;;
  e <- prop c "edges" ;;
  ys <- js_map "edges" e (fun edge => n <- prop edge "node" ;; f n) ;;
  Normal (JArr ys).

(* ===================================================================== *)
(** ** src/tools/createCustomer.ts                                        *)
(* ===================================================================== *)

Module LegacyCreateCustomer.

Record Input : Type := mkInput {
  firstName : option string;
  lastName : option string;
  email : string;
  phone : option string;
  taxExempt : option bool;
  smsMarketingConsent : option Props;
  metafields : option (list JsVal)
}.

Definition operation : string := "create customer".

Definition input_object (input : Input) : Props :=
  present
    [("firstName", opt_js JStr (firstName input));
     ("lastName", opt_js JStr (lastName input));
     ("email", JStr (email input));
     ("phone", opt_js JStr (phone input));
     ("taxExempt", opt_js JBool (taxExempt input));
     ("smsMarketingConsent", opt_js JObj (smsMarketingConsent input));
     ("metafields", opt_js JArr (metafields input))].

(** [variables = { input: input }]. *)
Definition mutation_input (input : Input) : Props := input_object input.

Definition variables (input : Input) : JsVal :=
  JObj [("input", JObj (input_object input))].

Definition shape (customer : JsVal) : Completion JsVal :=
  Normal (JObj [("customer", customer)]).

Definition body (shopifyClient : option (Client MutationData))
  (input : Input) : Completion JsVal :=
  data <- request_via shopifyClient (variables input) ;;
  throw_if_userErrors operation (userErrors data) ;;;
  shape (payload data).

Definition on_error (error : Thrown) : Completion JsVal :=
  rethrow_failed operation error.

Definition execute (shopifyClient : option (Client MutationData))
  (input : Input) : Completion JsVal :=
  try_catch (body shopifyClient input) on_error.

End LegacyCreateCustomer.

(* ===================================================================== *)
(** ** src/tools/updateCustomer.ts                                        *)
(* ===================================================================== *)

Module UpdateCustomer.

Record Input : Type := mkInput {
  id : string;
  firstName : option string;
  lastName : option string;
  email : option string;
  phone : option string;
  taxExempt : option bool;
  smsMarketingConsent : option Props;
  metafields : option (list JsVal)
}.

Definition operation : string := "update customer".

Definition input_object (input : Input) : Props :=
  present
    [("id", JStr (id input));
     ("firstName", opt_js JStr (firstName input));
     ("lastName", opt_js JStr (lastName input));
     ("email", opt_js JStr (email input));
     ("phone", opt_js JStr (phone input));
     ("taxExempt", opt_js JBool (taxExempt input));
     ("smsMarketingConsent", opt_js JObj (smsMarketingConsent input));
     ("metafields", opt_js JArr (metafields input))].

(** [const { id, ...customerFields } = input;
     customerInput = { id: `gid://shopify/Customer/${id}`, ...customerFields }]. *)
Definition customerInput (input : Input) : Props :=
  let customerFields := delete_prop (input_object input) "id" in
  let customerGid := "gid://shopify/Customer/" ++ id input in
  spread [("id", JStr customerGid)] customerFields.

Definition mutation_input (input : Input) : Props := customerInput input.

Definition variables (input : Input) : JsVal :=
  JObj [("input", JObj (customerInput input))].

Definition shape (customer : JsVal) : Completion JsVal :=
  m <- prop customer "metafields" ;;
  metas <- unwrapEdges_if_present m ;;
  base <- pick customer
    ["id"; "firstName"; "lastName"; "email"; "phone"; "taxExempt";
     "smsMarketingConsent"] ;;
  Normal (JObj [("customer",
    JObj (base ++ [("metafields", JArr metas)])%list)]).

Definition body (shopifyClient : option (Client MutationData))
  (input : Input) : Completion JsVal :=
  data <- request_via shopifyClient (variables input) ;;
  throw_if_userErrors operation (userErrors data) ;;;
  shape (payload data).

Definition on_error (error : Thrown) : Completion JsVal :=
  rethrow_failed operation error.

Definition execute (shopifyClient : option (Client MutationData))
  (input : Input) : Completion JsVal :=
  try_catch (body shopifyClient input) on_error.

End UpdateCustomer.

(* ===================================================================== *)
(** ** src/tools/createFulfillment.ts                                     *)
(* ===================================================================== *)

Module CreateFulfillment.

(** [notifyCustomer] has the schema default [true]. *)
Record Input : Type := mkInput {
  orderId : string;
  trackingInfo : option Props;
  notifyCustomer : bool;
  lineItems : option (list JsVal);
  locationId : option string;
  trackingNumbers : option (list string);
  trackingUrls : option (list string);
  metadata : option Props
}.

Definition operation : string := "create fulfillment".

(** Lines 52-80. *)
Definition fulfillmentInput (input : Input) : Props :=
  let o := [("orderId", JStr (orderId input));
            ("notifyCustomer", JBool (notifyCustomer input))] in
  let o := assign_if (nonempty_arr (opt_js JArr (lineItems input)))
             "lineItems" (opt_js JArr (lineItems input)) o in
  let o := assign_if (truthy (opt_js JObj (trackingInfo input)))
             "trackingInfo" (opt_js JObj (trackingInfo input)) o in
  let o := assign_if (truthy (opt_js JStr (locationId input)))
             "locationId" (opt_js JStr (locationId input)) o in
  let o := assign_if (nonempty_arr (opt_js js_strings (trackingNumbers input)))
             "trackingNumbers" (opt_js js_strings (trackingNumbers input)) o in
  let o := assign_if (nonempty_arr (opt_js js_strings (trackingUrls input)))
             "trackingUrls" (opt_js js_strings (trackingUrls input)) o in
  let o := assign_if (truthy (opt_js JObj (metadata input)))
             "metadata" (opt_js JObj (metadata input)) o in
  o.

Definition mutation_input (input : Input) : Props := fulfillmentInput input.

Definition variables (input : Input) : JsVal :=
  JObj [("fulfillment", JObj (fulfillmentInput input))].

Definition shape (fulfillment : JsVal) : Completion JsVal :=
  o <- pick fulfillment
    ["id"; "status"; "createdAt"; "updatedAt"; "trackingInfo";
     "trackingNumbers"; "trackingUrls"; "legacyResourceId"; "deliveredAt";
     "displayStatus"; "estimatedDeliveryAt"; "name"; "originAddress";
     "service"] ;;
  Normal (JObj [("fulfillment", JObj o)]).

Definition body (shopifyClient : option (Client MutationData))
  (input : Input) : Completion JsVal :=
  data <- request_via shopifyClient (variables input) ;;
  throw_if_userErrors operation (userErrors data) ;;;
  shape (payload data).

Definition on_error (error : Thrown) : Completion JsVal :=
  rethrow_failed operation error.

Definition execute (shopifyClient : option (Client MutationData))
  (input : Input) : Completion JsVal :=
  try_catch (body shopifyClient input) on_error.

End CreateFulfillment.

(* ===================================================================== *)
(** ** src/tools/setInventoryTracking.ts                                  *)
(* ===================================================================== *)

Module SetInventoryTracking.

Record Input : Type := mkInput {
  inventoryItemId : string;
  tracked : bool
}.

Definition operation : string := "set inventory tracking".

Definition mutation_input (input : Input) : Props :=
  [("id", JStr (inline_gid "InventoryItem" (inventoryItemId input)));
   ("tracked", JBool (tracked input))].

Definition variables (input : Input) : JsVal :=
  JObj [("input", JObj (mutation_input input))].

Definition variant_obj (variant : JsVal) : Completion JsVal :=
  base <- pick variant ["id"; "displayName"; "sku"] ;;
  p <- prop variant "product" ;;
  p' <- when_truthy p (fun p => pick_obj p ["id"; "title"]) ;;
  Normal (JObj (base ++ [("product", p')])%list).

Definition level_obj (level : JsVal) : Completion JsVal :=
  base <- pick level ["id"; "available"] ;;
  l <- prop level "location" ;;
  l' <- when_truthy l (fun l => pick_obj l ["id"; "name"]) ;;
  Normal (JObj (base ++ [("location", l')])%list).

Definition shape (inventoryItem : JsVal) : Completion JsVal :=
  inventoryLevels <- edges_map inventoryItem "inventoryLevels" level_obj ;;
  base <- pick inventoryItem ["id"; "tracked"] ;;
  v <- prop inventoryItem "variant" ;;
  v' <- when_truthy v variant_obj ;;
  Normal (JObj [("inventoryItem",
    JObj (base ++ [("inventoryLevels", inventoryLevels); ("variant", v')])%list)]).

Definition body (shopifyClient : option (Client MutationData))
  (input : Input) : Completion JsVal :=
  data <- request_via shopifyClient (variables input) ;;
  throw_if_userErrors operation (userErrors data) ;;;
  shape (payload data).

Definition on_error (error : Thrown) : Completion JsVal :=
  rethrow_failed operation error.

Definition execute (shopifyClient : option (Client MutationData))
  (input : Input) : Completion JsVal :=
  try_catch (body shopifyClient input) on_error.

End SetInventoryTracking.

(* ===================================================================== *)
(** ** src/tools/createCollection.ts (compiled copy: unnamed/part_001)    *)
(* ===================================================================== *)

Module CreateCollection.

Record Input : Type := mkInput {
  title : string;
  description : option string;
  descriptionHtml : option string;
  handle : option string;
  isPublished : option bool;
  seo : option Props;
  image : option Props;
  productsToAdd : option (list string);
  sortOrder : option string;
  templateSuffix : option string;
  privateMetafields : option (list JsVal);
  ruleSet : option Props;
  metafields : option (list JsVal);
  publications : option (list JsVal)
}.

Definition operation : string := "create collection".

(** Every key is written, whatever the input holds. *)
Definition mutationInput (input : Input) : Props :=
  [("title", JStr (title input));
   ("descriptionHtml", opt_js JStr (descriptionHtml input));
   ("handle", opt_js JStr (handle input));
   ("seo", opt_js JObj (seo input));
   ("image", opt_js JObj (image input));
   ("sortOrder", opt_js JStr (sortOrder input));
   ("templateSuffix", opt_js JStr (templateSuffix input));
   ("metafields", opt_js JArr (metafields input));
   ("ruleSet", opt_js JObj (ruleSet input))].

Definition mutation_input (input : Input) : Props := mutationInput input.

Definition variables (input : Input) : JsVal :=
  JObj [("input", JObj (mutationInput input))].

(** [userErrors.map(e => e.message).join(", ")]: the field is not used. *)
Definition throw_if_userErrors_messages (errs : list UserError)
  : Completion unit :=
  if Nat.ltb 0 (List.length errs) then
    throw_Error ("Failed to create collection: "
      ++ join ", " (map message errs))
  else Normal tt.

Definition shape (collection : JsVal) : Completion JsVal :=
  pick_obj collection
    ["id"; "handle"; "title"; "updatedAt"; "descriptionHtml";
     "publishedOnCurrentPublication"; "sortOrder"; "templateSuffix"; "seo";
     "image"; "metafields"].

Definition body (graphQLClient : option (Client MutationData))
  (input : Input) : Completion JsVal :=
  response <- request_via graphQLClient (variables input) ;;
  throw_if_userErrors_messages (userErrors response) ;;;
  shape (payload response).

Definition on_error (error : Thrown) : Completion JsVal :=
  rethrow_failed operation error.

Definition execute (graphQLClient : option (Client MutationData))
  (input : Input) : Completion JsVal :=
  try_catch (body graphQLClient input) on_error.

End CreateCollection.

(* ===================================================================== *)
(** ** dist/tools/createCollection.js, and its TypeScript predecessor
       unnamed/part_008 (the same statements without private metafields
       and publications)                                                  *)
(* ===================================================================== *)

Module DistCreateCollection.

Definition Input : Type := CreateCollection.Input.

Definition operation : string := "create collection".

(** The guards shared by both versions (part_008 lines 234-286). *)
Definition collectionInput_common (input : Input) : Props :=
  let o := [("title", JStr (CreateCollection.title input))] in
  let o := assign_if (truthy (opt_js JStr (CreateCollection.description input)))
             "description" (opt_js JStr (CreateCollection.description input)) o in
  let o := assign_if (truthy (opt_js JStr (CreateCollection.descriptionHtml input)))
             "descriptionHtml"
             (opt_js JStr (CreateCollection.descriptionHtml input)) o in
  let o := assign_if (truthy (opt_js JStr (CreateCollection.handle input)))
             "handle" (opt_js JStr (CreateCollection.handle input)) o in
  let o := assign_if
             (negb (is_undefined (opt_js JBool (CreateCollection.isPublished input))))
             "published" (opt_js JBool (CreateCollection.isPublished input)) o in
  let o := assign_if (truthy (opt_js JObj (CreateCollection.seo input)))
             "seo" (opt_js JObj (CreateCollection.seo input)) o in
  let o := assign_if (truthy (opt_js JObj (CreateCollection.image input)))
             "image" (opt_js JObj (CreateCollection.image input)) o in
  let o := assign_if (truthy (opt_js JStr (CreateCollection.sortOrder input)))
             "sortOrder" (opt_js JStr (CreateCollection.sortOrder input)) o in
  let o := assign_if (truthy (opt_js JStr (CreateCollection.templateSuffix input)))
             "templateSuffix"
             (opt_js JStr (CreateCollection.templateSuffix input)) o in
  let o := assign_if (truthy (opt_js JObj (CreateCollection.ruleSet input)))
             "ruleSet" (opt_js JObj (CreateCollection.ruleSet input)) o in
  let o := assign_if
             (nonempty_arr (opt_js js_strings (CreateCollection.productsToAdd input)))
             "productsToAdd"
             (opt_js (fun ids => js_strings (map (inline_gid "Product") ids))
                (CreateCollection.productsToAdd input)) o in
  let o := assign_if
             (nonempty_arr (opt_js JArr (CreateCollection.metafields input)))
             "metafields" (opt_js JArr (CreateCollection.metafields input)) o in
  o.

(** part_008: the input type has no private metafields or publications. *)
Definition collectionInput_ts (input : Input) : Props :=
  collectionInput_common input.

(** dist/tools/createCollection.js: two more guarded fields. *)
Definition collectionInput (input : Input) : Props :=
  let o := collectionInput_common input in
  let o := assign_if
             (nonempty_arr (opt_js JArr (CreateCollection.privateMetafields input)))
             "privateMetafields"
             (opt_js JArr (CreateCollection.privateMetafields input)) o in
  let o := assign_if
             (nonempty_arr (opt_js JArr (CreateCollection.publications input)))
             "publications"
             (opt_js JArr (CreateCollection.publications input)) o in
  o.

Definition mutation_input (input : Input) : Props := collectionInput input.

Definition variables (input : Input) : JsVal :=
  JObj [("input", JObj (collectionInput input))].

Definition variables_ts (input : Input) : JsVal :=
  JObj [("input", JObj (collectionInput_ts input))].

Definition collection_fields : list string :=
  ["id"; "title"; "description"; "descriptionHtml"; "handle"; "updatedAt";
   "publishedAt"; "seo"; "image"; "sortOrder"; "templateSuffix";
   "productsCount"].

(** [if (isAutomatedCollection && collection.ruleSet) formatted.ruleSet = collection.ruleSet]. *)
Definition add_ruleSet (input : Input) (collection : JsVal) (formatted : Props)
  : Completion Props :=
  let isAutomatedCollection :=
    truthy (opt_js JObj (CreateCollection.ruleSet input)) in
  if isAutomatedCollection then
    r <- prop collection "ruleSet" ;;
    Normal (assign_if (truthy r) "ruleSet" r formatted)
  else Normal formatted.

Definition shape_ts (input : Input) (collection : JsVal) : Completion JsVal :=
  m <- prop collection "metafields" ;;
  metafields <- unwrapEdges_if_present m ;;
  base <- pick collection collection_fields ;;
  formatted <- add_ruleSet input collection
    (base ++ [("metafields", JArr metafields)])%list ;;
  Normal (JObj [("collection", JObj formatted)]).

Definition shape (input : Input) (collection : JsVal) : Completion JsVal :=
  m <- prop collection "metafields" ;;
  metafields <- unwrapEdges_if_present m ;;
  pm <- prop collection "privateMetafields" ;;
  privateMetafields <- unwrapEdges_if_present pm ;;
  pb <- prop collection "publications" ;;
  publications <- unwrapEdges_if_present pb ;;
  base <- pick collection collection_fields ;;
  pubs <- mapM (fun publication =>
            o <- pick_as publication
                   [("publicationId", "id"); ("publishDate", "publishDate")] ;;
            Normal (JObj o)) publications ;;
  formatted <- add_ruleSet input collection
    (base ++ [("metafields", JArr metafields);
              ("privateMetafields", JArr privateMetafields);
              ("publications", JArr pubs)])%list ;;
  Normal (JObj [("collection", JObj formatted)]).

Definition body (shopifyClient : option (Client MutationData))
  (input : Input) : Completion JsVal :=
  data <- request_via shopifyClient (variables input) ;;
  throw_if_userErrors operation (userErrors data) ;;;
  shape input (payload data).

Definition on_error (error : Thrown) : Completion JsVal :=
  rethrow_failed operation error.

Definition execute (shopifyClient : option (Client MutationData))
  (input : Input) : Completion JsVal :=
  try_catch (body shopifyClient input) on_error.

Definition body_ts (shopifyClient : option (Client MutationData))
  (input : Input) : Completion JsVal :=
  data <- request_via shopifyClient (variables_ts input) ;;
  throw_if_userErrors operation (userErrors data) ;;;
  shape_ts input (payload data).

Definition execute_ts (shopifyClient : option (Client MutationData))
  (input : Input) : Completion JsVal :=
  try_catch (body_ts shopifyClient input) on_error.

End DistCreateCollection.

(* ===================================================================== *)
(** ** dist/tools/adjustInventory.js, connectInventoryToLocation.js and
       disconnectInventoryFromLocation.js (unnamed/part_002)              *)
(* ===================================================================== *)

(** The nested response object the three inventory tools rebuild:
    [item ? { id, ..., variant: variant ? { ..., product: product ? {..} : null } : null } : null]. *)
Definition inventory_item_obj (item_keys variant_keys : list string)
  (item : JsVal) : Completion JsVal :=
  base <- pick item item_keys ;;
  v <- prop item "variant" ;;
  v' <- when_truthy v (fun variant =>
          vb <- pick variant variant_keys ;;
          p <- prop variant "product" ;;
          p' <- when_truthy p (fun p => pick_obj p ["id"; "title"]) ;;
          Normal (JObj (vb ++ [("product", p')])%list)) ;;
  Normal (JObj (base ++ [("variant", v')])%list).

Definition inventory_level_obj (level_keys item_keys variant_keys : list string)
  (inventoryLevel : JsVal) : Completion JsVal :=
  base <- pick inventoryLevel level_keys ;;
  i <- prop inventoryLevel "item" ;;
  i' <- when_truthy i (inventory_item_obj item_keys variant_keys) ;;
  l <- prop inventoryLevel "location" ;;
  l' <- when_truthy l (fun l => pick_obj l ["id"; "name"; "isActive"]) ;;
  Normal (JObj [("inventoryLevel",
    JObj (base ++ [("item", i'); ("location", l')])%list)]).

Module DistAdjustInventory.

Definition Input : Type := AdjustInventory.Input.

(** The schema of the compiled tool (lines 4-9): both identifiers carry
    [min(1)]. *)
Definition AdjustInventoryInputSchema (raw : JsVal) : option Input :=
  match raw with
  | JObj o =>
      match field_of o "inventoryItemId", field_of o "availableDelta",
            field_of o "locationId", field_of o "reason" with
      | JStr i, JNum d, JStr l, r =>
          if Nat.leb 1 (String.length i) && Nat.leb 1 (String.length l) then
            match r with
            | JUndefined => Some (AdjustInventory.mkInput i l d None)
            | JStr r => Some (AdjustInventory.mkInput i l d (Some r))
            | _ => None
            end
          else None
      | _, _, _, _ => None
      end
  | _ => None
  end.

Definition operation : string := "adjust inventory".

(** Lines 22-29 and 63-70. *)
Definition mutation_input (input : Input) : Props :=
  let formattedInventoryItemId :=
    inline_gid "InventoryItem" (AdjustInventory.inventoryItemId input) in
  let formattedLocationId :=
    inline_gid "Location" (AdjustInventory.locationId input) in
  [("inventoryItemId", JStr formattedInventoryItemId);
   ("availableDelta", JNum (AdjustInventory.availableDelta input));
   ("locationId", JStr formattedLocationId);
   ("reason", opt_js JStr (AdjustInventory.reason input))].

Definition variables (input : Input) : JsVal :=
  JObj [("input", JObj (mutation_input input))].

Definition shape : JsVal -> Completion JsVal :=
  inventory_level_obj ["id"; "available"]
    ["id"; "inventoryQuantity"; "tracked"]
    ["id"; "displayName"; "inventoryQuantity"].

Definition body (shopifyClient : option (Client MutationData))
  (input : Input) : Completion JsVal :=
  data <- request_via shopifyClient (variables input) ;;
  throw_if_userErrors operation (userErrors data) ;;;
  shape (payload data).

Definition on_error (error : Thrown) : Completion JsVal :=
  rethrow_failed operation error.

Definition execute (shopifyClient : option (Client MutationData))
  (input : Input) : Completion JsVal :=
  try_catch (body shopifyClient input) on_error.

End DistAdjustInventory.

Module ConnectInventoryToLocation.

Record Input : Type := mkInput {
  inventoryItemId : string;
  locationId : string;
  available : Z;
  reason : option string
}.

Definition operation : string := "connect inventory to location".

Definition mutation_input (input : Input) : Props :=
  [("inventoryItemId", JStr (inline_gid "InventoryItem" (inventoryItemId input)));
   ("locationId", JStr (inline_gid "Location" (locationId input)));
   ("available", JNum (available input));
   ("reason", opt_js JStr (reason input))].

Definition variables (input : Input) : JsVal := JObj (mutation_input input).

Definition shape : JsVal -> Completion JsVal :=
  inventory_level_obj ["id"; "available"] ["id"; "tracked"]
    ["id"; "displayName"; "sku"].

Definition body (shopifyClient : option (Client MutationData))
  (input : Input) : Completion JsVal :=
  data <- request_via shopifyClient (variables input) ;;
  throw_if_userErrors operation (userErrors data) ;;;
  shape (payload data).

Definition on_error (error : Thrown) : Completion JsVal :=
  rethrow_failed operation error.

Definition execute (shopifyClient : option (Client MutationData))
  (input : Input) : Completion JsVal :=
  try_catch (body shopifyClient input) on_error.

End ConnectInventoryToLocation.

Module DisconnectInventoryFromLocation.

Record Input : Type := mkInput {
  inventoryItemId : string;
  locationId : string;
  reason : option string
}.

Definition operation : string := "disconnect inventory from location".

Definition mutation_input (input : Input) : Props :=
  [("inventoryItemId", JStr (inline_gid "InventoryItem" (inventoryItemId input)));
   ("locationId", JStr (inline_gid "Location" (locationId input)));
   ("reason", opt_js JStr (reason input))].

Definition variables (input : Input) : JsVal := JObj (mutation_input input).

Definition shape : JsVal -> Completion JsVal :=
  inventory_level_obj ["id"; "deactivated"] ["id"; "tracked"]
    ["id"; "displayName"; "sku"].

Definition body (shopifyClient : option (Client MutationData))
  (input : Input) : Completion JsVal :=
  data <- request_via shopifyClient (variables input) ;;
  throw_if_userErrors operation (userErrors data) ;;;
  shape (payload data).

Definition on_error (error : Thrown) : Completion JsVal :=
  rethrow_failed operation error.

Definition execute (shopifyClient : option (Client MutationData))
  (input : Input) : Completion JsVal :=
  try_catch (body shopifyClient input) on_error.

End DisconnectInventoryFromLocation.

(* ===================================================================== *)
(** ** unnamed/part_005: the create-product tool with its own handle      *)
(* ===================================================================== *)

Module LegacyCreateProduct.

Definition Input : Type := CreateProduct.Input.

Definition operation : string := "create product".

(** Lines 84-117 are the guards of [CreateProduct.productInput]; the
    variant location is the literal text, and collection ids are
    qualified in place (lines 119-151, 230-238). *)
Definition mutation_input (input : Input) : Props :=
  spread (CreateProduct.productInput input)
    [("variants",
        CreateProduct.opt_list_js
          (CreateProduct.variant_input "gid://shopify/Location/1")
          (CreateProduct.variants input));
     ("images",
        CreateProduct.opt_list_js CreateProduct.image_input
          (CreateProduct.images input));
     ("metafields",
        CreateProduct.opt_list_js CreateProduct.metafield_input
          (CreateProduct.metafields input));
     ("collectionsToJoin",
        CreateProduct.opt_list_js (fun id => JStr (inline_gid "Collection" id))
          (CreateProduct.collectionsToJoin input))].

Definition variables (input : Input) : JsVal :=
  JObj [("input", JObj (mutation_input input))].

(** Lines 260-325. *)
Definition shape (product : JsVal) : Completion JsVal :=
  variants <- edges_map product "variants" (fun variant =>
    pick_obj variant
      ["id"; "title"; "price"; "sku"; "weight"; "weightUnit";
       "inventoryQuantity"; "inventoryPolicy"; "inventoryManagement";
       "requiresShipping"; "taxable"; "barcode"; "selectedOptions"]) ;;
  images <- edges_map product "images" (fun image =>
    pick_obj image ["id"; "src"; "altText"; "width"; "height"]) ;;
  metafields <- edges_map product "metafields" (fun metafield =>
    pick_obj metafield ["id"; "namespace"; "key"; "value"; "type"]) ;;
  base <- pick product
    ["id"; "title"; "descriptionHtml"; "vendor"; "productType"; "tags";
     "status"; "options"] ;;
  seo <- prop product "seo" ;;
  rest <- pick product ["giftCard"; "handle"; "createdAt"; "updatedAt"] ;;
  Normal (JObj [("product",
    JObj (base ++
      [("variants", variants); ("images", images); ("seo", seo);
       ("metafields", metafields)] ++ rest)%list)]).

Definition body (shopifyClient : option (Client MutationData))
  (input : Input) : Completion JsVal :=
  data <- request_via shopifyClient (variables input) ;;
  throw_if_userErrors operation (userErrors data) ;;;
  shape (payload data).

Definition on_error (error : Thrown) : Completion JsVal :=
  rethrow_failed operation error.

Definition execute (shopifyClient : option (Client MutationData))
  (input : Input) : Completion JsVal :=
  try_catch (body shopifyClient input) on_error.

End LegacyCreateProduct.

(* ===================================================================== *)
(** ** src/tools/createOrder.ts                                           *)
(* ===================================================================== *)

(** This tool is called by the create-order handler of index.ts with an
    argument object the handler rebuilt itself, so its input is modelled as
    the object it is at run time. A copy [{...x}] of an object is the
    object itself in this pure model. *)
Module LegacyCreateOrder.

Definition operation : string := "create order".

(** [v.startsWith(p)] on a value of unknown type. *)
Definition js_startsWith (what : string) (v : JsVal) (p : string)
  : Completion bool :=
  match v with
  | JStr s => Normal (startsWith s p)
  | JUndefined =>
      Throw (ErrorObj TypeError
        "Cannot read properties of undefined (reading 'startsWith')")
  | JNull =>
      Throw (ErrorObj TypeError
        "Cannot read properties of null (reading 'startsWith')")
  | _ => Throw (ErrorObj TypeError (what ++ ".startsWith is not a function"))
  end.

(** [v.startsWith('gid://') ? v : `gid://shopify/R/${v}`]. *)
Definition qualify_value (what resource : string) (v : JsVal)
  : Completion JsVal :=
  b <- js_startsWith what v "gid://" ;;
  Normal (if b then v
          else JStr ("gid://shopify/" ++ resource ++ "/" ++ js_String v)).

(** The own properties spread by [{...item}]; only objects reach the
    spread, any other item has already failed on [item.variantId]. *)
Definition props_of (v : JsVal) : Props :=
  match v with JObj o => o | _ => [] end.

(** Lines 187-216. *)
Definition draftOrderInput (input : Props) : Completion Props :=
  let d := input in
  let d :=
    if negb (is_undefined (field_of input "note")) then
      delete_prop (set_prop d "privateNote" (field_of input "note")) "note"
    else d in
  d <- (if truthy (field_of input "customerId") then
          c <- qualify_value "input.customerId" "Customer"
                 (field_of input "customerId") ;;
          Normal (set_prop d "customerId" c)
        else Normal d) ;;
  if truthy (field_of input "lineItems") then
    items <- js_map "input.lineItems" (field_of input "lineItems")
      (fun item =>
         vid <- prop item "variantId" ;;
         variantId <- qualify_value "item.variantId" "ProductVariant" vid ;;
         Normal (JObj (spread (props_of item) [("variantId", variantId)]))) ;;
    Normal (set_prop d "lineItems" (JArr items))
  else Normal d.

Definition variables (input : Props) : Completion JsVal :=
  d <- draftOrderInput input ;;
  Normal (JObj [("input", JObj d)]).

Definition line_item_obj (lineItem : JsVal) : Completion JsVal :=
  base <- pick lineItem ["id"; "title"; "quantity"; "originalTotal"] ;;
  v <- prop lineItem "variant" ;;
  v' <- when_truthy v (fun v => pick_obj v ["id"; "title"; "sku"]) ;;
  ca <- prop lineItem "customAttributes" ;;
  Normal (JObj (base ++ [("variant", v'); ("customAttributes", ca)])%list).

(** Lines 242-294. *)
Definition shape (order : JsVal) : Completion JsVal :=
  lineItems <- edges_map order "lineItems" line_item_obj ;;
  m <- prop order "metafields" ;;
  metafields <- unwrapEdges_if_present m ;;
  base <- pick_as order
    [("id", "id"); ("name", "name"); ("email", "email");
     ("note", "privateNote"); ("tags", "tags"); ("totalPrice", "totalPrice");
     ("subtotalPrice", "subtotalPrice");
     ("totalShippingPrice", "totalShippingPrice"); ("totalTax", "totalTax")] ;;
  c <- prop order "customer" ;;
  c' <- when_truthy c (fun c =>
          pick_obj c ["id"; "firstName"; "lastName"; "email"; "phone"]) ;;
  addr <- pick order ["shippingAddress"; "billingAddress"] ;;
  ca <- prop order "customAttributes" ;;
  Normal (JObj [("order",
    JObj (base ++ [("customer", c')] ++ addr ++
          [("lineItems", lineItems); ("customAttributes", ca);
           ("metafields", JArr metafields)])%list)]).

(** The catch clause, lines 295-310. *)
Definition on_error {A : Type} (error : Thrown) : Completion A :=
  match error with
  | ErrorObj _ msg =>
      if includes msg "variant" then
        throw_Error "Failed to create order: Invalid product variant. Please check that all variant IDs are correct."
      else if includes msg "customer" then
        throw_Error "Failed to create order: Invalid customer ID. Please check the customer ID format."
      else throw_Error ("Failed to create order: " ++ msg)
  | ThrownValue _ =>
      throw_Error "Failed to create order: Unknown error occurred"
  end.

Definition body (shopifyClient : option (Client MutationData))
  (input : Props) : Completion JsVal :=
  vars <- variables input ;;
  data <- request_via shopifyClient vars ;;
  throw_if_userErrors operation (userErrors data) ;;;
  shape (payload data).

Definition execute (shopifyClient : option (Client MutationData))
  (input : Props) : Completion JsVal :=
  try_catch (body shopifyClient input) on_error.

End LegacyCreateOrder.

(* ===================================================================== *)
(** ** index.ts: the create-order handler (lines 383-424)                 *)
(* ===================================================================== *)

Section CreateOrderHandler.

(** The engine's [JSON.parse] and [JSON.stringify]. *)
Variable JSON_parse : string -> Completion JsVal.
Variable JSON_stringify : JsVal -> string.

(** [Array.isArray(v) ? v : [v]]. *)
Definition ensure_array (v : JsVal) : JsVal :=
  if negb (isArray v) then JArr [v] else v.

(** Lines 386-400: a string [lineItems] is parsed, and wrapped when the
    result is not an array; any throw in there becomes one fixed error. *)
Definition preprocess_lineItems (args : Props) : Completion Props :=
  let processedArgs := args in
  match field_of processedArgs "lineItems" with
  | JStr s =>
      try_catch
        (v <- JSON_parse s ;;
         Normal (set_prop processedArgs "lineItems" (ensure_array v)))
        (fun _ =>
           throw_Error "Invalid lineItems format. Expected a valid JSON array.")
  | _ => Normal processedArgs
  end.

Definition is_number (v : JsVal) : bool :=
  match v with JNum _ => true | _ => false end.

Definition number_leb0 (v : JsVal) : bool :=
  match v with JNum n => Z.leb n 0 | _ => false end.

(** Lines 408-415, the body of the [forEach]. *)
Definition validate_line_item (item : JsVal) (index : nat) : Completion unit :=
  vid <- prop item "variantId" ;;
  if negb (truthy vid) then
    throw_Error ("Line item at index " ++ string_of_nat index
                 ++ " is missing variantId")
  else
    q <- prop item "quantity" ;;
    if negb (truthy q) || negb (is_number q) || number_leb0 q then
      throw_Error ("Line item at index " ++ string_of_nat index
                   ++ " has invalid quantity. Must be a positive number.")
    else Normal tt.

(** Lines 402-415. *)
Definition validate_lineItems (processedArgs : Props) : Completion unit :=
  match field_of processedArgs "lineItems" with
  | JArr items => forEach validate_line_item items
  | _ =>
      throw_Error
        "lineItems must be an array of product variants with quantities"
  end.

(** The handler's own catch clause, lines 421-423. *)
Definition create_order_handler_on_error (error : Thrown) : Completion JsVal :=
  throw_Error ("Failed to create order: " ++ message_of error).

Definition create_order_handler (shopifyClient : option (Client MutationData))
  (args : Props) : Completion JsVal :=
  try_catch
    (processedArgs <- preprocess_lineItems args ;;
     validate_lineItems processedArgs ;;;
     result <- LegacyCreateOrder.execute shopifyClient processedArgs ;;
     Normal (JObj [("content",
       JArr [JObj [("type", JStr "text");
                   ("text", JStr (JSON_stringify result))]])]))
    create_order_handler_on_error.

End CreateOrderHandler.

(* ===================================================================== *)
(** ** The catch clauses of the query tools                               *)
(* ===================================================================== *)

(** The read-only tools matter here only through their catch clause; each
    is the clause of the named file with its operation label. *)
Module QueryTools.

(** src/tools/products/get-products.ts, line 118. *)
Definition getProducts_on_error (error : Thrown) : Completion JsVal :=
  handleExecutionError error "fetch products".

(** src/tools/customers/get-customers.ts, line 75. *)
Definition getCustomers_on_error (error : Thrown) : Completion JsVal :=
  handleExecutionError error "fetch customers".

(** src/tools/inventory/get-inventory-levels.ts, line 104. *)
Definition getInventoryLevels_on_error (error : Thrown) : Completion JsVal :=
  handleExecutionError error "fetch inventory levels".

(** src/tools/getLocations.ts, lines 124-131. *)
Definition getLocations_on_error (error : Thrown) : Completion JsVal :=
  rethrow_failed "fetch locations" error.

(** unnamed/part_009 (getInventoryLevels with its own handle), lines 116-123. *)
Definition legacy_getInventoryLevels_on_error (error : Thrown)
  : Completion JsVal :=
  rethrow_failed "fetch inventory levels" error.

(** getInventoryItems (second file of src/tools/setInventoryTracking.ts). *)
Definition getInventoryItems_on_error (error : Thrown) : Completion JsVal :=
  rethrow_failed "fetch inventory items" error.

End QueryTools.

(* ===================================================================== *)
(** ** createMetafield.js (compiled; the second document of package.json,
       lines 66-165)                                                      *)
(* ===================================================================== *)

Module CreateMetafield.

(** [CreateMetafieldInputSchema]; [ownerType] has the schema default
    "PRODUCT" and is present after validation. *)
Record Input : Type := mkInput {
  ownerId : string;
  namespace : string;
  key : string;
  value : string;
  type : string;
  description : option string;
  ownerType : string
}.

Definition operation : string := "create metafield".

(** Lines 102-109: six keys, [description] among them whatever it holds;
    [ownerType] is destructured and not used. *)
Definition metafieldInput (input : Input) : Props :=
  [("ownerId", JStr (ownerId input));
   ("namespace", JStr (namespace input));
   ("key", JStr (key input));
   ("value", JStr (value input));
   ("type", JStr (type input));
   ("description", opt_js JStr (description input))].

Definition mutation_input (input : Input) : Props := metafieldInput input.

Definition variables (input : Input) : JsVal :=
  JObj [("input", JObj (metafieldInput input))].

(** Lines 142-155. *)
Definition shape (metafield : JsVal) : Completion JsVal :=
  m <- pick_obj metafield
    ["id"; "namespace"; "key"; "value"; "type"; "description"; "createdAt";
     "updatedAt"; "ownerType"] ;;
  Normal (JObj [("metafield", m)]).

Definition body (shopifyClient : option (Client MutationData))
  (input : Input) : Completion JsVal :=
  data <- request_via shopifyClient (variables input) ;;
  throw_if_userErrors operation (userErrors data) ;;;
  shape (payload data).

Definition on_error (error : Thrown) : Completion JsVal :=
  rethrow_failed operation error.

Definition execute (shopifyClient : option (Client MutationData))
  (input : Input) : Completion JsVal :=
  try_catch (body shopifyClient input) on_error.

End CreateMetafield.

(* ===================================================================== *)
(** ** The tools as one family                                            *)
(* ===================================================================== *)

(** The mutation tools under src/, one constructor per implementation
    (update-order is imported by index.ts; its source is not there). *)
Inductive MutationTool : Type :=
| T_CreateCustomer            (* tools/customers/create-customer.ts *)
| T_AdjustInventory           (* tools/inventory/adjust-inventory.ts *)
| T_CreateOrder               (* tools/orders/create-order.ts *)
| T_CreateProduct             (* tools/products/create-product.ts *)
| T_LegacyCreateCustomer      (* tools/createCustomer.ts *)
| T_UpdateCustomer            (* tools/updateCustomer.ts *)
| T_CreateFulfillment         (* tools/createFulfillment.ts *)
| T_SetInventoryTracking      (* tools/setInventoryTracking.ts *)
| T_CreateCollection          (* tools/createCollection.ts *)
| T_CreateCollectionTs        (* unnamed/part_008 *)
| T_DistCreateCollection      (* dist/tools/createCollection.js *)
| T_DistAdjustInventory       (* dist/tools/adjustInventory.js *)
| T_ConnectInventory          (* dist/tools/connectInventoryToLocation.js *)
| T_DisconnectInventory       (* disconnectInventoryFromLocation.js *)
| T_LegacyCreateProduct       (* unnamed/part_005 *)
| T_LegacyCreateOrder         (* tools/createOrder.ts *)
| T_CreateMetafield.          (* createMetafield.js, in package.json *)

Definition InputOf (t : MutationTool) : Type :=
  match t with
  | T_CreateCustomer => CreateCustomer.Input
  | T_AdjustInventory => AdjustInventory.Input
  | T_CreateOrder => CreateOrder.Input
  | T_CreateProduct => CreateProduct.Input
  | T_LegacyCreateCustomer => LegacyCreateCustomer.Input
  | T_UpdateCustomer => UpdateCustomer.Input
  | T_CreateFulfillment => CreateFulfillment.Input
  | T_SetInventoryTracking => SetInventoryTracking.Input
  | T_CreateCollection => CreateCollection.Input
  | T_CreateCollectionTs => DistCreateCollection.Input
  | T_DistCreateCollection => DistCreateCollection.Input
  | T_DistAdjustInventory => DistAdjustInventory.Input
  | T_ConnectInventory => ConnectInventoryToLocation.Input
  | T_DisconnectInventory => DisconnectInventoryFromLocation.Input
  | T_LegacyCreateProduct => LegacyCreateProduct.Input
  | T_LegacyCreateOrder => Props
  | T_CreateMetafield => CreateMetafield.Input
  end.

Definition operation_of (t : MutationTool) : string :=
  match t with
  | T_CreateCustomer => CreateCustomer.operation
  | T_AdjustInventory => AdjustInventory.operation
  | T_CreateOrder => CreateOrder.operation
  | T_CreateProduct => CreateProduct.operation
  | T_LegacyCreateCustomer => LegacyCreateCustomer.operation
  | T_UpdateCustomer => UpdateCustomer.operation
  | T_CreateFulfillment => CreateFulfillment.operation
  | T_SetInventoryTracking => SetInventoryTracking.operation
  | T_CreateCollection => CreateCollection.operation
  | T_CreateCollectionTs => DistCreateCollection.operation
  | T_DistCreateCollection => DistCreateCollection.operation
  | T_DistAdjustInventory => DistAdjustInventory.operation
  | T_ConnectInventory => ConnectInventoryToLocation.operation
  | T_DisconnectInventory => DisconnectInventoryFromLocation.operation
  | T_LegacyCreateProduct => LegacyCreateProduct.operation
  | T_LegacyCreateOrder => LegacyCreateOrder.operation
  | T_CreateMetafield => CreateMetafield.operation
  end.

(** The object each tool fills from its input and sends as (or inside)
    the variables. *)
Definition mutation_input_of (t : MutationTool)
  : InputOf t -> Completion Props :=
  match t with
  | T_CreateCustomer => fun i => Normal (CreateCustomer.mutation_input i)
  | T_AdjustInventory => fun i => Normal (AdjustInventory.mutation_input i)
  | T_CreateOrder => fun i => Normal (CreateOrder.mutation_input i)
  | T_CreateProduct => fun i => Normal (CreateProduct.mutation_input i)
  | T_LegacyCreateCustomer =>
      fun i => Normal (LegacyCreateCustomer.mutation_input i)
  | T_UpdateCustomer => fun i => Normal (UpdateCustomer.mutation_input i)
  | T_CreateFulfillment => fun i => Normal (CreateFulfillment.mutation_input i)
  | T_SetInventoryTracking =>
      fun i => Normal (SetInventoryTracking.mutation_input i)
  | T_CreateCollection => fun i => Normal (CreateCollection.mutation_input i)
  | T_CreateCollectionTs =>
      fun i => Normal (DistCreateCollection.collectionInput_ts i)
  | T_DistCreateCollection =>
      fun i => Normal (DistCreateCollection.mutation_input i)
  | T_DistAdjustInventory =>
      fun i => Normal (DistAdjustInventory.mutation_input i)
  | T_ConnectInventory =>
      fun i => Normal (ConnectInventoryToLocation.mutation_input i)
  | T_DisconnectInventory =>
      fun i => Normal (DisconnectInventoryFromLocation.mutation_input i)
  | T_LegacyCreateProduct =>
      fun i => Normal (LegacyCreateProduct.mutation_input i)
  | T_LegacyCreateOrder => fun i => LegacyCreateOrder.draftOrderInput i
  | T_CreateMetafield => fun i => Normal (CreateMetafield.mutation_input i)
  end.

(** The variables handed to [client.request]. *)
Definition variables_of (t : MutationTool) : InputOf t -> Completion JsVal :=
  match t with
  | T_CreateCustomer => fun i => Normal (CreateCustomer.variables i)
  | T_AdjustInventory => fun i => Normal (AdjustInventory.variables i)
  | T_CreateOrder => fun i => Normal (CreateOrder.variables i)
  | T_CreateProduct => fun i => Normal (CreateProduct.variables i)
  | T_LegacyCreateCustomer => fun i => Normal (LegacyCreateCustomer.variables i)
  | T_UpdateCustomer => fun i => Normal (UpdateCustomer.variables i)
  | T_CreateFulfillment => fun i => Normal (CreateFulfillment.variables i)
  | T_SetInventoryTracking => fun i => Normal (SetInventoryTracking.variables i)
  | T_CreateCollection => fun i => Normal (CreateCollection.variables i)
  | T_CreateCollectionTs => fun i => Normal (DistCreateCollection.variables_ts i)
  | T_DistCreateCollection => fun i => Normal (DistCreateCollection.variables i)
  | T_DistAdjustInventory => fun i => Normal (DistAdjustInventory.variables i)
  | T_ConnectInventory => fun i => Normal (ConnectInventoryToLocation.variables i)
  | T_DisconnectInventory =>
      fun i => Normal (DisconnectInventoryFromLocation.variables i)
  | T_LegacyCreateProduct => fun i => Normal (LegacyCreateProduct.variables i)
  | T_LegacyCreateOrder => fun i => LegacyCreateOrder.variables i
  | T_CreateMetafield => fun i => Normal (CreateMetafield.variables i)
  end.

(** Response shaping: what each tool does with the payload once the
    business error check has passed. *)
Definition shape_of (t : MutationTool) : InputOf t -> JsVal -> Completion JsVal :=
  match t with
  | T_CreateCustomer => fun _ => CreateCustomer.shape
  | T_AdjustInventory => fun _ => AdjustInventory.shape
  | T_CreateOrder => fun _ => CreateOrder.formatOrderResponse
  | T_CreateProduct => fun _ => CreateProduct.formatProductResponse
  | T_LegacyCreateCustomer => fun _ => LegacyCreateCustomer.shape
  | T_UpdateCustomer => fun _ => UpdateCustomer.shape
  | T_CreateFulfillment => fun _ => CreateFulfillment.shape
  | T_SetInventoryTracking => fun _ => SetInventoryTracking.shape
  | T_CreateCollection => fun _ => CreateCollection.shape
  | T_CreateCollectionTs => DistCreateCollection.shape_ts
  | T_DistCreateCollection => DistCreateCollection.shape
  | T_DistAdjustInventory => fun _ => DistAdjustInventory.shape
  | T_ConnectInventory => fun _ => ConnectInventoryToLocation.shape
  | T_DisconnectInventory => fun _ => DisconnectInventoryFromLocation.shape
  | T_LegacyCreateProduct => fun _ => LegacyCreateProduct.shape
  | T_LegacyCreateOrder => fun _ => LegacyCreateOrder.shape
  | T_CreateMetafield => fun _ => CreateMetafield.shape
  end.

Definition body_of (t : MutationTool)
  : option (Client MutationData) -> InputOf t -> Completion JsVal :=
  match t with
  | T_CreateCustomer => CreateCustomer.body
  | T_AdjustInventory => AdjustInventory.body
  | T_CreateOrder => CreateOrder.body
  | T_CreateProduct => CreateProduct.body
  | T_LegacyCreateCustomer => LegacyCreateCustomer.body
  | T_UpdateCustomer => UpdateCustomer.body
  | T_CreateFulfillment => CreateFulfillment.body
  | T_SetInventoryTracking => SetInventoryTracking.body
  | T_CreateCollection => CreateCollection.body
  | T_CreateCollectionTs => DistCreateCollection.body_ts
  | T_DistCreateCollection => DistCreateCollection.body
  | T_DistAdjustInventory => DistAdjustInventory.body
  | T_ConnectInventory => ConnectInventoryToLocation.body
  | T_DisconnectInventory => DisconnectInventoryFromLocation.body
  | T_LegacyCreateProduct => LegacyCreateProduct.body
  | T_LegacyCreateOrder => LegacyCreateOrder.body
  | T_CreateMetafield => CreateMetafield.body
  end.

Definition catch_of (t : MutationTool) : Thrown -> Completion JsVal :=
  match t with
  | T_CreateCustomer => CreateCustomer.on_error
  | T_AdjustInventory => AdjustInventory.on_error
  | T_CreateOrder => CreateOrder.on_error
  | T_CreateProduct => CreateProduct.on_error
  | T_LegacyCreateCustomer => LegacyCreateCustomer.on_error
  | T_UpdateCustomer => UpdateCustomer.on_error
  | T_CreateFulfillment => CreateFulfillment.on_error
  | T_SetInventoryTracking => SetInventoryTracking.on_error
  | T_CreateCollection => CreateCollection.on_error
  | T_CreateCollectionTs => DistCreateCollection.on_error
  | T_DistCreateCollection => DistCreateCollection.on_error
  | T_DistAdjustInventory => DistAdjustInventory.on_error
  | T_ConnectInventory => ConnectInventoryToLocation.on_error
  | T_DisconnectInventory => DisconnectInventoryFromLocation.on_error
  | T_LegacyCreateProduct => LegacyCreateProduct.on_error
  | T_LegacyCreateOrder => LegacyCreateOrder.on_error
  | T_CreateMetafield => CreateMetafield.on_error
  end.

Definition execute_of (t : MutationTool)
  : option (Client MutationData) -> InputOf t -> Completion JsVal :=
  match t with
  | T_CreateCustomer => CreateCustomer.execute
  | T_AdjustInventory => AdjustInventory.execute
  | T_CreateOrder => CreateOrder.execute
  | T_CreateProduct => CreateProduct.execute
  | T_LegacyCreateCustomer => LegacyCreateCustomer.execute
  | T_UpdateCustomer => UpdateCustomer.execute
  | T_CreateFulfillment => CreateFulfillment.execute
  | T_SetInventoryTracking => SetInventoryTracking.execute
  | T_CreateCollection => CreateCollection.execute
  | T_CreateCollectionTs => DistCreateCollection.execute_ts
  | T_DistCreateCollection => DistCreateCollection.execute
  | T_DistAdjustInventory => DistAdjustInventory.execute
  | T_ConnectInventory => ConnectInventoryToLocation.execute
  | T_DisconnectInventory => DisconnectInventoryFromLocation.execute
  | T_LegacyCreateProduct => LegacyCreateProduct.execute
  | T_LegacyCreateOrder => LegacyCreateOrder.execute
  | T_CreateMetafield => CreateMetafield.execute
  end.

(** The single failure shape of the propagation policy. *)
Definition uniform_failure (operation : string) (error : Thrown)
  : Completion JsVal :=
  Throw (ErrorObj PlainError
    ("Failed to " ++ operation ++ ": " ++ message_of error)).

(* ===================================================================== *)
(** ** Optional fields of each tool's input                               *)
(* ===================================================================== *)

Definition absent {A : Type} (x : option A) : bool :=
  match x with None => true | Some _ => false end.

(** For each tool, the optional fields of its input schema: the key under
    which the tool would send the field, and the test that the validated
    input omits it. ([isPublished] is sent as [published]; the schema of
    part_008 has no private metafields or publications, and its functions
    do not look at these two fields of the shared record. The optional
    fields of the nested objects the tools rebuild are listed with the
    request, below.) *)
Definition optional_fields_of (t : MutationTool)
  : list (string * (InputOf t -> bool)) :=
  match t with
  | T_CreateCustomer =>
      [("firstName", fun i => absent (CreateCustomer.firstName i));
       ("lastName", fun i => absent (CreateCustomer.lastName i));
       ("phone", fun i => absent (CreateCustomer.phone i));
       ("acceptsMarketing", fun i => absent (CreateCustomer.acceptsMarketing i));
       ("addresses", fun i => absent (CreateCustomer.addresses i));
       ("metafields", fun i => absent (CreateCustomer.metafields i));
       ("tags", fun i => absent (CreateCustomer.tags i))]
  | T_AdjustInventory =>
      [("reason", fun i => absent (AdjustInventory.reason i))]
  | T_CreateOrder =>
      [("customerId", fun i => absent (CreateOrder.customerId i));
       ("email", fun i => absent (CreateOrder.email i));
       ("phone", fun i => absent (CreateOrder.phone i));
       ("note", fun i => absent (CreateOrder.note i));
       ("tags", fun i => absent (CreateOrder.tags i));
       ("shippingAddress", fun i => absent (CreateOrder.shippingAddress i));
       ("billingAddress", fun i => absent (CreateOrder.billingAddress i));
       ("shippingLine", fun i => absent (CreateOrder.shippingLine i));
       ("financialStatus", fun i => absent (CreateOrder.financialStatus i));
       ("fulfillmentStatus", fun i => absent (CreateOrder.fulfillmentStatus i));
       ("metafields", fun i => absent (CreateOrder.metafields i))]
  | T_CreateProduct | T_LegacyCreateProduct =>
      [("descriptionHtml", fun i => absent (CreateProduct.descriptionHtml i));
       ("vendor", fun i => absent (CreateProduct.vendor i));
       ("productType", fun i => absent (CreateProduct.productType i));
       ("tags", fun i => absent (CreateProduct.tags i));
       ("options", fun i => absent (CreateProduct.productOptions i));
       ("variants", fun i => absent (CreateProduct.variants i));
       ("images", fun i => absent (CreateProduct.images i));
       ("seo", fun i => absent (CreateProduct.seo i));
       ("metafields", fun i => absent (CreateProduct.metafields i));
       ("collectionsToJoin", fun i => absent (CreateProduct.collectionsToJoin i));
       ("giftCard", fun i => absent (CreateProduct.giftCard i));
       ("taxCode", fun i => absent (CreateProduct.taxCode i))]
  | T_LegacyCreateCustomer =>
      [("firstName", fun i => absent (LegacyCreateCustomer.firstName i));
       ("lastName", fun i => absent (LegacyCreateCustomer.lastName i));
       ("phone", fun i => absent (LegacyCreateCustomer.phone i));
       ("taxExempt", fun i => absent (LegacyCreateCustomer.taxExempt i));
       ("smsMarketingConsent",
          fun i => absent (LegacyCreateCustomer.smsMarketingConsent i));
       ("metafields", fun i => absent (LegacyCreateCustomer.metafields i))]
  | T_UpdateCustomer =>
      [("firstName", fun i => absent (UpdateCustomer.firstName i));
       ("lastName", fun i => absent (UpdateCustomer.lastName i));
       ("email", fun i => absent (UpdateCustomer.email i));
       ("phone", fun i => absent (UpdateCustomer.phone i));
       ("taxExempt", fun i => absent (UpdateCustomer.taxExempt i));
       ("smsMarketingConsent",
          fun i => absent (UpdateCustomer.smsMarketingConsent i));
       ("metafields", fun i => absent (UpdateCustomer.metafields i))]
  | T_CreateFulfillment =>
      [("trackingInfo", fun i => absent (CreateFulfillment.trackingInfo i));
       ("lineItems", fun i => absent (CreateFulfillment.lineItems i));
       ("locationId", fun i => absent (CreateFulfillment.locationId i));
       ("trackingNumbers", fun i => absent (CreateFulfillment.trackingNumbers i));
       ("trackingUrls", fun i => absent (CreateFulfillment.trackingUrls i));
       ("metadata", fun i => absent (CreateFulfillment.metadata i))]
  | T_SetInventoryTracking => []
  | T_CreateCollectionTs =>
      [("description", fun i => absent (CreateCollection.description i));
       ("descriptionHtml", fun i => absent (CreateCollection.descriptionHtml i));
       ("handle", fun i => absent (CreateCollection.handle i));
       ("isPublished", fun i => absent (CreateCollection.isPublished i));
       ("published", fun i => absent (CreateCollection.isPublished i));
       ("seo", fun i => absent (CreateCollection.seo i));
       ("image", fun i => absent (CreateCollection.image i));
       ("productsToAdd", fun i => absent (CreateCollection.productsToAdd i));
       ("sortOrder", fun i => absent (CreateCollection.sortOrder i));
       ("templateSuffix", fun i => absent (CreateCollection.templateSuffix i));
       ("ruleSet", fun i => absent (CreateCollection.ruleSet i));
       ("metafields", fun i => absent (CreateCollection.metafields i))]
  | T_CreateCollection | T_DistCreateCollection =>
      [("description", fun i => absent (CreateCollection.description i));
       ("descriptionHtml", fun i => absent (CreateCollection.descriptionHtml i));
       ("handle", fun i => absent (CreateCollection.handle i));
       ("isPublished", fun i => absent (CreateCollection.isPublished i));
       ("published", fun i => absent (CreateCollection.isPublished i));
       ("seo", fun i => absent (CreateCollection.seo i));
       ("image", fun i => absent (CreateCollection.image i));
       ("productsToAdd", fun i => absent (CreateCollection.productsToAdd i));
       ("sortOrder", fun i => absent (CreateCollection.sortOrder i));
       ("templateSuffix", fun i => absent (CreateCollection.templateSuffix i));
       ("privateMetafields",
          fun i => absent (CreateCollection.privateMetafields i));
       ("ruleSet", fun i => absent (CreateCollection.ruleSet i));
       ("metafields", fun i => absent (CreateCollection.metafields i));
       ("publications", fun i => absent (CreateCollection.publications i))]
  | T_DistAdjustInventory =>
      [("reason", fun i => absent (AdjustInventory.reason i))]
  | T_ConnectInventory =>
      [("reason", fun i => absent (ConnectInventoryToLocation.reason i))]
  | T_DisconnectInventory =>
      [("reason", fun i => absent (DisconnectInventoryFromLocation.reason i))]
  | T_LegacyCreateOrder =>
      map (fun k => (k, fun i : Props => negb (has_key i k)))
        ["email"; "phone"; "note"; "tags"; "customAttributes"; "metafields";
         "billingAddress"; "shippingAddress"; "customerId"; "shippingLine";
         "taxExempt"; "presentmentCurrencyCode"]
  | T_CreateMetafield =>
      [("description", fun i => absent (CreateMetafield.description i))]
  end.

(** The fields a tool writes into its mutation input without a guard:
    their key is there in memory whatever the input holds. (The nested
    objects of [variant_input], [image_input] and [line_item_input] are
    object literals throughout: every optional key they have is written
    without a guard.) *)
Definition copied_unconditionally (t : MutationTool) (k : string) : bool :=
  match t with
  | T_AdjustInventory | T_DistAdjustInventory | T_ConnectInventory
  | T_DisconnectInventory => String.eqb k "reason"
  | T_CreateMetafield => String.eqb k "description"
  | T_CreateProduct | T_LegacyCreateProduct =>
      existsb (String.eqb k)
        ["variants"; "images"; "metafields"; "collectionsToJoin"]
  | T_CreateCollection =>
      existsb (String.eqb k)
        ["descriptionHtml"; "handle"; "seo"; "image"; "sortOrder";
         "templateSuffix"; "metafields"; "ruleSet"]
  | _ => false
  end.

(* ===================================================================== *)
(** ** The request as the transport writes it                             *)
(* ===================================================================== *)

(** [client.request(document, variables)] of graphql-request (a
    dependency of package.json) posts
    [JSON.stringify({ query, variables })]. [wire v] is the value a
    receiver reads back from [JSON.stringify(v)]: a property bound to
    [undefined] is not written, an [undefined] array element is written as
    [null], everything else is written as it is. *)
Fixpoint wire (v : JsVal) : JsVal :=
  match v with
  | JObj o =>
      JObj ((fix props (o : list (string * JsVal)) : list (string * JsVal) :=
               match o with
               | [] => []
               | (k, x) :: rest =>
                   match x with
                   | JUndefined => props rest
                   | _ => (k, wire x) :: props rest
                   end
               end) o)
  | JArr items =>
      JArr (map (fun x => match x with
                          | JUndefined => JNull
                          | _ => wire x
                          end) items)
  | _ => v
  end.

(** The properties written for an object, and the value written for an
    array element. *)
Definition wire_props (o : Props) : Props :=
  match wire (JObj o) with JObj o' => o' | _ => [] end.

Definition wire_elem (x : JsVal) : JsVal :=
  match x with JUndefined => JNull | _ => wire x end.

(** A place inside a value: property names and array indices, outermost
    first. [lookup v path] is what is there, [None] when an object on the
    way has no such key or an array no such index. *)
Inductive Step : Type :=
| Key (k : string)
| Index (i : nat).

Fixpoint lookup (v : JsVal) (path : list Step) : option JsVal :=
  match path with
  | [] => Some v
  | Key k :: rest =>
      match v with
      | JObj o =>
          match get_own o k with
          | Some x => lookup x rest
          | None => None
          end
      | _ => None
      end
  | Index i :: rest =>
      match v with
      | JArr items =>
          match nth_error items i with
          | Some x => lookup x rest
          | None => None
          end
      | _ => None
      end
  end.

(** Where each tool puts its mutation input inside the variables:
    [{ input }], [{ order }], [{ fulfillment }], or the variables
    themselves (connect and disconnect). *)
Definition input_path (t : MutationTool) : list Step :=
  match t with
  | T_CreateOrder => [Key "order"]
  | T_CreateFulfillment => [Key "fulfillment"]
  | T_ConnectInventory | T_DisconnectInventory => []
  | _ => [Key "input"]
  end.

(** The optional fields of the nested objects that the tools rebuild: a
    variant and an image of create-product, a line item of
    orders/create-order.ts, each under the key it would be sent with
    ([inventoryQuantity] is sent as [inventoryQuantities]). *)
Definition variant_optional_fields
  : list (string * (CreateProduct.Variant -> bool)) :=
  [("sku", fun v => absent (CreateProduct.sku v));
   ("weight", fun v => absent (CreateProduct.weight v));
   ("weightUnit", fun v => absent (CreateProduct.weightUnit v));
   ("inventoryQuantity", fun v => absent (CreateProduct.inventoryQuantity v));
   ("inventoryQuantities", fun v => absent (CreateProduct.inventoryQuantity v));
   ("inventoryPolicy", fun v => absent (CreateProduct.inventoryPolicy v));
   ("inventoryManagement",
      fun v => absent (CreateProduct.inventoryManagement v));
   ("requiresShipping", fun v => absent (CreateProduct.requiresShipping v));
   ("taxable", fun v => absent (CreateProduct.taxable v));
   ("barcode", fun v => absent (CreateProduct.barcode v))].

Definition image_optional_fields
  : list (string * (CreateProduct.Image -> bool)) :=
  [("altText", fun i => absent (CreateProduct.altText i))].

Definition line_item_optional_fields
  : list (string * (CreateOrder.LineItem -> bool)) :=
  [("price", fun i => absent (CreateOrder.price i));
   ("customAttributes", fun i => absent (CreateOrder.customAttributes i))].

(* ===================================================================== *)
(** ** src/utils/formatters.ts: extractIdFromGid                          *)
(* ===================================================================== *)

(** [s.split(sep)] for a one-character separator: never the empty list. *)
Fixpoint split (sep : ascii) (s : string) : list string :=
  match s with
  | EmptyString => [""]
  | String c rest =>
      if Ascii.eqb c sep then "" :: split sep rest
      else match split sep rest with
           | [] => [String c ""]
           | part :: parts => String c part :: parts
           end
  end.

(** [extractIdFromGid(gid)]: [parts[parts.length - 1]] of [gid.split("/")]. *)
Definition extractIdFromGid (gid : string) : string :=
  let parts := split "/"%char gid in
  last parts "".

(* ===================================================================== *)
(** ** The list tools                                                     *)
(* ===================================================================== *)

(** [queryFilter || undefined]. *)
Definition or_undefined (queryFilter : string) : JsVal :=
  if truthy (JStr queryFilter) then JStr queryFilter else JUndefined.

(** [data.K.edges.map(edge => f(edge.node))] of a list tool, returned as
    [{ name: [...] }]. *)
Definition list_result (name : string) (items : JsVal) : JsVal :=
  JObj [(name, items)].

(** src/tools/customers/get-customers.ts *)
Module GetCustomers.

Record Input : Type := mkInput {
  searchQuery : option string;
  limit : Z
}.

Definition operation : string := "fetch customers".

(** Lines 48-51. *)
Definition variables (input : Input) : JsVal :=
  JObj [("first", JNum (limit input));
        ("query",
           if truthy (opt_js JStr (searchQuery input))
           then opt_js JStr (searchQuery input) else JUndefined)].

(** Lines 55-71. *)
Definition customer_obj (customer : JsVal) : Completion JsVal :=
  pick_obj customer
    ["id"; "displayName"; "email"; "firstName"; "lastName"; "phone";
     "acceptsMarketing"; "state"; "numberOfOrders"; "createdAt";
     "updatedAt"; "defaultAddress"].

Definition shape (data : JsVal) : Completion JsVal :=
  customers <- edges_map data "customers" customer_obj ;;
  Normal (list_result "customers" customers).

Definition body (shopifyClient : option (Client JsVal)) (input : Input)
  : Completion JsVal :=
  client <- getGraphQLClient shopifyClient ;;
  data <- client (variables input) ;;
  shape data.

Definition on_error : Thrown -> Completion JsVal :=
  QueryTools.getCustomers_on_error.

Definition execute (shopifyClient : option (Client JsVal)) (input : Input)
  : Completion JsVal :=
  try_catch (body shopifyClient input) on_error.

End GetCustomers.

(** src/tools/inventory/get-inventory-levels.ts *)
Module GetInventoryLevels.

Record Input : Type := mkInput {
  locationId : option string;
  productId : option string;
  limit : Z
}.

Definition operation : string := "fetch inventory levels".

(** Lines 58-63: [if (locationId) ... else if (productId) ...]. *)
Definition query (input : Input) : string :=
  match locationId input with
  | Some l =>
      if truthy (JStr l) then "location_id:" ++ formatGid "Location" l
      else match productId input with
           | Some p =>
               if truthy (JStr p) then "product_id:" ++ formatGid "Product" p
               else ""
           | None => ""
           end
  | None =>
      match productId input with
      | Some p =>
          if truthy (JStr p) then "product_id:" ++ formatGid "Product" p
          else ""
      | None => ""
      end
  end.

Definition variables (input : Input) : JsVal :=
  JObj [("first", JNum (limit input)); ("query", or_undefined (query input))].

(** Lines 72-100, the object built for one level. *)
Definition level_obj (level : JsVal) : Completion JsVal :=
  qs <- prop level "quantities" ;;
  quantities <- AdjustInventory.reduce_quantities qs ;;
  id <- prop level "id" ;;
  item <- prop level "item" ;;
  item_base <- pick item ["id"; "sku"; "tracked"] ;;
  v <- prop item "variant" ;;
  v' <- when_truthy v (fun variant =>
          vb <- pick variant ["id"; "title"] ;;
          p <- prop variant "product" ;;
          p' <- pick_obj p ["id"; "title"] ;;
          Normal (JObj (vb ++ [("product", p')])%list)) ;;
  loc <- prop level "location" ;;
  loc' <- pick_obj loc ["id"; "name"] ;;
  Normal (JObj
    (set_prop
       (set_prop (spread [("id", id)] quantities) "item"
          (JObj (item_base ++ [("variant", v')])%list))
       "location" loc')).

Definition shape (data : JsVal) : Completion JsVal :=
  levels <- edges_map data "inventoryLevels" level_obj ;;
  Normal (list_result "inventoryLevels" levels).

Definition body (shopifyClient : option (Client JsVal)) (input : Input)
  : Completion JsVal :=
  client <- getGraphQLClient shopifyClient ;;
  data <- client (variables input) ;;
  shape data.

Definition on_error : Thrown -> Completion JsVal :=
  QueryTools.getInventoryLevels_on_error.

Definition execute (shopifyClient : option (Client JsVal)) (input : Input)
  : Completion JsVal :=
  try_catch (body shopifyClient input) on_error.

End GetInventoryLevels.

(** src/tools/getLocations.ts *)
Module GetLocations.

Record Input : Type := mkInput {
  active : option bool;
  limit : Z
}.

Definition operation : string := "fetch locations".

(** Lines 31-34: [if (active !== undefined) queryFilter = `is_active:${active}`]. *)
Definition queryFilter (input : Input) : string :=
  match active input with
  | Some b => "is_active:" ++ js_String (JBool b)
  | None => ""
  end.

Definition variables (input : Input) : JsVal :=
  JObj [("first", JNum (limit input));
        ("query", or_undefined (queryFilter input))].

Definition location_obj (location : JsVal) : Completion JsVal :=
  pick_obj location
    ["id"; "name"; "isActive"; "address"; "fulfillsOnlineOrders";
     "hasActiveInventory"; "legacyResourceId"; "shipsInventory";
     "supportsLocalDelivery"; "supportsLocalPickup"; "localPickupSettings";
     "localDeliverySettings"].

Definition shape (data : JsVal) : Completion JsVal :=
  locations <- edges_map data "locations" location_obj ;;
  Normal (list_result "locations" locations).

Definition body (shopifyClient : option (Client JsVal)) (input : Input)
  : Completion JsVal :=
  data <- request_via shopifyClient (variables input) ;;
  shape data.

Definition on_error : Thrown -> Completion JsVal :=
  QueryTools.getLocations_on_error.

Definition execute (shopifyClient : option (Client JsVal)) (input : Input)
  : Completion JsVal :=
  try_catch (body shopifyClient input) on_error.

End GetLocations.

(** unnamed/part_009: get-inventory-levels with its own client handle. *)
Module LegacyGetInventoryLevels.

Record Input : Type := mkInput {
  locationId : option string;
  limit : Z
}.

Definition operation : string := "fetch inventory levels".

(** Lines 31-34: the location id goes into the filter as given. *)
Definition queryFilter (input : Input) : string :=
  match locationId input with
  | Some l => if truthy (JStr l) then "location_id:" ++ l else ""
  | None => ""
  end.

Definition variables (input : Input) : JsVal :=
  JObj [("first", JNum (limit input));
        ("query", or_undefined (queryFilter input))].

(** Lines 86-113. *)
Definition level_obj (level : JsVal) : Completion JsVal :=
  base <- pick level ["id"; "available"; "incoming"] ;;
  i <- prop level "item" ;;
  i' <- when_truthy i (fun item =>
          ib <- pick item ["id"; "sku"; "tracked"] ;;
          v <- prop item "variant" ;;
          v' <- when_truthy v (fun variant =>
                  vb <- pick variant ["id"; "displayName"] ;;
                  p <- prop variant "product" ;;
                  p' <- when_truthy p (fun p => pick_obj p ["id"; "title"]) ;;
                  Normal (JObj (vb ++ [("product", p')])%list)) ;;
          Normal (JObj (ib ++ [("variant", v')])%list)) ;;
  l <- prop level "location" ;;
  l' <- when_truthy l (fun l =>
          pick_obj l ["id"; "name"; "address"; "isActive"]) ;;
  Normal (JObj (base ++ [("item", i'); ("location", l')])%list).

Definition shape (data : JsVal) : Completion JsVal :=
  inventoryLevels <- edges_map data "inventoryLevels" level_obj ;;
  Normal (list_result "inventoryLevels" inventoryLevels).

Definition body (shopifyClient : option (Client JsVal)) (input : Input)
  : Completion JsVal :=
  data <- request_via shopifyClient (variables input) ;;
  shape data.

Definition on_error : Thrown -> Completion JsVal :=
  QueryTools.legacy_getInventoryLevels_on_error.

Definition execute (shopifyClient : option (Client JsVal)) (input : Input)
  : Completion JsVal :=
  try_catch (body shopifyClient input) on_error.

End LegacyGetInventoryLevels.

(** getInventoryItems (the second file of src/tools/setInventoryTracking.ts,
    lines 141-311). *)
Module GetInventoryItems.

Record Input : Type := mkInput {
  query : option string;
  productId : option string;
  variantId : option string;
  limit : Z
}.

Definition operation : string := "fetch inventory items".

(** [queryFilter += queryFilter ? ` AND ${clause}` : clause]. *)
Definition add_clause (queryFilter clause : string) : string :=
  queryFilter ++ (if truthy (JStr queryFilter) then " AND " ++ clause
                  else clause).

(** Lines 173-191. *)
Definition queryFilter (input : Input) : string :=
  let queryFilter := "" in
  let queryFilter :=
    match query input with
    | Some q => if truthy (JStr q) then q else queryFilter
    | None => queryFilter
    end in
  let queryFilter :=
    match productId input with
    | Some p =>
        if truthy (JStr p) then
          add_clause queryFilter ("product_id:" ++ inline_gid "Product" p)
        else queryFilter
    | None => queryFilter
    end in
  let queryFilter :=
    match variantId input with
    | Some v =>
        if truthy (JStr v) then
          add_clause queryFilter
            ("variant_id:" ++ inline_gid "ProductVariant" v)
        else queryFilter
    | None => queryFilter
    end in
  queryFilter.

Definition variables (input : Input) : JsVal :=
  JObj [("first", JNum (limit input));
        ("query", or_undefined (queryFilter input))].

(** Lines 258-269. *)
Definition level_obj (level : JsVal) : Completion JsVal :=
  base <- pick level ["id"; "available"] ;;
  l <- prop level "location" ;;
  l' <- when_truthy l (fun l => pick_obj l ["id"; "name"; "isActive"]) ;;
  Normal (JObj (base ++ [("location", l')])%list).

(** Lines 254-297. *)
Definition item_obj (item : JsVal) : Completion JsVal :=
  inventoryLevels <- edges_map item "inventoryLevels" level_obj ;;
  base <- pick item
    ["id"; "tracked"; "countryCodeOfOrigin"; "harmonizedSystemCode";
     "inventoryHistoryUrl"] ;;
  rest <- pick item
    ["legacyResourceId"; "requiresShipping"; "sku"; "unitCost"] ;;
  v <- prop item "variant" ;;
  v' <- when_truthy v (fun variant =>
          vb <- pick variant
                  ["id"; "displayName"; "sku"; "inventoryQuantity";
                   "inventoryManagement"; "inventoryPolicy"] ;;
          p <- prop variant "product" ;;
          p' <- when_truthy p (fun p =>
                  pick_obj p ["id"; "title"; "handle"; "status"]) ;;
          Normal (JObj (vb ++ [("product", p')])%list)) ;;
  Normal (JObj (base ++ [("inventoryLevels", inventoryLevels)] ++ rest
                ++ [("variant", v')])%list).

Definition shape (data : JsVal) : Completion JsVal :=
  inventoryItems <- edges_map data "inventoryItems" item_obj ;;
  Normal (list_result "inventoryItems" inventoryItems).

Definition body (shopifyClient : option (Client JsVal)) (input : Input)
  : Completion JsVal :=
  data <- request_via shopifyClient (variables input) ;;
  shape data.

Definition on_error : Thrown -> Completion JsVal :=
  QueryTools.getInventoryItems_on_error.

Definition execute (shopifyClient : option (Client JsVal)) (input : Input)
  : Completion JsVal :=
  try_catch (body shopifyClient input) on_error.

End GetInventoryItems.

(** The list tools as one family. *)
Inductive ListTool : Type :=
| L_GetCustomers
| L_GetInventoryLevels
| L_GetLocations
| L_LegacyGetInventoryLevels
| L_GetInventoryItems.

Definition ListInputOf (t : ListTool) : Type :=
  match t with
  | L_GetCustomers => GetCustomers.Input
  | L_GetInventoryLevels => GetInventoryLevels.Input
  | L_GetLocations => GetLocations.Input
  | L_LegacyGetInventoryLevels => LegacyGetInventoryLevels.Input
  | L_GetInventoryItems => GetInventoryItems.Input
  end.

(** The key of [data] that holds the connection, which is also the key of
    the result. *)
Definition list_key (t : ListTool) : string :=
  match t with
  | L_GetCustomers => "customers"
  | L_GetInventoryLevels | L_LegacyGetInventoryLevels => "inventoryLevels"
  | L_GetLocations => "locations"
  | L_GetInventoryItems => "inventoryItems"
  end.

Definition list_operation (t : ListTool) : string :=
  match t with
  | L_GetCustomers => GetCustomers.operation
  | L_GetInventoryLevels => GetInventoryLevels.operation
  | L_GetLocations => GetLocations.operation
  | L_LegacyGetInventoryLevels => LegacyGetInventoryLevels.operation
  | L_GetInventoryItems => GetInventoryItems.operation
  end.

Definition list_variables (t : ListTool) : ListInputOf t -> JsVal :=
  match t with
  | L_GetCustomers => GetCustomers.variables
  | L_GetInventoryLevels => GetInventoryLevels.variables
  | L_GetLocations => GetLocations.variables
  | L_LegacyGetInventoryLevels => LegacyGetInventoryLevels.variables
  | L_GetInventoryItems => GetInventoryItems.variables
  end.

Definition list_execute (t : ListTool)
  : option (Client JsVal) -> ListInputOf t -> Completion JsVal :=
  match t with
  | L_GetCustomers => GetCustomers.execute
  | L_GetInventoryLevels => GetInventoryLevels.execute
  | L_GetLocations => GetLocations.execute
  | L_LegacyGetInventoryLevels => LegacyGetInventoryLevels.execute
  | L_GetInventoryItems => GetInventoryItems.execute
  end.

(* ===================================================================== *)
(** ** Vocabulary of the statements                                       *)
(* ===================================================================== *)

(** [X.map(n => ({node: n}))]. *)
Definition edges_of (X : list JsVal) : list JsVal :=
  map (fun n => JObj [("node", n)]) X.

(** The error has a field to print: a non-empty string. *)
Definition has_field (e : UserError) : bool :=
  match field e with
  | Some f => negb (String.eqb f "")
  | None => false
  end.

(** [`${e.field}: ${e.message}`]. *)
Definition field_colon_message (e : UserError) : string :=
  field_text e ++ ": " ++ message e.

(** What the catch clause of src/tools/createOrder.ts reports for an
    [Error] with message [msg]. *)
Definition reported (msg : string) : string :=
  if includes msg "variant" then
    "Failed to create order: Invalid product variant. Please check that all variant IDs are correct."
  else if includes msg "customer" then
    "Failed to create order: Invalid customer ID. Please check the customer ID format."
  else "Failed to create order: " ++ msg.

(** How each tool prints one business error: [handleGraphQLErrors] leaves
    out an empty or null field, createCollection.ts prints the message
    alone, every other tool prints [`${e.field}: ${e.message}`]. *)
Definition business_error_text (t : MutationTool) (e : UserError) : string :=
  match t with
  | T_CreateCustomer | T_AdjustInventory | T_CreateOrder | T_CreateProduct =>
      if has_field e then field_colon_message e else message e
  | T_CreateCollection => message e
  | _ => field_colon_message e
  end.

(** The aggregate a tool throws for a list of business errors. *)
Definition aggregated (t : MutationTool) (errs : list UserError) : string :=
  "Failed to " ++ operation_of t ++ ": "
  ++ join ", " (map (business_error_text t) errs).

(** What the caller of [execute] reads when the body threw an [Error]
    with message [m]: the catch clause of src/tools/createOrder.ts
    substitutes its hints, every other one prefixes the message. *)
Definition failure_text (t : MutationTool) (m : string) : string :=
  match t with
  | T_LegacyCreateOrder => reported m
  | _ => "Failed to " ++ operation_of t ++ ": " ++ m
  end.

(** The sequence the create-order handler validates once [JSON.parse] has
    returned [v]: the elements of an array, or the value alone. *)
Definition parsed_items (v : JsVal) : list JsVal :=
  match v with
  | JArr items => items
  | _ => [v]
  end.

(** The handler's answer around a text. *)
Definition text_content (text : string) : JsVal :=
  JObj [("content", JArr [JObj [("type", JStr "text"); ("text", JStr text)]])].

(** A transport that answers the draft-order mutation with an order that
    has an id and no line items, and a stand-in for [JSON.stringify] that
    tells an object from anything else. *)
Definition sample_order_client : Client MutationData :=
  fun _ =>
    Normal (mkMutationData
      (JObj [("id", JStr "gid://shopify/DraftOrder/1");
             ("lineItems", JObj [("edges", JArr [])])])
      []).

Definition sample_JSON_stringify (v : JsVal) : string :=
  match v with
  | JObj _ => "{...}"
  | _ => "?"
  end.

(** The input of createOrder.ts is total on the objects its schema admits
    as far as the identifiers go: a string customer id, and line items that
    are objects with a string variant id. *)
Definition has_string_variantId (item : JsVal) : bool :=
  match item with
  | JObj o => match field_of o "variantId" with JStr _ => true | _ => false end
  | _ => false
  end.

Definition order_ids_well_typed (input : Props) : bool :=
  match field_of input "customerId" with
  | JUndefined | JStr _ => true
  | _ => false
  end &&
  match field_of input "lineItems" with
  | JArr items => forallb has_string_variantId items
  | _ => false
  end.

(** The catch clauses of the read-only tools and of the create-order
    handler, with their operation labels. *)
Definition query_catch_clauses : list (string * (Thrown -> Completion JsVal)) :=
  [("fetch products", QueryTools.getProducts_on_error);
   ("fetch customers", QueryTools.getCustomers_on_error);
   ("fetch inventory levels", QueryTools.getInventoryLevels_on_error);
   ("fetch locations", QueryTools.getLocations_on_error);
   ("fetch inventory levels", QueryTools.legacy_getInventoryLevels_on_error);
   ("fetch inventory items", QueryTools.getInventoryItems_on_error);
   ("fetch product details", GetProductById.on_error);
   ("create order", create_order_handler_on_error)].

(** The raw arguments [{inventoryItemId: "", locationId: "2", availableDelta: 0}]. *)
Definition empty_item_args : JsVal :=
  JObj [("inventoryItemId", JStr ""); ("locationId", JStr "2");
        ("availableDelta", JNum 0)].

(** The text [[{"variantId":"9","quantity":2}]] of the scenario. *)
Definition dq : string := String (Ascii.ascii_of_nat 34) "".

Definition sample_lineItems_text : string :=
  "[{" ++ dq ++ "variantId" ++ dq ++ ":" ++ dq ++ "9" ++ dq ++ ","
       ++ dq ++ "quantity" ++ dq ++ ":2}]".

(** A stand-in for the engine's parser on the two texts of the scenario:
    it reads the sample text and rejects everything else. *)
Definition sample_JSON_parse (s : string) : Completion JsVal :=
  if String.eqb s sample_lineItems_text then
    Normal (JArr [JObj [("variantId", JStr "9"); ("quantity", JNum 2)]])
  else Throw (ErrorObj SyntaxError "Unexpected token in JSON").

(** [s.includes(c)] for one character. *)
Fixpoint has_char (c : ascii) (s : string) : bool :=
  match s with
  | EmptyString => false
  | String a rest => if Ascii.eqb a c then true else has_char c rest
  end.

(** The tools that take their client from [getGraphQLClient()]; the others
    keep a handle of their own. *)
Definition uses_central_client (t : MutationTool) : bool :=
  match t with
  | T_CreateCustomer | T_AdjustInventory | T_CreateOrder | T_CreateProduct =>
      true
  | _ => false
  end.

Definition list_uses_central_client (t : ListTool) : bool :=
  match t with
  | L_GetCustomers | L_GetInventoryLevels => true
  | _ => false
  end.

(** What a tool reports when it runs without a client. *)
Definition no_client_text (central : bool) : string :=
  if central then
    "GraphQL client not initialized. Call initializeGraphQLClient first."
  else "Cannot read properties of undefined (reading 'request')".

(** A line item the create-order handler lets through: an object whose
    [variantId] is truthy and whose [quantity] is a number above zero. *)
Definition valid_line_item (item : JsVal) : bool :=
  match item with
  | JObj o =>
      truthy (field_of o "variantId") &&
      match field_of o "quantity" with
      | JNum n => Z.ltb 0 n
      | _ => false
      end
  | _ => false
  end.

(** [v.k] for a value that may not be an object, [undefined] otherwise. *)
Definition field_val (v : JsVal) (k : string) : JsVal :=
  match v with JObj o => field_of o k | _ => JUndefined end.

(** A string that starts with [gid://]. *)
Definition is_gid (v : JsVal) : bool :=
  match v with JStr s => startsWith s "gid://" | _ => false end.

(** An optional string with the empty string read as absent, and an
    optional array with the empty array read as absent. *)
Definition drop_empty (x : option string) : option string :=
  match x with
  | Some s => if String.eqb s "" then None else Some s
  | None => None
  end.

Definition drop_nil {A : Type} (x : option (list A)) : option (list A) :=
  match x with
  | Some [] => None
  | other => other
  end.


(** The clause a list tool derives from an optional text argument: none
    when the argument is omitted or empty. *)
Definition supplied (x : option string) (clause : string -> string)
  : list string :=
  match x with
  | Some s => if String.eqb s "" then [] else [clause s]
  | None => []
  end.

(** The filter clauses getInventoryItems derives from its input, in the
    order it adds them. *)
Definition inventory_item_clauses (input : GetInventoryItems.Input)
  : list string :=
  supplied (GetInventoryItems.query input) (fun q => q) ++
  (supplied (GetInventoryItems.productId input)
     (fun p => ("product_id:" ++ formatGid "Product" p)%string) ++
   supplied (GetInventoryItems.variantId input)
     (fun v => ("variant_id:" ++ formatGid "ProductVariant" v)%string))%list.

(** A transport that answers the locations query with one location, and
    what getLocations makes of it. *)
Definition sample_locations_client : Client JsVal :=
  fun _ =>
    Normal (JObj [("locations",
      JObj [("edges", JArr [JObj [("node", JObj [("id", JStr "1")])]])])]).

Definition sample_locations_result : JsVal :=
  JObj [("locations",
    JArr [JObj [("id", JStr "1"); ("name", JUndefined);
                ("isActive", JUndefined); ("address", JUndefined);
                ("fulfillsOnlineOrders", JUndefined);
                ("hasActiveInventory", JUndefined);
                ("legacyResourceId", JUndefined);
                ("shipsInventory", JUndefined);
                ("supportsLocalDelivery", JUndefined);
                ("supportsLocalPickup", JUndefined);
                ("localPickupSettings", JUndefined);
                ("localDeliverySettings", JUndefined)]])].


(** The tools that rebuild the returned inventory level with a guard on
    every nested object (dist/tools/adjustInventory.js and the connect and
    disconnect tools). *)
Definition guards_nested_objects (t : MutationTool) : bool :=
  match t with
  | T_DistAdjustInventory | T_ConnectInventory | T_DisconnectInventory => true
  | _ => false
  end.

(** [v == null]. *)
Definition is_nullish (v : JsVal) : bool :=
  match v with JUndefined | JNull => true | _ => false end.

(** A product payload with one variant. *)
Definition sample_product : JsVal :=
  JObj [("id", JStr "gid://shopify/Product/1");
        ("title", JStr "Shirt");
        ("variants",
           JObj [("edges",
             JArr [JObj [("node", JObj [("id", JStr "v")])]])]);
        ("images", JObj [("edges", JArr [])]);
        ("metafields", JObj [("edges", JArr [])])].

(* ===================================================================== *)
(** * Properties                                                          *)
(* ===================================================================== *)

(** ** Property tables *)

Lemma get_own_set_prop (o : Props) (k f : string) (v : JsVal) :
  get_own (set_prop o k v) f =
  if String.eqb k f then Some v else get_own o f.
Proof.
  induction o as [|[k' v'] o IH]; simpl.
  - destruct (String.eqb k f); reflexivity.
  - destruct (String.eqb k' k) eqn:E; simpl.
    + apply String.eqb_eq in E; subst k'.
      destruct (String.eqb k f); reflexivity.
    + rewrite IH.
      destruct (String.eqb k' f) eqn:E1; [|reflexivity].
      destruct (String.eqb k f) eqn:E2; [|reflexivity].
      apply String.eqb_eq in E1, E2; subst.
      rewrite String.eqb_refl in E; discriminate.
Qed.

Lemma get_own_delete_prop (o : Props) (k f : string) :
  get_own (delete_prop o k) f =
  if String.eqb k f then None else get_own o f.
Proof.
  induction o as [|[k' v'] o IH]; simpl.
  - destruct (String.eqb k f); reflexivity.
  - destruct (String.eqb k' k) eqn:E; simpl.
    + rewrite IH. apply String.eqb_eq in E; subst k'.
      destruct (String.eqb k f); reflexivity.
    + rewrite IH.
      destruct (String.eqb k' f) eqn:E1; [|reflexivity].
      destruct (String.eqb k f) eqn:E2; [|reflexivity].
      apply String.eqb_eq in E1, E2; subst.
      rewrite String.eqb_refl in E; discriminate.
Qed.

Lemma get_own_assign_if (c : bool) (o : Props) (k f : string) (v : JsVal) :
  get_own (assign_if c k v o) f =
  if c && String.eqb k f then Some v else get_own o f.
Proof.
  unfold assign_if. destruct c; simpl; [apply get_own_set_prop | reflexivity].
Qed.

Lemma has_key_false_get_own (o : Props) (k : string) :
  has_key o k = false -> get_own o k = None.
Proof. unfold has_key. destruct (get_own o k); [discriminate | reflexivity]. Qed.

Lemma field_of_set_prop_same (o : Props) (k : string) (v : JsVal) :
  field_of (set_prop o k v) k = v.
Proof. unfold field_of. now rewrite get_own_set_prop, String.eqb_refl. Qed.

Lemma in_keys_set_prop (o : Props) (k f : string) (v : JsVal) :
  In f (map fst (set_prop o k v)) -> In f (map fst o) \/ f = k.
Proof.
  induction o as [|[k' v'] o IH]; simpl.
  - intros [E|[]]. now right.
  - destruct (String.eqb k' k) eqn:E; simpl.
    + intros [H|H]; [left; now left | left; now right].
    + intros [H|H]; [left; now left|].
      destruct (IH H) as [I|I]; [left; now right | now right].
Qed.

Lemma set_prop_unique_keys (o : Props) (k : string) (v : JsVal) :
  NoDup (map fst o) -> NoDup (map fst (set_prop o k v)).
Proof.
  induction o as [|[k' v'] o IH]; simpl; intros H.
  - constructor; [intros [] | constructor].
  - destruct (String.eqb k' k) eqn:E; simpl.
    + exact H.
    + inversion H as [|? ? Hn Hd]; subst. constructor; [|now apply IH].
      intros I. apply in_keys_set_prop in I. destruct I as [I|I].
      * now apply Hn.
      * subst k'. now rewrite String.eqb_refl in E.
Qed.

Lemma get_own_not_in (o : Props) (f : string) :
  ~ In f (map fst o) -> get_own o f = None.
Proof.
  induction o as [|[k v] o IH]; simpl; intros H; [reflexivity|].
  destruct (String.eqb k f) eqn:E.
  - apply String.eqb_eq in E. exfalso. apply H. now left.
  - apply IH. intros I. apply H. now right.
Qed.


(** ** Strings *)

Lemma prefix_app (s t : string) : String.prefix s (s ++ t) = true.
Proof.
  induction s as [|a s IH]; simpl.
  - destruct t; reflexivity.
  - destruct (ascii_dec a a) as [_|N]; [exact IH | congruence].
Qed.

(** ** Proof automation *)

Ltac unfold_body :=
  first [ progress unfold CreateCustomer.body
        | progress unfold AdjustInventory.body
        | progress unfold CreateOrder.body
        | progress unfold CreateProduct.body
        | progress unfold LegacyCreateCustomer.body
        | progress unfold UpdateCustomer.body
        | progress unfold CreateFulfillment.body
        | progress unfold SetInventoryTracking.body
        | progress unfold CreateCollection.body
        | progress unfold DistCreateCollection.body_ts
        | progress unfold DistCreateCollection.body
        | progress unfold DistAdjustInventory.body
        | progress unfold ConnectInventoryToLocation.body
        | progress unfold DisconnectInventoryFromLocation.body
        | progress unfold LegacyCreateProduct.body
        | progress unfold LegacyCreateOrder.body
        | progress unfold CreateMetafield.body ].

Ltac run_with Hc :=
  cbn [bind try_catch getGraphQLClient request_via]; rewrite Hc;
  cbn [bind try_catch payload userErrors].

Ltac pick_field :=
  repeat match goal with
  | H : _ \/ _ |- _ => destruct H
  | H : False |- _ => contradiction
  end;
  match goal with
  | H : (_, _) = (_, _) |- _ => inversion H; subst; clear H
  end.

Ltac omit_field :=
  match goal with
  | H : absent ?x = true |- _ => destruct x; [discriminate H|]; clear H
  end.

Ltac reduce_guards :=
  repeat (rewrite get_own_assign_if || rewrite get_own_set_prop);
  cbn;
  rewrite ?andb_false_r; cbn.

Ltac destruct_options :=
  repeat match goal with
  | x : option _ |- _ => destruct x
  end.

(* ===================================================================== *)
(** ** Identifier formatter                                               *)
(* ===================================================================== *)

Lemma formatGid_qualified (type id : string) :
  startsWith (formatGid type id) "gid://" = true.
Proof.
  unfold formatGid. destruct (startsWith id "gid://") eqn:E.
  - exact E.
  - reflexivity.
Qed.

(** C6. Formatting is idempotent: [formatGid T (formatGid T X) = formatGid T X]
    for every resource type [T] and identifier [X]; an identifier that already
    starts with the scheme prefix [gid://] is returned unchanged, and a bare
    token [X] becomes [gid://shopify/T/X]. *)
Theorem formatGid_idempotent (T X : string) :
  formatGid T (formatGid T X) = formatGid T X /\
  (startsWith X "gid://" = true -> formatGid T X = X) /\
  (startsWith X "gid://" = false ->
     formatGid T X = "gid://shopify/" ++ T ++ "/" ++ X).
Proof.
  split; [|split].
  - unfold formatGid at 1. now rewrite formatGid_qualified.
  - intros E. unfold formatGid. now rewrite E.
  - intros E. unfold formatGid. now rewrite E.
Qed.

Lemma formatGid_idempotent_witness :
  startsWith "gid://shopify/Product/123" "gid://" = true /\
  startsWith "123" "gid://" = false /\
  formatGid "Product" (formatGid "Product" "123") = formatGid "Product" "123" /\
  formatGid "Product" "gid://shopify/Product/123" = "gid://shopify/Product/123" /\
  formatGid "Product" "123" = "gid://shopify/Product/123".
Proof.
  split; [reflexivity|]. split; [reflexivity|].
  split; [exact (proj1 (formatGid_idempotent "Product" "123"))|].
  split.
  - apply (proj1 (proj2 (formatGid_idempotent "Product"
             "gid://shopify/Product/123"))). reflexivity.
  - apply (proj2 (proj2 (formatGid_idempotent "Product" "123"))). reflexivity.
Defined.

Lemma inline_gid_formatGid (resource id : string) :
  inline_gid resource id = formatGid resource id.
Proof. reflexivity. Qed.

(** C10. An identifier that starts with [gid://] is returned unchanged
    whatever resource type is asked for, so
    [formatGid "Product" "gid://shopify/Customer/5"] is
    [gid://shopify/Customer/5]; the adjust-inventory tools (the compiled
    dist/tools/adjustInventory.js and the refactored adjust-inventory.ts)
    put such an inventory item id unmodified into the variables of their
    network call. *)
Theorem formatGid_ignores_type (T s : string) (input : AdjustInventory.Input) :
  startsWith s "gid://" = true ->
  AdjustInventory.inventoryItemId input = s ->
  formatGid T s = s /\
  field_of (DistAdjustInventory.mutation_input input) "inventoryItemId" = JStr s /\
  field_of (AdjustInventory.mutation_input input) "inventoryItemId" = JStr s /\
  (forall client : Client MutationData,
     DistAdjustInventory.body (Some client) input =
     (data <- client (JObj [("input",
        JObj [("inventoryItemId", JStr s);
              ("availableDelta", JNum (AdjustInventory.availableDelta input));
              ("locationId",
                 JStr (inline_gid "Location" (AdjustInventory.locationId input)));
              ("reason", opt_js JStr (AdjustInventory.reason input))])]) ;;
      throw_if_userErrors DistAdjustInventory.operation (userErrors data) ;;;
      DistAdjustInventory.shape (payload data))).
Proof.
  intros E Hid.
  assert (F : forall R, formatGid R s = s)
    by (intro R; unfold formatGid; now rewrite E).
  split; [apply F|].
  split; [|split].
  - unfold DistAdjustInventory.mutation_input. rewrite Hid, inline_gid_formatGid, F.
    reflexivity.
  - unfold AdjustInventory.mutation_input. rewrite Hid, F. reflexivity.
  - intros client.
    unfold DistAdjustInventory.body, DistAdjustInventory.variables,
      DistAdjustInventory.mutation_input, request_via.
    rewrite Hid, (inline_gid_formatGid "InventoryItem"), F. reflexivity.
Qed.

Lemma formatGid_ignores_type_witness :
  startsWith "gid://shopify/Customer/5" "gid://" = true /\
  formatGid "Product" "gid://shopify/Customer/5" = "gid://shopify/Customer/5" /\
  field_of (DistAdjustInventory.mutation_input
              (AdjustInventory.mkInput "gid://shopify/Customer/5" "2" (-3) None))
    "inventoryItemId" = JStr "gid://shopify/Customer/5".
Proof.
  split; [reflexivity|].
  pose proof (@formatGid_ignores_type "Product" "gid://shopify/Customer/5"
    (AdjustInventory.mkInput "gid://shopify/Customer/5" "2" (-3) None)
    eq_refl eq_refl) as H.
  split; [exact (proj1 H) | exact (proj1 (proj2 H))].
Defined.

(* ===================================================================== *)
(** ** Response unwrapper                                                 *)
(* ===================================================================== *)

Lemma mapM_node_edges (X : list JsVal) :
  mapM (fun edge => prop edge "node") (edges_of X) = Normal X.
Proof.
  unfold edges_of.
  induction X as [|n X IH]; simpl.
  - reflexivity.
  - rewrite IH. reflexivity.
Qed.

(** The third part of C5 fails on the code: with [edges] absent,
    [mapEdgesToNodes(connection.edges)] does not return the empty sequence. *)
Lemma unwrapEdges_absent_edges_not_empty :
  unwrapEdges (JObj []) <> Normal [] /\ mapEdgesToNodes JUndefined <> Normal [].
Proof. split; discriminate. Qed.

(** C5 (amended). For every list [X] of nodes, unwrapping
    [{edges: X.map(n => ({node: n}))}] returns exactly [X] in order, and
    unwrapping [{edges: []}] returns the empty sequence. A connection with
    absent edges ([{}]) makes [mapEdgesToNodes] fail with a TypeError; only
    the inline optional-chaining idiom of create-customer yields the empty
    sequence there. *)
Theorem unwrapEdges_round_trip (X : list JsVal) :
  unwrapEdges (JObj [("edges", JArr (edges_of X))]) = Normal X /\
  mapEdgesToNodes (JArr (edges_of X)) = Normal X /\
  unwrapEdges (JObj [("edges", JArr [])]) = Normal [] /\
  unwrapEdges (JObj []) =
    Throw (ErrorObj TypeError
      "Cannot read properties of undefined (reading 'map')") /\
  unwrapEdges_optional (JObj []) = Normal [].
Proof.
  repeat split; try reflexivity.
  - unfold unwrapEdges, mapEdgesToNodes; simpl. apply mapM_node_edges.
  - unfold mapEdgesToNodes; simpl. apply mapM_node_edges.
Qed.

(* ===================================================================== *)
(** ** Error reshaper                                                     *)
(* ===================================================================== *)

Lemma describe_user_error_has_field (e : UserError) :
  has_field e = true -> describe_user_error e = field_colon_message e.
Proof.
  unfold has_field, describe_user_error, field_colon_message, field_text.
  destruct (field e) as [f|]; [|discriminate].
  intros ->. reflexivity.
Qed.

Lemma map_describe_all_fields (errs : list UserError) :
  forallb has_field errs = true ->
  map describe_user_error errs = map field_colon_message errs.
Proof.
  induction errs as [|e errs IH]; simpl; [reflexivity|].
  intros H. apply andb_true_iff in H. destruct H as [He Hs].
  now rewrite describe_user_error_has_field, IH.
Qed.

(** C3 as stated fails: an error whose field is the empty string is
    reported by its message alone, not as [": message"]. *)
Lemma handleGraphQLErrors_empty_field_counterexample :
  ~ (forall (errs : list UserError) (L : string),
       errs <> [] ->
       handleGraphQLErrors errs L =
       Throw (ErrorObj PlainError
         ("Failed to " ++ L ++ ": " ++ join ", " (map field_colon_message errs)))).
Proof.
  intros H.
  specialize (H [mkUserError (Some "") "Email is invalid"] "create customer").
  assert (N : [mkUserError (Some "") "Email is invalid"] <> []) by discriminate.
  specialize (H N). vm_compute in H. discriminate H.
Qed.

(** C3 (amended). For a non-empty list of business errors and a label [L],
    [handleGraphQLErrors] fails with the message ["Failed to L: "] followed
    by one text per error joined by [", "]: [field: message] when the field
    is a non-empty string, the message alone otherwise; so when every error
    has such a field the message is the [field: message] pairs joined by
    [", "]. For the empty list it returns without failing. *)
Theorem handleGraphQLErrors_message (errs : list UserError) (L : string) :
  (errs = [] -> handleGraphQLErrors errs L = Normal tt) /\
  (errs <> [] ->
     handleGraphQLErrors errs L =
     Throw (ErrorObj PlainError
       ("Failed to " ++ L ++ ": "
        ++ join ", " (map (fun e => if has_field e then field_colon_message e
                                    else message e) errs)))) /\
  (errs <> [] -> forallb has_field errs = true ->
     handleGraphQLErrors errs L =
     Throw (ErrorObj PlainError
       ("Failed to " ++ L ++ ": " ++ join ", " (map field_colon_message errs)))).
Proof.
  assert (G : errs <> [] ->
     handleGraphQLErrors errs L =
     Throw (ErrorObj PlainError
       ("Failed to " ++ L ++ ": " ++ join ", " (map describe_user_error errs)))).
  { destruct errs as [|e errs]; [intros N; contradiction|]. reflexivity. }
  split; [|split].
  - intros ->. reflexivity.
  - intros N. rewrite (G N).
    assert (M : map describe_user_error errs =
                map (fun e => if has_field e then field_colon_message e
                              else message e) errs).
    { apply map_ext. intros e.
      unfold describe_user_error, has_field, field_colon_message, field_text.
      destruct (field e) as [f|]; [|reflexivity].
      destruct (negb (String.eqb f "")); reflexivity. }
    now rewrite M.
  - intros N A. rewrite (G N). now rewrite map_describe_all_fields.
Qed.

Lemma handleGraphQLErrors_message_witness :
  [mkUserError (Some "email") "has already been taken";
   mkUserError (Some "phone") "is invalid"] <> [] /\
  forallb has_field
    [mkUserError (Some "email") "has already been taken";
     mkUserError (Some "phone") "is invalid"] = true /\
  handleGraphQLErrors
    [mkUserError (Some "email") "has already been taken";
     mkUserError (Some "phone") "is invalid"] "create customer" =
  Throw (ErrorObj PlainError
    "Failed to create customer: email: has already been taken, phone: is invalid") /\
  handleGraphQLErrors [] "create customer" = Normal tt.
Proof.
  assert (N : [mkUserError (Some "email") "has already been taken";
               mkUserError (Some "phone") "is invalid"] <> []) by discriminate.
  split; [exact N|]. split; [reflexivity|].
  split.
  - exact (proj2 (proj2 (handleGraphQLErrors_message _ "create customer"))
             N eq_refl).
  - exact (proj1 (handleGraphQLErrors_message [] "create customer") eq_refl).
Defined.

(* ===================================================================== *)
(** ** Business errors short-circuit response shaping                     *)
(* ===================================================================== *)

Lemma on_error_reported (c : ErrorClass) (m : string) :
  @LegacyCreateOrder.on_error JsVal (ErrorObj c m) =
  Throw (ErrorObj PlainError (reported m)).
Proof.
  unfold LegacyCreateOrder.on_error, reported.
  destruct (includes m "variant"); [reflexivity|].
  destruct (includes m "customer"); reflexivity.
Qed.

Lemma reported_prefix (m : string) :
  String.prefix "Failed to create order: " (reported m) = true.
Proof.
  unfold reported.
  destruct (includes m "variant"); [reflexivity|].
  destruct (includes m "customer"); [reflexivity|].
  apply prefix_app.
Qed.

Lemma prefix_failed_to (L m : string) :
  String.prefix ("Failed to " ++ L ++ ": ") ("Failed to " ++ L ++ ": " ++ m)
  = true.
Proof.
  assert (E : "Failed to " ++ L ++ ": " ++ m = ("Failed to " ++ L ++ ": ") ++ m).
  { simpl. do 10 f_equal. induction L as [|a L IH]; simpl; [reflexivity|].
    now rewrite IH. }
  rewrite E. apply prefix_app.
Qed.

Lemma execute_is_try_catch (t : MutationTool)
  (client : option (Client MutationData)) (input : InputOf t) :
  execute_of t client input = try_catch (body_of t client input) (catch_of t).
Proof. destruct t; reflexivity. Qed.

(** With an empty list the body is response shaping applied to the
    payload. *)
Lemma body_shapes_without_userErrors (t : MutationTool) (input : InputOf t)
  (vars : JsVal) (client : Client MutationData) (p : JsVal) :
  variables_of t input = Normal vars ->
  client vars = Normal (mkMutationData p []) ->
  body_of t (Some client) input = shape_of t input p.
Proof.
  intros Hv Hc.
  destruct t; simpl in Hv; try (inversion Hv; subst vars; clear Hv);
    simpl; unfold_body; try rewrite Hv; run_with Hc; reflexivity.
Qed.

Lemma describe_user_error_cases (e : UserError) :
  describe_user_error e =
  if has_field e then field_colon_message e else message e.
Proof.
  unfold has_field, describe_user_error, field_colon_message, field_text.
  destruct (field e) as [f|]; [|reflexivity].
  destruct (negb (String.eqb f "")); reflexivity.
Qed.

(** With a non-empty business error list the body of every tool throws
    the aggregate of the list, whatever the payload is. *)
Lemma body_throws_aggregated (t : MutationTool) (input : InputOf t)
  (vars : JsVal) (errs : list UserError) (client : Client MutationData)
  (p : JsVal) :
  variables_of t input = Normal vars ->
  errs <> [] ->
  client vars = Normal (mkMutationData p errs) ->
  body_of t (Some client) input = Throw (ErrorObj PlainError (aggregated t errs)).
Proof.
  intros Hv Hne Hc.
  destruct errs as [|e errs]; [contradiction|]; clear Hne.
  assert (D : map describe_user_error (e :: errs) =
              map (fun e => if has_field e then field_colon_message e
                            else message e) (e :: errs))
    by (apply map_ext; intros a; apply describe_user_error_cases).
  destruct t; simpl in Hv; try (inversion Hv; subst vars; clear Hv);
    simpl; unfold_body; try rewrite Hv; run_with Hc;
    unfold aggregated, business_error_text, handleGraphQLErrors,
      throw_if_userErrors, CreateCollection.throw_if_userErrors_messages,
      throw_Error;
    cbn [List.length Nat.ltb Nat.leb bind]; rewrite ?D; reflexivity.
Qed.

Lemma catch_of_failure_text (t : MutationTool) (c : ErrorClass) (m : string) :
  catch_of t (ErrorObj c m) = Throw (ErrorObj PlainError (failure_text t m)).
Proof. destruct t; try reflexivity. apply on_error_reported. Qed.

(** C1 as stated fails for src/tools/createOrder.ts: when the aggregate of
    the business errors mentions a customer (or a variant), the catch
    clause of that tool replaces it by a fixed hint, and the caller does
    not get the aggregate. *)
Lemma business_error_hint_counterexample :
  ~ (forall (t : MutationTool) (input : InputOf t) (vars : JsVal)
       (errs : list UserError) (client : Client MutationData) (p : JsVal),
       variables_of t input = Normal vars ->
       errs <> [] ->
       client vars = Normal (mkMutationData p errs) ->
       exists m : string,
         execute_of t (Some client) input = Throw (ErrorObj PlainError m) /\
         includes m (join ", " (map (business_error_text t) errs)) = true).
Proof.
  intros H.
  assert (N : [mkUserError (Some "customerId") "is invalid"] <> [])
    by discriminate.
  destruct (H T_LegacyCreateOrder [("lineItems", JArr [])] _
              [mkUserError (Some "customerId") "is invalid"]
              (fun _ => Normal (mkMutationData JNull
                 [mkUserError (Some "customerId") "is invalid"]))
              JNull eq_refl N eq_refl) as [m [E I]].
  vm_compute in E. inversion E; subst m. vm_compute in I. discriminate I.
Qed.

(** C1 (amended). For every mutation tool, once the transport has answered
    with a non-empty [userErrors] list, [execute] fails with one plain
    [Error], the same whatever the payload is (null included): the payload
    is not read. The tool's body throws the aggregate
    ["Failed to <operation>: "] followed by the texts of the errors joined
    by [", "], and the tool's catch clause wraps it: for every tool but the
    one of src/tools/createOrder.ts the caller reads
    ["Failed to <operation>: "] followed by the aggregate; for
    src/tools/createOrder.ts the caller reads the fixed variant hint when
    the aggregate contains ["variant"], the fixed customer hint when it
    contains ["customer"], and ["Failed to create order: "] followed by the
    aggregate otherwise. With an empty list, [execute] is response shaping
    of the payload under the tool's catch clause. *)
Theorem business_errors_short_circuit (t : MutationTool) (input : InputOf t)
  (vars : JsVal) (errs : list UserError) :
  variables_of t input = Normal vars ->
  (errs <> [] ->
   forall (client : Client MutationData) (p : JsVal),
     client vars = Normal (mkMutationData p errs) ->
     body_of t (Some client) input
       = Throw (ErrorObj PlainError (aggregated t errs)) /\
     execute_of t (Some client) input
       = Throw (ErrorObj PlainError (failure_text t (aggregated t errs)))) /\
  (t <> T_LegacyCreateOrder ->
   failure_text t (aggregated t errs)
   = "Failed to " ++ operation_of t ++ ": Failed to " ++ operation_of t
     ++ ": " ++ join ", " (map (business_error_text t) errs)) /\
  (includes (aggregated T_LegacyCreateOrder errs) "variant" = false ->
   includes (aggregated T_LegacyCreateOrder errs) "customer" = false ->
   failure_text T_LegacyCreateOrder (aggregated T_LegacyCreateOrder errs)
   = "Failed to create order: Failed to create order: "
     ++ join ", " (map field_colon_message errs)) /\
  (forall (client : Client MutationData) (p : JsVal),
     client vars = Normal (mkMutationData p []) ->
     execute_of t (Some client) input =
     try_catch (shape_of t input p) (catch_of t)).
Proof.
  intros Hv. split; [|split; [|split]].
  - intros Hne client p Hc.
    pose proof (body_throws_aggregated t input client Hv Hne Hc) as B.
    split; [exact B|].
    rewrite execute_is_try_catch, B. cbn [try_catch].
    apply catch_of_failure_text.
  - intros N. destruct t; try congruence; reflexivity.
  - intros V C. cbn [failure_text]. unfold reported. rewrite V, C.
    reflexivity.
  - intros client p Hc.
    rewrite execute_is_try_catch.
    now rewrite (body_shapes_without_userErrors t input client Hv Hc).
Qed.

(** create-customer, with the payload null next to a business error. *)
Example create_customer_null_payload_with_userErrors :
  CreateCustomer.execute
    (Some (fun _ => Normal (mkMutationData JNull
       [mkUserError (Some "email") "has already been taken"])))
    (CreateCustomer.mkInput "a@example.com" None None None None None None None)
  = Throw (ErrorObj PlainError
      "Failed to create customer: Failed to create customer: email: has already been taken").
Proof. reflexivity. Qed.

(** adjust-inventory, same response: the failure is the business error,
    where shaping a null level alone would have been a TypeError. *)
Example adjust_inventory_null_payload :
  AdjustInventory.execute
    (Some (fun _ => Normal (mkMutationData JNull
       [mkUserError (Some "inventoryItemId") "is not stocked at the location"])))
    (AdjustInventory.mkInput "1" "2" (-3) None)
  = Throw (ErrorObj PlainError
      "Failed to adjust inventory: Failed to adjust inventory: inventoryItemId: is not stocked at the location")
  /\
  AdjustInventory.shape JNull =
  Throw (ErrorObj TypeError "Cannot read properties of null (reading 'quantities')").
Proof. split; reflexivity. Qed.

Lemma business_errors_short_circuit_witness :
  [mkUserError (Some "email") "has already been taken";
   mkUserError None "Phone is invalid"] <> [] /\
  CreateCustomer.execute
    (Some (fun _ => Normal (mkMutationData JNull
       [mkUserError (Some "email") "has already been taken";
        mkUserError None "Phone is invalid"])))
    (CreateCustomer.mkInput "a@example.com" None None None None None None None)
  = Throw (ErrorObj PlainError
      "Failed to create customer: Failed to create customer: email: has already been taken, Phone is invalid").
Proof.
  assert (N : [mkUserError (Some "email") "has already been taken";
               mkUserError None "Phone is invalid"] <> [])
    by discriminate.
  split; [exact N|].
  exact (proj2 (proj1 (@business_errors_short_circuit T_CreateCustomer
    (CreateCustomer.mkInput "a@example.com" None None None None None None None)
    (JObj [("input", JObj [("email", JStr "a@example.com")])])
    [mkUserError (Some "email") "has already been taken";
     mkUserError None "Phone is invalid"] eq_refl) N
    (fun _ => Normal (mkMutationData JNull
       [mkUserError (Some "email") "has already been taken";
        mkUserError None "Phone is invalid"]))
    JNull eq_refl)).
Defined.

(* ===================================================================== *)
(** ** Omitted optional fields in the mutation input                      *)
(* ===================================================================== *)

(** The tools with a typed input. *)
Lemma omitted_field_typed (t : MutationTool) (input : InputOf t) (k : string)
  (omitted : InputOf t -> bool) (o : Props) :
  t <> T_LegacyCreateOrder ->
  In (k, omitted) (optional_fields_of t) ->
  omitted input = true ->
  mutation_input_of t input = Normal o ->
  get_own o k = if copied_unconditionally t k then Some JUndefined else None.
Proof.
  intros Ht Hin Hom Hmi.
  destruct t; try congruence; clear Ht; simpl in Hin, Hmi;
    inversion Hmi; subst o; clear Hmi.
  - pick_field; destruct input; simpl in Hom; omit_field;
      unfold CreateCustomer.mutation_input, CreateCustomer.customerInput;
      cbv zeta; reduce_guards; reflexivity.
  - pick_field; destruct input; simpl in Hom; omit_field; reflexivity.
  - pick_field; destruct input; simpl in Hom; omit_field;
      unfold CreateOrder.mutation_input, CreateOrder.formatOrderInput;
      cbv zeta; reduce_guards; reflexivity.
  - pick_field; destruct input; simpl in Hom; omit_field;
      unfold CreateProduct.mutation_input, CreateProduct.formatProductInput,
        CreateProduct.productInput, spread; cbv zeta; simpl fold_left;
      reduce_guards; reflexivity.
  - pick_field; destruct input; simpl in Hom; omit_field;
      destruct_options; reflexivity.
  - pick_field; destruct input; simpl in Hom; omit_field;
      destruct_options; reflexivity.
  - pick_field; destruct input; simpl in Hom; omit_field;
      unfold CreateFulfillment.mutation_input, CreateFulfillment.fulfillmentInput;
      cbv zeta; reduce_guards; reflexivity.
  - contradiction.
  - pick_field; destruct input; simpl in Hom; omit_field; reflexivity.
  - pick_field; destruct input; simpl in Hom; omit_field;
      unfold DistCreateCollection.collectionInput_ts,
        DistCreateCollection.collectionInput_common; cbv zeta;
      reduce_guards; reflexivity.
  - pick_field; destruct input; simpl in Hom; omit_field;
      unfold DistCreateCollection.mutation_input,
        DistCreateCollection.collectionInput,
        DistCreateCollection.collectionInput_common; cbv zeta;
      reduce_guards; reflexivity.
  - pick_field; destruct input; simpl in Hom; omit_field; reflexivity.
  - pick_field; destruct input; simpl in Hom; omit_field; reflexivity.
  - pick_field; destruct input; simpl in Hom; omit_field; reflexivity.
  - pick_field; destruct input; simpl in Hom; omit_field;
      unfold LegacyCreateProduct.mutation_input,
        CreateProduct.productInput, spread; cbv zeta; simpl fold_left;
      reduce_guards; reflexivity.
  - pick_field; destruct input; simpl in Hom; omit_field; reflexivity.
Qed.

(** src/tools/createOrder.ts, whose input is the run-time object. *)
Lemma draftOrderInput_keeps_omitted (input o : Props) (k : string) :
  In k ["email"; "phone"; "note"; "tags"; "customAttributes"; "metafields";
        "billingAddress"; "shippingAddress"; "customerId"; "shippingLine";
        "taxExempt"; "presentmentCurrencyCode"] ->
  has_key input k = false ->
  LegacyCreateOrder.draftOrderInput input = Normal o ->
  get_own o k = None.
Proof.
  intros Hin Hk Hd.
  apply has_key_false_get_own in Hk.
  unfold LegacyCreateOrder.draftOrderInput in Hd.
  assert (Hf : field_of input k = JUndefined)
    by (unfold field_of; now rewrite Hk).
  destruct (truthy (field_of input "customerId")) eqn:Hc;
  destruct (truthy (field_of input "lineItems")) eqn:Hl;
  destruct (negb (is_undefined (field_of input "note"))) eqn:Hn;
  simpl in Hd;
  repeat match type of Hd with
  | context [LegacyCreateOrder.qualify_value ?a ?b ?c] =>
      destruct (LegacyCreateOrder.qualify_value a b c); simpl in Hd;
      try discriminate
  | context [js_map ?a ?b ?c] =>
      destruct (js_map a b c); simpl in Hd; try discriminate
  end;
  inversion Hd; subst o; clear Hd;
  simpl in Hin;
  repeat (destruct Hin as [Hin|Hin]; [subst k|]); try contradiction;
  repeat (rewrite get_own_set_prop || rewrite get_own_delete_prop); simpl;
  try assumption; try reflexivity;
  try (rewrite Hf in Hc; discriminate);
  try (rewrite Hf in Hn; discriminate).
Qed.

Lemma mapM_total_line_items (items : list JsVal) :
  forallb has_string_variantId items = true ->
  exists ys,
    mapM (fun item =>
            vid <- prop item "variantId" ;;
            variantId <- LegacyCreateOrder.qualify_value "item.variantId"
                           "ProductVariant" vid ;;
            Normal (JObj (spread (LegacyCreateOrder.props_of item)
                            [("variantId", variantId)]))) items = Normal ys.
Proof.
  induction items as [|item items IH]; intros H.
  - now exists [].
  - cbn [forallb] in H. apply andb_true_iff in H. destruct H as [Hi Hs].
    destruct (IH Hs) as [ys Hys]. cbn [mapM]. rewrite Hys.
    destruct item as [| | | | |l|o]; try discriminate Hi. simpl in *.
    destruct (field_of o "variantId"); try discriminate Hi.
    simpl. eexists. reflexivity.
Qed.

Lemma draftOrderInput_total (input : Props) :
  order_ids_well_typed input = true ->
  exists o, LegacyCreateOrder.draftOrderInput input = Normal o.
Proof.
  unfold order_ids_well_typed, LegacyCreateOrder.draftOrderInput.
  intros H. apply andb_true_iff in H. destruct H as [Hc Hl].
  destruct (field_of input "lineItems") as [| | | | |items|]; try discriminate Hl.
  destruct (mapM_total_line_items items Hl) as [ys Hys].
  cbn [js_map truthy]. rewrite Hys.
  destruct (field_of input "customerId"); try discriminate Hc; simpl.
  - eexists; reflexivity.
  - destruct (negb (String.eqb s "")); simpl; eexists; reflexivity.
Qed.

Lemma MutationTool_eq_LegacyCreateOrder (t : MutationTool) :
  t = T_LegacyCreateOrder \/ t <> T_LegacyCreateOrder.
Proof. destruct t; (now left) || (right; discriminate). Qed.

(** What the mutation input holds in memory for an omitted optional
    field: no key, or, where the tool copies the field without a guard, the
    key bound to [undefined]. *)
Lemma omitted_field_in_memory (t : MutationTool) (input : InputOf t)
  (k : string) (omitted : InputOf t -> bool) (o : Props) :
  In (k, omitted) (optional_fields_of t) ->
  omitted input = true ->
  mutation_input_of t input = Normal o ->
  get_own o k = if copied_unconditionally t k then Some JUndefined else None.
Proof.
  intros Hin Hom Hmi.
  destruct (MutationTool_eq_LegacyCreateOrder t) as [E|N].
  - subst t. unfold optional_fields_of in Hin.
    apply in_map_iff in Hin. destruct Hin as [k' [E Hk']].
    inversion E; subst; clear E.
    apply negb_true_iff in Hom.
    simpl. exact (@draftOrderInput_keeps_omitted input o k Hk' Hom Hmi).
  - exact (@omitted_field_typed t input k omitted o N Hin Hom Hmi).
Qed.

(* ===================================================================== *)
(** ** One failure shape                                                  *)
(* ===================================================================== *)

(** C2 as stated fails: the catch clause of src/tools/createOrder.ts
    replaces a message that mentions a variant by a fixed hint. *)
Lemma create_order_hint_counterexample :
  ~ (forall (t : MutationTool) (e : Thrown),
       catch_of t e = uniform_failure (operation_of t) e).
Proof.
  intros H.
  specialize (H T_LegacyCreateOrder
    (ErrorObj ClientError "Product variant 9 does not exist")).
  vm_compute in H. discriminate H.
Qed.

(** C2 (amended). [handleExecutionError e L] always fails with
    ["Failed to L: <message of e>"], the message of [e] verbatim, and so
    does the catch clause of every tool except the one of
    src/tools/createOrder.ts. That one always fails with a message that
    starts with ["Failed to create order: "], and keeps the message of [e]
    verbatim when [e] is an [Error] whose message contains neither
    ["variant"] nor ["customer"]. An error thrown by a tool's body reaches
    the caller only through the tool's catch clause. *)
Theorem execution_errors_are_wrapped (t : MutationTool) (e : Thrown)
  (L : string) :
  @handleExecutionError JsVal e L = uniform_failure L e /\
  (t <> T_LegacyCreateOrder ->
     catch_of t e = uniform_failure (operation_of t) e) /\
  Forall (fun c => snd c e = uniform_failure (fst c) e) query_catch_clauses /\
  (exists m : string,
     catch_of T_LegacyCreateOrder e =
       Throw (ErrorObj PlainError ("Failed to create order: " ++ m)) /\
     (forall (c : ErrorClass) (msg : string),
        e = ErrorObj c msg ->
        includes msg "variant" = false ->
        includes msg "customer" = false ->
        m = msg)) /\
  (forall (client : option (Client MutationData)) (input : InputOf t),
     body_of t client input = Throw e ->
     execute_of t client input = catch_of t e).
Proof.
  split; [reflexivity|].
  split; [intros N; destruct t; try reflexivity; congruence|].
  split; [repeat constructor|].
  split.
  - destruct e as [c msg|v]; simpl.
    + destruct (includes msg "variant") eqn:V.
      * eexists; split; [reflexivity|]. intros c' msg' E V'.
        inversion E; subst. congruence.
      * destruct (includes msg "customer") eqn:C.
        -- eexists; split; [reflexivity|]. intros c' msg' E _ C'.
           inversion E; subst. congruence.
        -- exists msg; split; [reflexivity|]. intros c' msg' E _ _.
           now inversion E.
    + eexists; split; [reflexivity|]. intros c msg E. discriminate E.
  - intros client input Hb. now rewrite execute_is_try_catch, Hb.
Qed.

Lemma execution_errors_are_wrapped_witness :
  T_CreateCustomer <> T_LegacyCreateOrder /\
  catch_of T_CreateCustomer (ErrorObj ClientError "Network request failed")
  = Throw (ErrorObj PlainError
      "Failed to create customer: Network request failed") /\
  includes "Network request failed" "variant" = false /\
  includes "Network request failed" "customer" = false /\
  catch_of T_LegacyCreateOrder (ErrorObj ClientError "Network request failed")
  = Throw (ErrorObj PlainError
      "Failed to create order: Network request failed").
Proof.
  assert (N : T_CreateCustomer <> T_LegacyCreateOrder) by discriminate.
  split; [exact N|].
  split.
  - exact (proj1 (proj2 (execution_errors_are_wrapped T_CreateCustomer
      (ErrorObj ClientError "Network request failed") "create customer")) N).
  - split; [reflexivity|]. split; [reflexivity|].
    destruct (proj1 (proj2 (proj2 (proj2 (execution_errors_are_wrapped
      T_CreateCustomer (ErrorObj ClientError "Network request failed")
      "create customer"))))) as [m [Hm Hv]].
    rewrite Hm. now rewrite (Hv _ _ eq_refl eq_refl eq_refl).
Defined.

(* ===================================================================== *)
(** ** get-product-by-id: the product that is not there                   *)
(* ===================================================================== *)

(** C7. When the transport answers get-product-by-id with [product: null],
    [execute] fails with ["Failed to fetch product details: Product not found"],
    which contains ["not found"]. The error is the one thrown by the null
    check that opens [formatProductDetails] (a plain [Error]); the first
    dereference after it, of [product.variants], would have been a
    TypeError. *)
Theorem get_product_by_id_not_found (client : Client JsVal)
  (input : GetProductById.Input) (data : Props) :
  client (GetProductById.variables input) = Normal (JObj data) ->
  field_of data "product" = JNull ->
  GetProductById.execute (Some client) input =
    Throw (ErrorObj PlainError
      "Failed to fetch product details: Product not found") /\
  includes "Failed to fetch product details: Product not found" "not found"
    = true /\
  GetProductById.formatProductDetails JNull =
    Throw (ErrorObj PlainError "Product not found") /\
  nodes_of JNull "variants" =
    Throw (ErrorObj TypeError
      "Cannot read properties of null (reading 'variants')").
Proof.
  intros Hc Hp.
  split; [|repeat split; reflexivity].
  unfold GetProductById.execute, GetProductById.body.
  cbn [getGraphQLClient bind].
  change (JObj [("id", JStr (formatGid "Product" (GetProductById.productId input)))])
    with (GetProductById.variables input).
  rewrite Hc. cbn [bind prop]. rewrite Hp. reflexivity.
Qed.

Lemma get_product_by_id_not_found_witness :
  (fun _ : JsVal => Normal (JObj [("product", JNull)]))
    (GetProductById.variables (GetProductById.mkInput "123"))
  = Normal (JObj [("product", JNull)]) /\
  field_of [("product", JNull)] "product" = JNull /\
  GetProductById.execute
    (Some (fun _ : JsVal => Normal (JObj [("product", JNull)])))
    (GetProductById.mkInput "123") =
  Throw (ErrorObj PlainError
    "Failed to fetch product details: Product not found").
Proof.
  split; [reflexivity|]. split; [reflexivity|].
  exact (proj1 (@get_product_by_id_not_found
    (fun _ : JsVal => Normal (JObj [("product", JNull)]))
    (GetProductById.mkInput "123") [("product", JNull)] eq_refl eq_refl)).
Defined.

(* ===================================================================== *)
(** ** The empty identifier                                               *)
(* ===================================================================== *)

(** C9 (what the code does). [formatGid] never fails: the empty string
    is qualified into [gid://shopify/T/]. The schema of the refactored
    adjust-inventory tool accepts an empty inventory item id, and the tool
    sends [gid://shopify/InventoryItem/] in its variables; the schema of the
    compiled adjust-inventory tool, like the one of get-product-by-id,
    rejects the empty string. *)
Theorem empty_id_is_qualified_and_sent :
  (forall T : string, formatGid T "" = "gid://shopify/" ++ T ++ "/") /\
  AdjustInventory.AdjustInventoryInputSchema empty_item_args
    = Some (AdjustInventory.mkInput "" "2" 0 None) /\
  AdjustInventory.variables (AdjustInventory.mkInput "" "2" 0 None)
    = JObj [("input",
        JObj [("inventoryItemId", JStr "gid://shopify/InventoryItem/");
              ("locationId", JStr "gid://shopify/Location/2");
              ("availableDelta", JNum 0);
              ("reason", JUndefined)])] /\
  DistAdjustInventory.AdjustInventoryInputSchema empty_item_args = None /\
  GetProductById.GetProductByIdInputSchema (JObj [("productId", JStr "")])
    = None.
Proof.
  split; [intros T; reflexivity|].
  repeat split; reflexivity.
Qed.

(* ===================================================================== *)
(** ** create-order: line items supplied as a string                      *)
(* ===================================================================== *)

Lemma ensure_array_isArray (v : JsVal) : isArray (ensure_array v) = true.
Proof. destruct v; reflexivity. Qed.

Lemma preprocess_lineItems_array (parse : string -> Completion JsVal)
  (args : Props) :
  isArray (field_of args "lineItems") = true ->
  preprocess_lineItems parse args = Normal args.
Proof.
  unfold preprocess_lineItems.
  destruct (field_of args "lineItems"); try discriminate; reflexivity.
Qed.

(** The scenario end to end: the parsed item passes validation and its
    variant id is qualified in the variables sent. *)
Example create_order_parsed_line_items_variables :
  (processed <- preprocess_lineItems sample_JSON_parse
                  [("lineItems", JStr sample_lineItems_text)] ;;
   validate_lineItems processed ;;;
   LegacyCreateOrder.variables processed)
  = Normal (JObj [("input", JObj [("lineItems",
      JArr [JObj [("variantId", JStr "gid://shopify/ProductVariant/9");
                  ("quantity", JNum 2)]])])]).
Proof. reflexivity. Qed.

(** A single object is wrapped before validation. *)
Example ensure_array_wraps_object :
  ensure_array (JObj [("variantId", JStr "9"); ("quantity", JNum 2)])
  = JArr [JObj [("variantId", JStr "9"); ("quantity", JNum 2)]].
Proof. reflexivity. Qed.

(* ===================================================================== *)
(** ** Scenarios                                                          *)
(* ===================================================================== *)

(** The adjust-inventory scenario: qualified identifiers and the delta as
    given; [available] in the result is the transport's figure. *)
Example adjust_inventory_scenario :
  AdjustInventory.variables (AdjustInventory.mkInput "1" "2" (-3) None)
  = JObj [("input",
      JObj [("inventoryItemId", JStr "gid://shopify/InventoryItem/1");
            ("locationId", JStr "gid://shopify/Location/2");
            ("availableDelta", JNum (-3));
            ("reason", JUndefined)])] /\
  AdjustInventory.execute
    (Some (fun _ => Normal (mkMutationData
       (JObj [("id", JStr "gid://shopify/InventoryLevel/7");
              ("quantities",
                 JArr [JObj [("name", JStr "available"); ("quantity", JNum 4)]]);
              ("item", JObj [("id", JStr "gid://shopify/InventoryItem/1");
                             ("sku", JStr "SKU-1"); ("tracked", JBool true)]);
              ("location", JObj [("id", JStr "gid://shopify/Location/2");
                                 ("name", JStr "Main")])]) [])))
    (AdjustInventory.mkInput "1" "2" (-3) None)
  = Normal (JObj [("inventoryLevel",
      JObj [("id", JStr "gid://shopify/InventoryLevel/7");
            ("available", JNum 4);
            ("item", JObj [("id", JStr "gid://shopify/InventoryItem/1");
                           ("sku", JStr "SKU-1"); ("tracked", JBool true)]);
            ("location", JObj [("id", JStr "gid://shopify/Location/2");
                               ("name", JStr "Main")])])]).
Proof. split; reflexivity. Qed.

(** get-product-by-id, found: the outbound id is qualified, and the product
    comes back under [product] with its connections unwrapped. *)
Example get_product_by_id_found :
  GetProductById.variables (GetProductById.mkInput "123")
  = JObj [("id", JStr "gid://shopify/Product/123")] /\
  (r <- GetProductById.execute
          (Some (fun vars =>
             id <- prop vars "id" ;;
             Normal (JObj [("product",
               JObj [("id", id);
                     ("variants", JObj [("edges", JArr [])]);
                     ("images", JObj [("edges", JArr [])]);
                     ("metafields", JObj [("edges", JArr [])]);
                     ("collections", JObj [("edges", JArr [])]);
                     ("priceRangeV2",
                        JObj [("minVariantPrice", JObj []);
                              ("maxVariantPrice", JObj [])])])])))
          (GetProductById.mkInput "123") ;;
   product <- prop r "product" ;;
   id <- prop product "id" ;;
   variants <- prop product "variants" ;;
   Normal (id, variants))
  = Normal (JStr "gid://shopify/Product/123", JArr []).
Proof. split; reflexivity. Qed.

(* ===================================================================== *)
(** ** extractIdFromGid                                                   *)
(* ===================================================================== *)

Lemma string_app_assoc (a b c : string) : (a ++ b) ++ c = a ++ b ++ c.
Proof. induction a as [|x a IH]; simpl; [reflexivity | now rewrite IH]. Qed.

Lemma split_not_nil (sep : ascii) (s : string) : split sep s <> [].
Proof.
  destruct s as [|c r]; simpl; [discriminate|].
  destruct (Ascii.eqb c sep); [discriminate|].
  destruct (split sep r); discriminate.
Qed.

Lemma split_app_sep (sep : ascii) (pre X : string) :
  split sep (pre ++ String sep X) = (split sep pre ++ split sep X)%list.
Proof.
  induction pre as [|c pre IH]; simpl.
  - now rewrite Ascii.eqb_refl.
  - rewrite IH. destruct (Ascii.eqb c sep); [reflexivity|].
    destruct (split sep pre) as [|part parts] eqn:E; [|reflexivity].
    now apply split_not_nil in E.
Qed.

Lemma split_no_sep (sep : ascii) (s : string) :
  has_char sep s = false -> split sep s = [s].
Proof.
  induction s as [|c r IH]; simpl; [reflexivity|].
  destruct (Ascii.eqb c sep); [discriminate|].
  intros H. now rewrite (IH H).
Qed.

Lemma split_parts_no_sep (sep : ascii) (s : string) :
  Forall (fun part => has_char sep part = false) (split sep s).
Proof.
  induction s as [|c r IH]; simpl.
  - repeat constructor.
  - destruct (Ascii.eqb c sep) eqn:E.
    + constructor; [reflexivity | exact IH].
    + destruct (split sep r) as [|part parts]; [repeat constructor; simpl; now rewrite E|].
      inversion IH; subst. constructor; [simpl; now rewrite E | assumption].
Qed.

Lemma join_split (s : string) : join "/" (split "/"%char s) = s.
Proof.
  induction s as [|c r IH]; [reflexivity|].
  simpl split. destruct (Ascii.eqb c "/"%char) eqn:E.
  - apply Ascii.eqb_eq in E; subst c.
    destruct (split "/"%char r) as [|part parts] eqn:S;
      [now apply split_not_nil in S|].
    change (join "/" ("" :: part :: parts))
      with ("" ++ "/" ++ join "/" (part :: parts)).
    now rewrite IH.
  - destruct (split "/"%char r) as [|part parts] eqn:S;
      [now apply split_not_nil in S|].
    destruct parts as [|p2 parts]; simpl in *; now rewrite <- IH.
Qed.

Lemma last_app_nonempty {A : Type} (l1 l2 : list A) (d : A) :
  l2 <> [] -> last (l1 ++ l2) d = last l2 d.
Proof.
  intros N. induction l1 as [|x l1 IH]; [reflexivity|].
  simpl. destruct (l1 ++ l2)%list eqn:E; [|exact IH].
  apply app_eq_nil in E. destruct E; contradiction.
Qed.

Lemma last_In {A : Type} (l : list A) (d : A) : l <> [] -> In (last l d) l.
Proof.
  induction l as [|x l IH]; [contradiction|].
  intros _. destruct l as [|y l]; [now left|].
  right. apply IH. discriminate.
Qed.

Lemma join_last_suffix (l : list string) :
  l <> [] -> exists pre, join "/" l = pre ++ last l "".
Proof.
  induction l as [|x l IH]; [contradiction|]. intros _.
  destruct l as [|y l].
  - now exists "".
  - destruct IH as [pre Hp]; [discriminate|].
    exists (x ++ "/" ++ pre).
    change (join "/" (x :: y :: l)) with (x ++ "/" ++ join "/" (y :: l)).
    rewrite Hp. change (last (x :: y :: l) "") with (last (y :: l) "").
    now rewrite !string_app_assoc.
Qed.

Lemma prefix_gid_has_slash (X : string) :
  startsWith X "gid://" = true -> has_char "/"%char X = true.
Proof.
  unfold startsWith. intros H.
  apply String.prefix_correct in H. simpl String.length in H.
  destruct X as [|a [|b [|c [|d [|e [|f X]]]]]]; simpl in H; try discriminate.
  inversion H; subst. reflexivity.
Qed.

(** X1. On an identifier without a slash, [extractIdFromGid] undoes
    [formatGid]: the token comes back whatever the resource type is, also
    after formatting twice. *)
Theorem extractIdFromGid_formatGid (T X : string) :
  has_char "/"%char X = false ->
  extractIdFromGid (formatGid T X) = X /\
  extractIdFromGid (formatGid T (formatGid T X)) = X.
Proof.
  intros H.
  assert (E : extractIdFromGid (formatGid T X) = X).
  { unfold formatGid. destruct (startsWith X "gid://") eqn:S.
    - apply prefix_gid_has_slash in S. congruence.
    - unfold extractIdFromGid.
      replace ("gid://shopify/" ++ T ++ "/" ++ X)
        with (("gid://shopify/" ++ T) ++ String "/"%char X)
        by (now rewrite string_app_assoc).
      rewrite split_app_sep, last_app_nonempty by apply split_not_nil.
      now rewrite split_no_sep. }
  split; [exact E|].
  unfold formatGid at 1. now rewrite formatGid_qualified.
Qed.

Lemma extractIdFromGid_formatGid_witness :
  has_char "/"%char "123" = false /\
  extractIdFromGid (formatGid "Product" "123") = "123".
Proof.
  split; [reflexivity|].
  exact (proj1 (@extractIdFromGid_formatGid "Product" "123" eq_refl)).
Defined.

(** X2. The text [extractIdFromGid] returns never contains a slash and is
    the end of its argument; an argument without a slash is returned as it
    is, and everything up to the last slash is dropped. *)
Theorem extractIdFromGid_last_segment (gid pre X : string) :
  has_char "/"%char (extractIdFromGid gid) = false /\
  (exists before, gid = before ++ extractIdFromGid gid) /\
  (has_char "/"%char gid = false -> extractIdFromGid gid = gid) /\
  (has_char "/"%char X = false -> extractIdFromGid (pre ++ "/" ++ X) = X).
Proof.
  unfold extractIdFromGid. cbv zeta.
  split; [|split; [|split]].
  - pose proof (split_parts_no_sep "/"%char gid) as F.
    rewrite Forall_forall in F. apply F, last_In, split_not_nil.
  - destruct (join_last_suffix (split_not_nil "/"%char gid)) as [before Hb].
    exists before. now rewrite <- Hb, join_split.
  - intros H. now rewrite split_no_sep.
  - intros H. change (pre ++ "/" ++ X) with (pre ++ String "/"%char X).
    rewrite split_app_sep, last_app_nonempty by apply split_not_nil.
    now rewrite split_no_sep.
Qed.

Lemma extractIdFromGid_last_segment_witness :
  has_char "/"%char "42" = false /\
  extractIdFromGid "42" = "42" /\
  extractIdFromGid ("gid://shopify/Order" ++ "/" ++ "42") = "42".
Proof.
  split; [reflexivity|].
  pose proof (@extractIdFromGid_last_segment "42" "gid://shopify/Order" "42") as H.
  split.
  - exact (proj1 (proj2 (proj2 H)) eq_refl).
  - exact (proj2 (proj2 (proj2 H)) eq_refl).
Defined.

(* ===================================================================== *)
(** ** What a caller can observe from [execute]                           *)
(* ===================================================================== *)

Lemma catch_of_plain_error (t : MutationTool) (e : Thrown) :
  exists m : string,
    catch_of t e = Throw (ErrorObj PlainError m) /\
    String.prefix ("Failed to " ++ operation_of t ++ ": ") m = true.
Proof.
  destruct t;
    try (match goal with
         | |- exists _, _ /\ String.prefix ("Failed to " ++ ?L ++ ": ") _ = true =>
             exists ("Failed to " ++ L ++ ": " ++ message_of e);
             split; [reflexivity | apply prefix_failed_to]
         end; fail).
  destruct e as [c m|v].
  - exists (reported m). split; [apply on_error_reported | apply reported_prefix].
  - eexists. split; reflexivity.
Qed.

Ltac unfold_list_execute :=
  first [ progress unfold GetCustomers.execute, GetCustomers.body
        | progress unfold GetInventoryLevels.execute, GetInventoryLevels.body
        | progress unfold GetLocations.execute, GetLocations.body
        | progress unfold LegacyGetInventoryLevels.execute,
            LegacyGetInventoryLevels.body
        | progress unfold GetInventoryItems.execute, GetInventoryItems.body ].

Lemma list_execute_is_try_catch (t : ListTool)
  (client : option (Client JsVal)) (input : ListInputOf t) :
  exists body : Completion JsVal,
    list_execute t client input =
    try_catch body (fun e => uniform_failure (list_operation t) e).
Proof. destruct t; eexists; reflexivity. Qed.

(** X3. Whatever the client does and whatever the input is, [execute] of
    a mutation tool, of a list tool or of get-product-by-id either returns
    a result or throws a plain [Error] whose message starts with the tool's
    ["Failed to <operation>: "]: no TypeError, transport error or thrown
    non-Error value reaches the caller as it is. *)
Theorem execute_only_fails_wrapped (t : MutationTool) (l : ListTool)
  (client : option (Client MutationData)) (input : InputOf t)
  (qclient : option (Client JsVal)) (linput : ListInputOf l)
  (pinput : GetProductById.Input) :
  ((exists r, execute_of t client input = Normal r) \/
   (exists m, execute_of t client input = Throw (ErrorObj PlainError m) /\
      String.prefix ("Failed to " ++ operation_of t ++ ": ") m = true)) /\
  ((exists r, list_execute l qclient linput = Normal r) \/
   (exists m, list_execute l qclient linput = Throw (ErrorObj PlainError m) /\
      String.prefix ("Failed to " ++ list_operation l ++ ": ") m = true)) /\
  ((exists r, GetProductById.execute qclient pinput = Normal r) \/
   (exists m, GetProductById.execute qclient pinput
                = Throw (ErrorObj PlainError m) /\
      String.prefix "Failed to fetch product details: " m = true)).
Proof.
  split; [|split].
  - rewrite execute_is_try_catch.
    destruct (body_of t client input) as [r|e]; [left; now exists r|].
    right. simpl. apply catch_of_plain_error.
  - destruct (list_execute_is_try_catch l qclient linput) as [b Hb].
    rewrite Hb. destruct b as [r|e]; [left; now exists r|].
    right. simpl. eexists. split; [reflexivity | apply prefix_failed_to].
  - unfold GetProductById.execute.
    destruct (GetProductById.body qclient pinput) as [r|e]; [left; now exists r|].
    right. simpl. eexists. split; [reflexivity|].
    apply (prefix_failed_to "fetch product details").
Qed.

(** X4. A tool run before its client is set returns nothing: the tools
    that call [getGraphQLClient()] fail with
    ["Failed to <operation>: GraphQL client not initialized. Call initializeGraphQLClient first."],
    the tools with a handle of their own fail with the wrapped TypeError of
    reading [request] off [undefined]. *)
Theorem execute_without_client (t : MutationTool) (l : ListTool)
  (input : InputOf t) (vars : JsVal) (linput : ListInputOf l)
  (pinput : GetProductById.Input) :
  variables_of t input = Normal vars ->
  execute_of t None input =
    Throw (ErrorObj PlainError
      ("Failed to " ++ operation_of t ++ ": "
       ++ no_client_text (uses_central_client t))) /\
  list_execute l None linput =
    Throw (ErrorObj PlainError
      ("Failed to " ++ list_operation l ++ ": "
       ++ no_client_text (list_uses_central_client l))) /\
  GetProductById.execute None pinput =
    Throw (ErrorObj PlainError
      ("Failed to fetch product details: " ++ no_client_text true)).
Proof.
  intros Hv. split; [|split; [|reflexivity]].
  - destruct t; simpl in Hv; try reflexivity.
    simpl. unfold LegacyCreateOrder.execute, LegacyCreateOrder.body.
    rewrite Hv. reflexivity.
  - destruct l; reflexivity.
Qed.

Lemma execute_without_client_witness :
  variables_of T_AdjustInventory (AdjustInventory.mkInput "1" "2" (-3) None)
    = Normal (AdjustInventory.variables
                (AdjustInventory.mkInput "1" "2" (-3) None)) /\
  AdjustInventory.execute None (AdjustInventory.mkInput "1" "2" (-3) None)
  = Throw (ErrorObj PlainError
      "Failed to adjust inventory: GraphQL client not initialized. Call initializeGraphQLClient first.").
Proof.
  split; [reflexivity|].
  exact (proj1 (@execute_without_client T_AdjustInventory L_GetCustomers
    (AdjustInventory.mkInput "1" "2" (-3) None) _
    (GetCustomers.mkInput None 10) (GetProductById.mkInput "1") eq_refl)).
Defined.

(** X5. When the transport call throws, nothing of the tool runs after it
    and the failure is the tool's catch clause applied to what the
    transport threw: for every mutation tool but the one of
    src/tools/createOrder.ts, and for every list tool, the message is
    ["Failed to <operation>: "] followed by the transport's own message. *)
Theorem transport_failure_is_reported (t : MutationTool) (l : ListTool)
  (input : InputOf t) (vars : JsVal) (client : Client MutationData)
  (linput : ListInputOf l) (qclient : Client JsVal) (e : Thrown) :
  variables_of t input = Normal vars ->
  client vars = Throw e ->
  qclient (list_variables l linput) = Throw e ->
  execute_of t (Some client) input = catch_of t e /\
  (t <> T_LegacyCreateOrder ->
   execute_of t (Some client) input = uniform_failure (operation_of t) e) /\
  list_execute l (Some qclient) linput = uniform_failure (list_operation l) e.
Proof.
  intros Hv Hc Hq.
  assert (B : body_of t (Some client) input = Throw e).
  { destruct t; simpl in Hv; try (inversion Hv; subst vars; clear Hv);
      simpl; unfold_body; try rewrite Hv; run_with Hc; reflexivity. }
  assert (E : execute_of t (Some client) input = catch_of t e)
    by (now rewrite execute_is_try_catch, B).
  split; [exact E|]. split.
  - intros N. rewrite E. destruct t; try reflexivity. congruence.
  - destruct l; simpl in *; unfold_list_execute;
      cbn [getGraphQLClient request_via bind]; rewrite Hq; reflexivity.
Qed.

Lemma transport_failure_is_reported_witness :
  variables_of T_CreateFulfillment
    (CreateFulfillment.mkInput "gid://shopify/Order/1" None true None None
       None None None)
  = Normal (CreateFulfillment.variables
      (CreateFulfillment.mkInput "gid://shopify/Order/1" None true None None
         None None None)) /\
  T_CreateFulfillment <> T_LegacyCreateOrder /\
  CreateFulfillment.execute
    (Some (fun _ => Throw (ErrorObj ClientError "socket hang up")))
    (CreateFulfillment.mkInput "gid://shopify/Order/1" None true None None
       None None None)
  = Throw (ErrorObj PlainError "Failed to create fulfillment: socket hang up").
Proof.
  assert (N : T_CreateFulfillment <> T_LegacyCreateOrder) by discriminate.
  split; [reflexivity|]. split; [exact N|].
  exact (proj1 (proj2 (@transport_failure_is_reported T_CreateFulfillment
    L_GetLocations
    (CreateFulfillment.mkInput "gid://shopify/Order/1" None true None None
       None None None) _
    (fun _ => Throw (ErrorObj ClientError "socket hang up"))
    (GetLocations.mkInput None 10)
    (fun _ => Throw (ErrorObj ClientError "socket hang up"))
    (ErrorObj ClientError "socket hang up") eq_refl eq_refl eq_refl)) N).
Defined.

(** X6. A response with no business errors and a null payload is never
    turned into a result by a mutation tool, except by the create-customer
    tool of src/tools/createCustomer.ts, which returns [{customer: null}]:
    every other tool fails, on the first property it reads off the null
    payload. *)
Theorem null_payload_without_errors (t : MutationTool) (input : InputOf t)
  (vars : JsVal) (client : Client MutationData) :
  variables_of t input = Normal vars ->
  client vars = Normal (mkMutationData JNull []) ->
  (t = T_LegacyCreateCustomer ->
   execute_of t (Some client) input = Normal (JObj [("customer", JNull)])) /\
  (t <> T_LegacyCreateCustomer ->
   exists k : string,
     execute_of t (Some client) input =
     Throw (ErrorObj PlainError
       ("Failed to " ++ operation_of t
        ++ ": Cannot read properties of null (reading '" ++ k ++ "')"))).
Proof.
  intros Hv Hc.
  rewrite execute_is_try_catch,
    (@body_shapes_without_userErrors t input vars client JNull Hv Hc).
  split.
  - intros ->. reflexivity.
  - intros N. destruct t; try congruence; eexists; reflexivity.
Qed.

Lemma null_payload_without_errors_witness :
  variables_of T_UpdateCustomer
    (UpdateCustomer.mkInput "5" None None None None None None None)
  = Normal (UpdateCustomer.variables
      (UpdateCustomer.mkInput "5" None None None None None None None)) /\
  T_UpdateCustomer <> T_LegacyCreateCustomer /\
  exists k : string,
    UpdateCustomer.execute
      (Some (fun _ => Normal (mkMutationData JNull [])))
      (UpdateCustomer.mkInput "5" None None None None None None None)
    = Throw (ErrorObj PlainError
        ("Failed to update customer: Cannot read properties of null (reading '"
         ++ k ++ "')")).
Proof.
  assert (N : T_UpdateCustomer <> T_LegacyCreateCustomer) by discriminate.
  split; [reflexivity|]. split; [exact N|].
  exact (proj2 (@null_payload_without_errors T_UpdateCustomer
    (UpdateCustomer.mkInput "5" None None None None None None None) _
    (fun _ => Normal (mkMutationData JNull [])) eq_refl eq_refl) N).
Defined.

(* ===================================================================== *)
(** ** create-order handler: validation of the line items                 *)
(* ===================================================================== *)

Lemma validate_line_item_valid (item : JsVal) (i : nat) :
  validate_line_item item i = Normal tt <-> valid_line_item item = true.
Proof.
  unfold validate_line_item, throw_Error.
  destruct item as [| |b|n|s|l|o]; simpl; try (split; discriminate).
  destruct (truthy (field_of o "variantId")); simpl; [|split; discriminate].
  destruct (field_of o "quantity") as [| |b|n|s|l|o']; simpl;
    try (split; discriminate).
  - destruct b; simpl; split; discriminate.
  - destruct (Z.eqb_spec n 0), (Z.leb_spec n 0), (Z.ltb_spec 0 n); simpl;
      try lia; split; congruence.
  - destruct (negb (String.eqb s "")); simpl; split; discriminate.
Qed.

Lemma forEach_validate_valid (items : list JsVal) (i : nat) :
  forEach_from i validate_line_item items = Normal tt <->
  forallb valid_line_item items = true.
Proof.
  revert i. induction items as [|item items IH]; intros i; simpl.
  - split; reflexivity.
  - rewrite andb_true_iff, <- (IH (S i)), <- (validate_line_item_valid item i).
    destruct (validate_line_item item i) as [[]|e]; simpl.
    + tauto.
    + split; [discriminate | intros [H _]; discriminate].
Qed.

Lemma forEach_first_invalid (good rest : list JsVal) (bad : JsVal) (i : nat)
  (e : Thrown) :
  forallb valid_line_item good = true ->
  validate_line_item bad (i + List.length good) = Throw e ->
  forEach_from i validate_line_item (good ++ bad :: rest) = Throw e.
Proof.
  revert i. induction good as [|g good IH]; intros i Hg Hb; simpl in *.
  - rewrite Nat.add_0_r in Hb. now rewrite Hb.
  - apply andb_true_iff in Hg. destruct Hg as [Hv Hg].
    apply (validate_line_item_valid g i) in Hv. rewrite Hv. simpl.
    apply IH; [exact Hg|]. now rewrite Nat.add_succ_comm.
Qed.

(** X7. For arguments whose [lineItems] is already an array, the handler's
    validation passes exactly when every item is an object with a truthy
    [variantId] and a numeric [quantity] above zero (an empty array passes);
    when it does not pass, the handler fails the same way whatever the
    client is: the tool is not run and no request is made. *)
Theorem create_order_handler_validation
  (JSON_parse : string -> Completion JsVal) (JSON_stringify : JsVal -> string)
  (args : Props) (items : list JsVal) :
  field_of args "lineItems" = JArr items ->
  (validate_lineItems args = Normal tt <->
   forallb valid_line_item items = true) /\
  (forallb valid_line_item items = false ->
   forall c1 c2 : option (Client MutationData),
     create_order_handler JSON_parse JSON_stringify c1 args =
     create_order_handler JSON_parse JSON_stringify c2 args) /\
  (forallb valid_line_item items = true ->
   forall c : option (Client MutationData),
     create_order_handler JSON_parse JSON_stringify c args =
     try_catch
       (result <- LegacyCreateOrder.execute c args ;;
        Normal (JObj [("content",
          JArr [JObj [("type", JStr "text");
                      ("text", JStr (JSON_stringify result))]])]))
       create_order_handler_on_error).
Proof.
  intros Hl.
  assert (V : validate_lineItems args = Normal tt <->
              forallb valid_line_item items = true).
  { unfold validate_lineItems, forEach. rewrite Hl.
    apply forEach_validate_valid. }
  assert (P : preprocess_lineItems JSON_parse args = Normal args).
  { apply preprocess_lineItems_array. now rewrite Hl. }
  split; [exact V|]. split.
  - intros Hf c1 c2. unfold create_order_handler. rewrite P. simpl.
    destruct (validate_lineItems args) as [[]|e]; [|reflexivity].
    assert (T : forallb valid_line_item items = true) by (now apply V).
    congruence.
  - intros Ht c. unfold create_order_handler. rewrite P. simpl.
    apply V in Ht. now rewrite Ht.
Qed.

Lemma create_order_handler_validation_witness :
  field_of [("lineItems", JArr [JObj [("variantId", JStr "9");
                                      ("quantity", JNum 0)]])] "lineItems"
  = JArr [JObj [("variantId", JStr "9"); ("quantity", JNum 0)]] /\
  forallb valid_line_item
    [JObj [("variantId", JStr "9"); ("quantity", JNum 0)]] = false /\
  create_order_handler sample_JSON_parse (fun _ => "") None
    [("lineItems", JArr [JObj [("variantId", JStr "9"); ("quantity", JNum 0)]])]
  = create_order_handler sample_JSON_parse (fun _ => "")
      (Some (fun _ => Normal (mkMutationData JNull [])))
      [("lineItems", JArr [JObj [("variantId", JStr "9"); ("quantity", JNum 0)]])].
Proof.
  split; [reflexivity|]. split; [reflexivity|].
  exact (proj1 (proj2 (@create_order_handler_validation sample_JSON_parse
    (fun _ => "")
    [("lineItems", JArr [JObj [("variantId", JStr "9"); ("quantity", JNum 0)]])]
    [JObj [("variantId", JStr "9"); ("quantity", JNum 0)]] eq_refl))
    eq_refl None (Some (fun _ => Normal (mkMutationData JNull [])))).
Defined.

(** X8. The handler reports the first offending line item by its index:
    after a run of valid items, an item that is an object without a truthy
    [variantId] fails the call with
    ["Failed to create order: Line item at index <i> is missing variantId"],
    and one with a [variantId] but a missing, non-numeric or non-positive
    [quantity] with
    ["... Line item at index <i> has invalid quantity. Must be a positive number."],
    [i] being the number of items before it; later items are not looked
    at. *)
Theorem create_order_handler_first_invalid_item
  (JSON_parse : string -> Completion JsVal) (JSON_stringify : JsVal -> string)
  (client : option (Client MutationData)) (args : Props)
  (good rest : list JsVal) (bad : Props) :
  field_of args "lineItems" = JArr (good ++ JObj bad :: rest) ->
  forallb valid_line_item good = true ->
  valid_line_item (JObj bad) = false ->
  create_order_handler JSON_parse JSON_stringify client args =
  Throw (ErrorObj PlainError
    ("Failed to create order: Line item at index "
     ++ string_of_nat (List.length good)
     ++ (if truthy (field_of bad "variantId")
         then " has invalid quantity. Must be a positive number."
         else " is missing variantId"))).
Proof.
  intros Hl Hg Hb.
  assert (P : preprocess_lineItems JSON_parse args = Normal args).
  { apply preprocess_lineItems_array. now rewrite Hl. }
  assert (B : validate_line_item (JObj bad) (0 + List.length good) =
              Throw (ErrorObj PlainError
                ("Line item at index " ++ string_of_nat (List.length good)
                 ++ (if truthy (field_of bad "variantId")
                     then " has invalid quantity. Must be a positive number."
                     else " is missing variantId")))).
  { unfold validate_line_item, valid_line_item in *.
    change (0 + List.length good) with (List.length good).
    cbn [prop bind].
    destruct (truthy (field_of bad "variantId")); cbn [negb andb] in *;
      [|reflexivity].
    destruct (field_of bad "quantity") as [| |b|n|s|l|o'];
      cbn [truthy negb is_number number_leb0 orb]; try reflexivity.
    - destruct b; reflexivity.
    - destruct (Z.eqb_spec n 0), (Z.leb_spec n 0), (Z.ltb_spec 0 n);
        cbn [negb orb]; try lia; try reflexivity; discriminate.
    - destruct (negb (String.eqb s "")); reflexivity. }
  unfold create_order_handler. rewrite P. simpl.
  unfold validate_lineItems, forEach. rewrite Hl.
  rewrite (forEach_first_invalid good rest (JObj bad) 0 Hg B).
  reflexivity.
Qed.

Lemma create_order_handler_first_invalid_item_witness :
  field_of
    [("lineItems",
       JArr ([JObj [("variantId", JStr "9"); ("quantity", JNum 2)]]
             ++ JObj [("quantity", JNum 1)] :: [JNull])%list)] "lineItems"
  = JArr ([JObj [("variantId", JStr "9"); ("quantity", JNum 2)]]
          ++ JObj [("quantity", JNum 1)] :: [JNull])%list /\
  forallb valid_line_item
    [JObj [("variantId", JStr "9"); ("quantity", JNum 2)]] = true /\
  valid_line_item (JObj [("quantity", JNum 1)]) = false /\
  create_order_handler sample_JSON_parse (fun _ => "") None
    [("lineItems",
       JArr ([JObj [("variantId", JStr "9"); ("quantity", JNum 2)]]
             ++ JObj [("quantity", JNum 1)] :: [JNull])%list)]
  = Throw (ErrorObj PlainError
      "Failed to create order: Line item at index 1 is missing variantId").
Proof.
  split; [reflexivity|]. split; [reflexivity|]. split; [reflexivity|].
  exact (@create_order_handler_first_invalid_item sample_JSON_parse
    (fun _ => "") None
    [("lineItems",
       JArr ([JObj [("variantId", JStr "9"); ("quantity", JNum 2)]]
             ++ JObj [("quantity", JNum 1)] :: [JNull])%list)]
    [JObj [("variantId", JStr "9"); ("quantity", JNum 2)]] [JNull]
    [("quantity", JNum 1)] eq_refl eq_refl eq_refl).
Defined.

(* ===================================================================== *)
(** ** What the tools put into the variables                              *)
(* ===================================================================== *)

Lemma formatGid_is_gid (T id : string) : is_gid (JStr (formatGid T id)) = true.
Proof. apply formatGid_qualified. Qed.

Lemma get_own_formatOrderInput_lineItems (input : CreateOrder.Input) :
  get_own (CreateOrder.formatOrderInput input) "lineItems" =
  Some (JArr (map (fun item => JObj (CreateOrder.line_item_input item))
                (CreateOrder.lineItems input))).
Proof.
  unfold CreateOrder.formatOrderInput. cbv zeta. reduce_guards. reflexivity.
Qed.

Lemma get_own_formatOrderInput_customerId (input : CreateOrder.Input) :
  get_own (CreateOrder.formatOrderInput input) "customerId" =
  match CreateOrder.customerId input with
  | Some id => if String.eqb id "" then None
               else Some (JStr (formatGid "Customer" id))
  | None => None
  end.
Proof.
  unfold CreateOrder.formatOrderInput. cbv zeta. reduce_guards.
  destruct (CreateOrder.customerId input) as [id|]; simpl; [|reflexivity].
  destruct (String.eqb id ""); reflexivity.
Qed.

(** X9. Every identifier that [formatOrderInput] puts into the order is
    qualified: the customer id, when there is one, and the variant id of
    every line item start with [gid://]. The line items are sent one for
    one and in order, each with the quantity given; a [price] given on a
    line item is not sent. *)
Theorem formatOrderInput_identifiers (input : CreateOrder.Input) :
  (forall v : JsVal,
     get_own (CreateOrder.formatOrderInput input) "customerId" = Some v ->
     is_gid v = true) /\
  exists items : list JsVal,
    get_own (CreateOrder.formatOrderInput input) "lineItems"
      = Some (JArr items) /\
    Forall2
      (fun (given : CreateOrder.LineItem) (sent : JsVal) =>
         is_gid (field_val sent "variantId") = true /\
         field_val sent "quantity" = JNum (CreateOrder.quantity given) /\
         field_val sent "price" = JUndefined)
      (CreateOrder.lineItems input) items.
Proof.
  split.
  - intros v. rewrite get_own_formatOrderInput_customerId.
    destruct (CreateOrder.customerId input) as [id|]; [|discriminate].
    destruct (String.eqb id ""); [discriminate|].
    intros E. inversion E. apply formatGid_is_gid.
  - eexists. split; [apply get_own_formatOrderInput_lineItems|].
    induction (CreateOrder.lineItems input) as [|item items IH]; simpl.
    + constructor.
    + constructor; [|exact IH].
      split; [apply formatGid_is_gid | split; reflexivity].
Qed.

Lemma formatOrderInput_identifiers_witness :
  is_gid (JStr "gid://shopify/Customer/5") = true.
Proof.
  exact (proj1 (formatOrderInput_identifiers
    (CreateOrder.mkInput (Some "5") None None None None
       [CreateOrder.mkLineItem "9" 2 (Some "1.00") None]
       None None None None None false false None))
    (JStr "gid://shopify/Customer/5") eq_refl).
Defined.

(** X10. An empty value given for an optional field is treated as if the
    field had been left out: an empty string in create-customer's
    [firstName], [lastName], [phone], in [formatOrderInput]'s [customerId],
    [email], [phone], [note] and in create-fulfillment's [locationId], an
    empty array in create-fulfillment's [lineItems], [trackingNumbers] and
    [trackingUrls]. The mutation input is the same with and without it. A
    boolean [false] is different: [acceptsMarketing: false] is sent. *)
Theorem empty_value_is_omission (c : CreateCustomer.Input)
  (o : CreateOrder.Input) (f : CreateFulfillment.Input) :
  CreateCustomer.customerInput c =
  CreateCustomer.customerInput
    (CreateCustomer.mkInput (CreateCustomer.email c)
       (drop_empty (CreateCustomer.firstName c))
       (drop_empty (CreateCustomer.lastName c))
       (drop_empty (CreateCustomer.phone c))
       (CreateCustomer.acceptsMarketing c) (CreateCustomer.addresses c)
       (CreateCustomer.metafields c) (CreateCustomer.tags c)) /\
  (CreateCustomer.acceptsMarketing c = Some false ->
   get_own (CreateCustomer.customerInput c) "acceptsMarketing"
     = Some (JBool false)) /\
  CreateOrder.formatOrderInput o =
  CreateOrder.formatOrderInput
    (CreateOrder.mkInput
       (drop_empty (CreateOrder.customerId o))
       (drop_empty (CreateOrder.email o))
       (drop_empty (CreateOrder.phone o))
       (drop_empty (CreateOrder.note o))
       (CreateOrder.tags o) (CreateOrder.lineItems o)
       (CreateOrder.shippingAddress o) (CreateOrder.billingAddress o)
       (CreateOrder.shippingLine o) (CreateOrder.financialStatus o)
       (CreateOrder.fulfillmentStatus o) (CreateOrder.sendReceipt o)
       (CreateOrder.sendFulfillmentReceipt o) (CreateOrder.metafields o)) /\
  CreateFulfillment.fulfillmentInput f =
  CreateFulfillment.fulfillmentInput
    (CreateFulfillment.mkInput (CreateFulfillment.orderId f)
       (CreateFulfillment.trackingInfo f)
       (CreateFulfillment.notifyCustomer f)
       (drop_nil (CreateFulfillment.lineItems f))
       (drop_empty (CreateFulfillment.locationId f))
       (drop_nil (CreateFulfillment.trackingNumbers f))
       (drop_nil (CreateFulfillment.trackingUrls f))
       (CreateFulfillment.metadata f)).
Proof.
  split; [|split; [|split]].
  - destruct c as [em fn ln ph am ad mf tg].
    unfold CreateCustomer.customerInput; cbv zeta; simpl.
    destruct fn as [[|? ?]|], ln as [[|? ?]|], ph as [[|? ?]|]; reflexivity.
  - intros H. unfold CreateCustomer.customerInput. cbv zeta.
    reduce_guards. rewrite H. reflexivity.
  - destruct o as [ci em ph nt tg li sa ba sl fs fu sr sf mf].
    unfold CreateOrder.formatOrderInput; cbv zeta; simpl.
    destruct ci as [[|? ?]|], em as [[|? ?]|], ph as [[|? ?]|],
      nt as [[|? ?]|]; reflexivity.
  - destruct f as [oi ti nc li lo tn tu md].
    unfold CreateFulfillment.fulfillmentInput; cbv zeta; simpl.
    destruct li as [[|? ?]|], lo as [[|? ?]|], tn as [[|? ?]|],
      tu as [[|? ?]|]; reflexivity.
Qed.

Lemma empty_value_is_omission_witness :
  CreateCustomer.acceptsMarketing
    (CreateCustomer.mkInput "a@example.com" (Some "") None None (Some false)
       None None None) = Some false /\
  get_own (CreateCustomer.customerInput
    (CreateCustomer.mkInput "a@example.com" (Some "") None None (Some false)
       None None None)) "acceptsMarketing" = Some (JBool false).
Proof.
  split; [reflexivity|].
  exact (proj1 (proj2 (empty_value_is_omission
    (CreateCustomer.mkInput "a@example.com" (Some "") None None (Some false)
       None None None)
    (CreateOrder.mkInput None None None None None [] None None None None None
       false false None)
    (CreateFulfillment.mkInput "1" None true None None None None None)))
    eq_refl).
Defined.

(** X11. update-customer rewrites the [id] and nothing else: the customer
    input carries ["gid://shopify/Customer/" ++ id] whatever the id looks
    like (an id that is already qualified is prefixed again), and every
    other key is there exactly as in the validated input, absent when
    absent there. create-fulfillment sends its [orderId] as it was given,
    without qualifying it. *)
Theorem updateCustomer_rewrites_only_id (input : UpdateCustomer.Input)
  (k : string) (f : CreateFulfillment.Input) :
  get_own (UpdateCustomer.customerInput input) "id"
    = Some (JStr ("gid://shopify/Customer/" ++ UpdateCustomer.id input)) /\
  (k <> "id" ->
   get_own (UpdateCustomer.customerInput input) k
     = get_own (UpdateCustomer.input_object input) k) /\
  get_own (CreateFulfillment.fulfillmentInput f) "orderId"
    = Some (JStr (CreateFulfillment.orderId f)).
Proof.
  split; [|split].
  - destruct input as [i fn ln em ph te sc mf].
    destruct fn, ln, em, ph, te, sc, mf; reflexivity.
  - intros N. apply String.eqb_neq in N. rewrite String.eqb_sym in N.
    destruct input as [i fn ln em ph te sc mf].
    destruct fn, ln, em, ph, te, sc, mf;
      match goal with
      | |- get_own ?a k = get_own ?b k =>
          let a' := eval cbv in a in
          let b' := eval cbv in b in
          change (get_own a' k = get_own b' k)
      end;
      cbn -[String.eqb]; rewrite N; reflexivity.
  - unfold CreateFulfillment.fulfillmentInput. cbv zeta. reduce_guards.
    reflexivity.
Qed.

Lemma updateCustomer_rewrites_only_id_witness :
  "email" <> "id" /\
  get_own (UpdateCustomer.customerInput
    (UpdateCustomer.mkInput "5" None None (Some "a@example.com") None None
       None None)) "email" = Some (JStr "a@example.com").
Proof.
  assert (N : "email" <> "id") by discriminate.
  split; [exact N|].
  exact (proj1 (proj2 (updateCustomer_rewrites_only_id
    (UpdateCustomer.mkInput "5" None None (Some "a@example.com") None None
       None None) "email"
    (CreateFulfillment.mkInput "1" None true None None None None None))) N).
Defined.

(* ===================================================================== *)
(** ** The two create-product tools                                       *)
(* ===================================================================== *)

Lemma mapM_bind_success {A B C : Type} (f : A -> Completion B)
  (g : B -> Completion C) (l : list A) (r : list C) :
  mapM (fun x => y <- f x ;; g y) l = Normal r <->
  exists ys : list B, mapM f l = Normal ys /\ mapM g ys = Normal r.
Proof.
  revert r. induction l as [|x l IH]; intros r; cbn [mapM].
  - split.
    + intros E. exists []. split; [reflexivity | exact E].
    + intros [ys [E1 E2]]. inversion E1; subst. exact E2.
  - destruct (f x) as [y|t] eqn:Fx; cbn [bind].
    + destruct (g y) as [z|t] eqn:Gy; cbn [bind].
      * destruct (mapM (fun x0 => y0 <- f x0 ;; g y0) l) as [zs|t] eqn:M;
          cbn [bind].
        -- destruct (proj1 (IH zs) eq_refl) as [ys [E1 E2]].
           rewrite E1. cbn [bind]. split.
           ++ intros E. exists (y :: ys). split; [reflexivity|].
              cbn [mapM]. rewrite Gy, E2. exact E.
           ++ intros [ys' [E1' E2']]. inversion E1'; subst ys'.
              cbn [mapM] in E2'. rewrite Gy, E2 in E2'. exact E2'.
        -- split; [discriminate|].
           intros [ys' [E1' E2']].
           destruct (mapM f l) as [ys|t'] eqn:Ml; [|discriminate].
           cbn [bind] in E1'. inversion E1'; subst ys'.
           cbn [mapM] in E2'. rewrite Gy in E2'. cbn [bind] in E2'.
           destruct (mapM g ys) as [zs|t'] eqn:Mg; [|discriminate].
           assert (X : Throw t = Normal zs)
             by (apply (IH zs); exists ys; split; [reflexivity | exact Mg]).
           discriminate X.
      * split; [discriminate|].
        intros [ys' [E1' E2']].
        destruct (mapM f l) as [ys|t'] eqn:Ml; [|discriminate].
        cbn [bind] in E1'. inversion E1'; subst ys'.
        cbn [mapM] in E2'. rewrite Gy in E2'. discriminate.
    + split; [discriminate|]. intros [ys' [E1' _]]. discriminate.
Qed.

(** Mapping over the edges in one pass succeeds exactly when unwrapping
    the nodes first and mapping over them afterwards does, with the same
    array. *)
Lemma edges_map_success (base : JsVal) (k : string) (keys : list string)
  (v : JsVal) :
  edges_map base k (fun n => pick_obj n keys) = Normal v <->
  exists ns : list JsVal,
    nodes_of base k = Normal ns /\ map_pick ns keys = Normal v.
Proof.
  unfold edges_map, nodes_of, unwrapEdges, mapEdgesToNodes, map_pick.
  destruct (prop base k) as [c|t]; cbn [bind];
    [|split; [discriminate | intros [ns [E _]]; discriminate]].
  destruct (prop c "edges") as [e|t]; cbn [bind];
    [|split; [discriminate | intros [ns [E _]]; discriminate]].
  destruct e as [| |b|n|s|items|o]; cbn [js_map bind];
    try (split; [discriminate | intros [ns [E _]]; discriminate]).
  split.
  - intros E.
    destruct (mapM (fun edge => n <- prop edge "node" ;; pick_obj n keys) items)
      as [ys|t] eqn:M; [|discriminate].
    apply mapM_bind_success in M. destruct M as [ns [E1 E2]].
    exists ns. split; [exact E1|]. rewrite E2. exact E.
  - intros [ns [E1 E2]].
    destruct (mapM (fun x => pick_obj x keys) ns) as [ys|t] eqn:M;
      [|discriminate].
    assert (X : mapM (fun edge => n <- prop edge "node" ;; pick_obj n keys) items
                = Normal ys)
      by (apply mapM_bind_success; exists ns; split; assumption).
    rewrite X. exact E2.
Qed.

Lemma create_product_shapes_agree (product r : JsVal) :
  LegacyCreateProduct.shape product = Normal r <->
  CreateProduct.formatProductResponse product = Normal r.
Proof.
  unfold LegacyCreateProduct.shape, CreateProduct.formatProductResponse.
  split; intros H.
  - destruct (edges_map product "variants" _) as [v1|] eqn:E1; [|discriminate].
    destruct (edges_map product "images" _) as [v2|] eqn:E2; [|discriminate].
    destruct (edges_map product "metafields" _) as [v3|] eqn:E3;
      [|discriminate].
    apply edges_map_success in E1, E2, E3.
    destruct E1 as [n1 [N1 P1]], E2 as [n2 [N2 P2]], E3 as [n3 [N3 P3]].
    rewrite N1, N2, N3. cbn [bind] in *.
    destruct (pick product
      ["id"; "title"; "descriptionHtml"; "vendor"; "productType"; "tags";
       "status"; "options"]) as [base|];
      [|discriminate].
    cbn [bind] in *.
    rewrite P1, P2. cbn [bind].
    destruct (prop product "seo") as [seo|]; [|discriminate]. cbn [bind] in *.
    rewrite P3. cbn [bind]. exact H.
  - destruct (nodes_of product "variants") as [n1|] eqn:N1; [|discriminate].
    destruct (nodes_of product "images") as [n2|] eqn:N2; [|discriminate].
    destruct (nodes_of product "metafields") as [n3|] eqn:N3; [|discriminate].
    cbn [bind] in H.
    destruct (pick product
      ["id"; "title"; "descriptionHtml"; "vendor"; "productType"; "tags";
       "status"; "options"]) as [base|] eqn:B;
      [|discriminate].
    cbn [bind] in H.
    destruct (map_pick n1 _) as [v1|] eqn:P1; [|discriminate].
    destruct (map_pick n2 _) as [v2|] eqn:P2; [|discriminate].
    cbn [bind] in H.
    destruct (prop product "seo") as [seo|] eqn:S; [|discriminate].
    cbn [bind] in H.
    destruct (map_pick n3 _) as [v3|] eqn:P3; [|discriminate].
    cbn [bind] in H.
    assert (E1 : edges_map product "variants" (fun n => pick_obj n
      ["id"; "title"; "price"; "sku"; "weight"; "weightUnit";
       "inventoryQuantity"; "inventoryPolicy"; "inventoryManagement";
       "requiresShipping"; "taxable"; "barcode"; "selectedOptions"])
      = Normal v1)
      by (apply edges_map_success; exists n1; split; assumption).
    assert (E2 : edges_map product "images" (fun n => pick_obj n
      ["id"; "src"; "altText"; "width"; "height"]) = Normal v2)
      by (apply edges_map_success; exists n2; split; assumption).
    assert (E3 : edges_map product "metafields" (fun n => pick_obj n
      ["id"; "namespace"; "key"; "value"; "type"]) = Normal v3)
      by (apply edges_map_success; exists n3; split; assumption).
    rewrite E1, E2, E3. cbn [bind]. exact H.
Qed.

Lemma create_product_variables_agree (input : CreateProduct.Input) :
  LegacyCreateProduct.variables input = CreateProduct.variables input.
Proof.
  unfold LegacyCreateProduct.variables, CreateProduct.variables,
    LegacyCreateProduct.mutation_input, CreateProduct.formatProductInput.
  do 4 f_equal.
Qed.

(** X12. The create-product tool with its own client handle
    (unnamed/part_005) and its refactoring (unnamed/part_006) build the
    same variables from every validated input, and their response shaping
    is the same function of the payload: on any payload one returns a
    result exactly when the other does, and then the same result. The two
    tools send different GraphQL documents (the refactored one selects a
    fragment), so their payloads for one product need not be the same;
    nothing is said here about what a server answers. *)
Theorem create_product_tools_agree (input : CreateProduct.Input)
  (product r : JsVal) :
  LegacyCreateProduct.variables input = CreateProduct.variables input /\
  (LegacyCreateProduct.shape product = Normal r <->
   CreateProduct.formatProductResponse product = Normal r).
Proof.
  split; [apply create_product_variables_agree|].
  apply create_product_shapes_agree.
Qed.

Lemma create_product_tools_agree_witness :
  exists r : JsVal,
    LegacyCreateProduct.shape sample_product = Normal r /\
    CreateProduct.formatProductResponse sample_product = Normal r.
Proof.
  eexists. split; [reflexivity|].
  apply (proj1 (proj2 (@create_product_tools_agree
    (CreateProduct.mkInput "Shirt" None None None None "ACTIVE" None None None
       None None (Some ["7"]) None None)
    sample_product _))).
  reflexivity.
Defined.

(* ===================================================================== *)
(** ** The list tools                                                     *)
(* ===================================================================== *)

Lemma truthy_nonempty (s : string) : s <> "" -> truthy (JStr s) = true.
Proof. destruct s; [congruence | reflexivity]. Qed.

(** X13. In get-inventory-levels a location filter takes precedence: with
    a non-empty [locationId] the query is
    ["location_id:" ++ formatGid "Location" locationId] whatever
    [productId] is, so a product id given along with a location id has no
    effect on what is sent. *)
Theorem get_inventory_levels_location_wins (l : string)
  (p p' : option string) (n : Z) :
  l <> "" ->
  GetInventoryLevels.query (GetInventoryLevels.mkInput (Some l) p n)
    = "location_id:" ++ formatGid "Location" l /\
  GetInventoryLevels.variables (GetInventoryLevels.mkInput (Some l) p n)
    = GetInventoryLevels.variables (GetInventoryLevels.mkInput (Some l) p' n).
Proof.
  intros N.
  assert (Q : forall q, GetInventoryLevels.query
                (GetInventoryLevels.mkInput (Some l) q n)
              = "location_id:" ++ formatGid "Location" l).
  { intros q. unfold GetInventoryLevels.query.
    cbn [GetInventoryLevels.locationId]. now rewrite (truthy_nonempty N). }
  split; [apply Q|].
  unfold GetInventoryLevels.variables. now rewrite !Q.
Qed.

Lemma get_inventory_levels_location_wins_witness :
  GetInventoryLevels.variables
    (GetInventoryLevels.mkInput (Some "7") (Some "9") 10)
  = GetInventoryLevels.variables (GetInventoryLevels.mkInput (Some "7") None 10).
Proof.
  assert (N : "7" <> "") by discriminate.
  exact (proj2 (@get_inventory_levels_location_wins "7" (Some "9") None 10 N)).
Defined.

(** X14. The filter of getInventoryItems is the supplied clauses joined
    by [" AND "]: the free-text query, then [product_id:<gid>], then
    [variant_id:<gid>], each present exactly when its argument is a
    non-empty string. There is no leading or trailing [" AND "], and with
    no clause the [query] variable is [undefined]. *)
Theorem getInventoryItems_queryFilter (input : GetInventoryItems.Input) :
  GetInventoryItems.queryFilter input
    = join " AND " (inventory_item_clauses input) /\
  (inventory_item_clauses input = [] ->
   GetInventoryItems.variables input
     = JObj [("first", JNum (GetInventoryItems.limit input));
             ("query", JUndefined)]).
Proof.
  assert (Q : GetInventoryItems.queryFilter input
              = join " AND " (inventory_item_clauses input)).
  { destruct input as [q p v n].
    unfold GetInventoryItems.queryFilter, inventory_item_clauses, supplied,
      GetInventoryItems.add_clause, inline_gid, formatGid.
    cbn [GetInventoryItems.query GetInventoryItems.productId
         GetInventoryItems.variantId].
    destruct q as [[|qa qs]|], p as [[|pa ps]|], v as [[|va vs]|];
      cbn [truthy String.eqb negb app join String.append Ascii.eqb];
      try reflexivity;
      f_equal; rewrite string_app_assoc; reflexivity. }
  split; [exact Q|].
  intros E. unfold GetInventoryItems.variables. rewrite Q, E. reflexivity.
Qed.

Lemma getInventoryItems_queryFilter_witness :
  inventory_item_clauses (GetInventoryItems.mkInput (Some "") None None 5) = []
  /\ GetInventoryItems.variables
       (GetInventoryItems.mkInput (Some "") None None 5)
     = JObj [("first", JNum 5); ("query", JUndefined)].
Proof.
  split; [reflexivity|].
  exact (proj2 (getInventoryItems_queryFilter
    (GetInventoryItems.mkInput (Some "") None None 5)) eq_refl).
Defined.

Lemma mapM_length {A B : Type} (f : A -> Completion B) (l : list A)
  (r : list B) : mapM f l = Normal r -> List.length r = List.length l.
Proof.
  revert r. induction l as [|x l IH]; intros r; cbn [mapM].
  - intros E. inversion E. reflexivity.
  - destruct (f x) as [y|]; [|discriminate]. cbn [bind].
    destruct (mapM f l) as [ys|]; [|discriminate]. cbn [bind].
    intros E. inversion E. cbn [List.length]. f_equal. now apply IH.
Qed.

Lemma edges_map_length (base : JsVal) (k : string)
  (f : JsVal -> Completion JsVal) (v : JsVal) :
  edges_map base k f = Normal v ->
  exists (connection : JsVal) (edges items : list JsVal),
    prop base k = Normal connection /\
    prop connection "edges" = Normal (JArr edges) /\
    v = JArr items /\ List.length items = List.length edges.
Proof.
  unfold edges_map.
  destruct (prop base k) as [c|]; [|discriminate]. cbn [bind].
  destruct (prop c "edges") as [e|] eqn:E; [|discriminate]. cbn [bind].
  destruct e as [| |b|n|s|edges|o]; cbn [js_map bind]; try discriminate.
  destruct (mapM _ edges) as [items|] eqn:M; [|discriminate]. cbn [bind].
  intros R. inversion R. exists c, edges, items.
  repeat split; [exact E | now apply mapM_length in M].
Qed.

(** X15. A list tool that returns, returns [{ <key>: [...] }] with one
    item per edge of [data.<key>.edges] of the response, in a response
    whose [<key>.edges] is an array: no edge is dropped or added, and no
    paging information is passed on. *)
Theorem list_tool_one_item_per_edge (l : ListTool) (client : Client JsVal)
  (input : ListInputOf l) (r : JsVal) :
  list_execute l (Some client) input = Normal r ->
  exists (data connection : JsVal) (edges items : list JsVal),
    client (list_variables l input) = Normal data /\
    prop data (list_key l) = Normal connection /\
    prop connection "edges" = Normal (JArr edges) /\
    r = JObj [(list_key l, JArr items)] /\
    List.length items = List.length edges.
Proof.
  destruct l; cbn [list_execute list_variables list_key ListInputOf] in *;
    unfold_list_execute; unfold request_via, getGraphQLClient; cbn [bind];
    (destruct (client _) as [data|e]; [|discriminate]); cbn [bind];
    first [ progress unfold GetCustomers.shape
          | progress unfold GetInventoryLevels.shape
          | progress unfold GetLocations.shape
          | progress unfold LegacyGetInventoryLevels.shape
          | progress unfold GetInventoryItems.shape ];
    (destruct (edges_map data _ _) as [v|e] eqn:M; [|discriminate]);
    cbn [bind try_catch]; unfold list_result; intros R; inversion R;
    apply edges_map_length in M;
    destruct M as [c [edges [items [P1 [P2 [V L]]]]]];
    exists data, c, edges, items; subst v; repeat split; assumption.
Qed.

Lemma list_tool_one_item_per_edge_witness :
  exists (data connection : JsVal) (edges items : list JsVal),
    sample_locations_client
      (list_variables L_GetLocations (GetLocations.mkInput None 10))
      = Normal data /\
    prop data (list_key L_GetLocations) = Normal connection /\
    prop connection "edges" = Normal (JArr edges) /\
    sample_locations_result = JObj [(list_key L_GetLocations, JArr items)] /\
    List.length items = List.length edges.
Proof.
  apply (@list_tool_one_item_per_edge L_GetLocations sample_locations_client
           (GetLocations.mkInput None 10) sample_locations_result).
  reflexivity.
Defined.

(** X16. The two get-inventory-levels tools send the same variables for a
    location filter exactly when the location id is already qualified: the
    tool with its own client handle puts the id into the filter as given,
    the refactored one qualifies it first. *)
Theorem get_inventory_levels_versions_agree (l : string) (n : Z) :
  l <> "" ->
  (LegacyGetInventoryLevels.variables
     (LegacyGetInventoryLevels.mkInput (Some l) n)
   = GetInventoryLevels.variables (GetInventoryLevels.mkInput (Some l) None n)
   <-> startsWith l "gid://" = true).
Proof.
  intros N.
  unfold LegacyGetInventoryLevels.variables, GetInventoryLevels.variables,
    LegacyGetInventoryLevels.queryFilter, GetInventoryLevels.query.
  cbn [LegacyGetInventoryLevels.locationId GetInventoryLevels.locationId
       LegacyGetInventoryLevels.limit GetInventoryLevels.limit].
  rewrite (truthy_nonempty N).
  unfold or_undefined. cbn [String.append truthy String.eqb Ascii.eqb negb].
  split.
  - intros E. injection E as E. rewrite E. apply formatGid_qualified.
  - intros S. unfold formatGid. rewrite S. reflexivity.
Qed.

Lemma get_inventory_levels_versions_agree_witness :
  LegacyGetInventoryLevels.variables
    (LegacyGetInventoryLevels.mkInput (Some "gid://shopify/Location/7") 10)
  = GetInventoryLevels.variables
      (GetInventoryLevels.mkInput (Some "gid://shopify/Location/7") None 10).
Proof.
  assert (N : "gid://shopify/Location/7" <> "") by discriminate.
  exact (proj2 (@get_inventory_levels_versions_agree
    "gid://shopify/Location/7" 10 N) eq_refl).
Defined.

(* ===================================================================== *)
(** ** The shape of an inventory level                                    *)
(* ===================================================================== *)




(* ===================================================================== *)
(** ** The create-order handler over the create-order tool                *)
(* ===================================================================== *)

Lemma legacy_create_order_failure (client : option (Client MutationData))
  (input : Props) (t : Thrown) :
  LegacyCreateOrder.execute client input = Throw t ->
  exists m : string,
    t = ErrorObj PlainError ("Failed to create order: " ++ m).
Proof.
  unfold LegacyCreateOrder.execute.
  destruct (LegacyCreateOrder.body client input) as [r|e]; [discriminate|].
  cbn [try_catch]. unfold LegacyCreateOrder.on_error, throw_Error.
  destruct e as [c msg|v].
  - destruct (includes msg "variant").
    + intros E. inversion E.
      now exists "Invalid product variant. Please check that all variant IDs are correct.".
    + destruct (includes msg "customer"); intros E; inversion E.
      * now exists "Invalid customer ID. Please check the customer ID format.".
      * now exists msg.
  - intros E. inversion E. now exists "Unknown error occurred".
Qed.

(** X18. When the arguments pass the handler's validation and the
    create-order tool then fails, the handler's catch clause wraps the
    tool's already wrapped error once more: the caller gets a plain [Error]
    whose message is
    ["Failed to create order: Failed to create order: " ++ m]. *)
Theorem create_order_handler_wraps_twice
  (JSON_parse : string -> Completion JsVal) (JSON_stringify : JsVal -> string)
  (client : option (Client MutationData)) (args p : Props) (t : Thrown) :
  preprocess_lineItems JSON_parse args = Normal p ->
  validate_lineItems p = Normal tt ->
  LegacyCreateOrder.execute client p = Throw t ->
  exists m : string,
    t = ErrorObj PlainError ("Failed to create order: " ++ m) /\
    create_order_handler JSON_parse JSON_stringify client args =
    Throw (ErrorObj PlainError
      ("Failed to create order: Failed to create order: " ++ m)).
Proof.
  intros P V E.
  destruct (legacy_create_order_failure _ _ E) as [m Hm].
  exists m. split; [exact Hm|].
  unfold create_order_handler. rewrite P. cbn [bind].
  rewrite V. cbn [bind]. rewrite E, Hm. reflexivity.
Qed.

Lemma create_order_handler_wraps_twice_witness :
  exists m : string,
    ErrorObj PlainError
      "Failed to create order: Cannot read properties of undefined (reading 'request')"
    = ErrorObj PlainError ("Failed to create order: " ++ m) /\
    create_order_handler sample_JSON_parse (fun _ => "") None
      [("lineItems", JArr [JObj [("variantId", JStr "9");
                                 ("quantity", JNum 2)]])] =
    Throw (ErrorObj PlainError
      ("Failed to create order: Failed to create order: " ++ m)).
Proof.
  apply (@create_order_handler_wraps_twice sample_JSON_parse (fun _ => "")
    None
    [("lineItems", JArr [JObj [("variantId", JStr "9"); ("quantity", JNum 2)]])]
    [("lineItems", JArr [JObj [("variantId", JStr "9"); ("quantity", JNum 2)]])]);
    reflexivity.
Defined.

(** X19. The draft-order input of src/tools/createOrder.ts is the
    argument object with [note] renamed: when the arguments carry a [note]
    the input has it under [privateNote] and has no [note] key. Every key
    other than [note], [privateNote], [customerId] and [lineItems] is there
    exactly as in the arguments. *)
Theorem draftOrderInput_renames_note (input d : Props) (k : string) :
  LegacyCreateOrder.draftOrderInput input = Normal d ->
  (field_of input "note" <> JUndefined ->
   get_own d "note" = None /\
   get_own d "privateNote" = Some (field_of input "note")) /\
  (~ In k ["note"; "privateNote"; "customerId"; "lineItems"] ->
   get_own d k = get_own input k).
Proof.
  intros Hd.
  unfold LegacyCreateOrder.draftOrderInput in Hd.
  assert (U : forall v, v <> JUndefined -> negb (is_undefined v) = true)
    by (intros v; destruct v; simpl; congruence).
  split.
  - intros Hn. rewrite (U _ Hn) in Hd.
    destruct (truthy (field_of input "customerId"));
    destruct (truthy (field_of input "lineItems"));
    cbn [bind] in Hd;
    repeat match type of Hd with
    | context [LegacyCreateOrder.qualify_value ?a ?b ?c] =>
        destruct (LegacyCreateOrder.qualify_value a b c); cbn [bind] in Hd;
        try discriminate
    | context [js_map ?a ?b ?c] =>
        destruct (js_map a b c); cbn [bind] in Hd; try discriminate
    end;
    inversion Hd; subst d;
    repeat (rewrite get_own_set_prop || rewrite get_own_delete_prop);
    split; reflexivity.
  - intros Hk.
    assert (K : String.eqb "note" k = false /\
                String.eqb "privateNote" k = false /\
                String.eqb "customerId" k = false /\
                String.eqb "lineItems" k = false).
    { repeat split; apply String.eqb_neq; intros E; apply Hk; subst k;
        simpl; tauto. }
    destruct K as [K1 [K2 [K3 K4]]].
    destruct (negb (is_undefined (field_of input "note")));
    destruct (truthy (field_of input "customerId"));
    destruct (truthy (field_of input "lineItems"));
    cbn [bind] in Hd;
    repeat match type of Hd with
    | context [LegacyCreateOrder.qualify_value ?a ?b ?c] =>
        destruct (LegacyCreateOrder.qualify_value a b c); cbn [bind] in Hd;
        try discriminate
    | context [js_map ?a ?b ?c] =>
        destruct (js_map a b c); cbn [bind] in Hd; try discriminate
    end;
    inversion Hd; subst d;
    repeat (rewrite get_own_set_prop || rewrite get_own_delete_prop);
    rewrite ?K1, ?K2, ?K3, ?K4; reflexivity.
Qed.

Lemma draftOrderInput_renames_note_witness :
  get_own [("email", JStr "a@example.com"); ("privateNote", JStr "call first")]
    "note" = None /\
  get_own [("email", JStr "a@example.com"); ("privateNote", JStr "call first")]
    "privateNote"
  = Some (field_of [("note", JStr "call first");
                    ("email", JStr "a@example.com")] "note").
Proof.
  assert (N : field_of [("note", JStr "call first");
                        ("email", JStr "a@example.com")] "note"
              <> JUndefined) by discriminate.
  exact (proj1 (@draftOrderInput_renames_note
    [("note", JStr "call first"); ("email", JStr "a@example.com")]
    [("email", JStr "a@example.com"); ("privateNote", JStr "call first")]
    "email" eq_refl) N).
Defined.

(* ===================================================================== *)
(** ** Shaping a response that has holes                                  *)
(* ===================================================================== *)

Lemma prop_total (v : JsVal) (k : string) :
  is_nullish v = false -> exists x : JsVal, prop v k = Normal x.
Proof.
  destruct v; simpl; try discriminate; intros _;
    try destruct (String.eqb k "length"); eexists; reflexivity.
Qed.

Lemma pick_total (v : JsVal) (keys : list string) :
  is_nullish v = false -> exists o : Props, pick v keys = Normal o.
Proof.
  intros H. unfold pick.
  induction keys as [|k keys [o IH]]; cbn [map pick_as].
  - now exists [].
  - destruct (@prop_total v k H) as [x Hx]. rewrite Hx, IH. cbn [bind].
    eexists; reflexivity.
Qed.

Lemma pick_obj_total (v : JsVal) (keys : list string) :
  is_nullish v = false -> exists r : JsVal, pick_obj v keys = Normal r.
Proof.
  intros H. unfold pick_obj. destruct (@pick_total v keys H) as [o Ho].
  rewrite Ho. eexists; reflexivity.
Qed.

Lemma truthy_not_nullish (v : JsVal) : truthy v = true -> is_nullish v = false.
Proof. destruct v; simpl; congruence. Qed.

Lemma when_truthy_total (v : JsVal) (f : JsVal -> Completion JsVal) :
  (truthy v = true -> exists r, f v = Normal r) ->
  exists r : JsVal, when_truthy v f = Normal r.
Proof.
  unfold when_truthy. destruct (truthy v); intros H.
  - now apply H.
  - now exists JNull.
Qed.

Lemma inventory_item_obj_total (item_keys variant_keys : list string)
  (item : JsVal) :
  is_nullish item = false ->
  exists r : JsVal, inventory_item_obj item_keys variant_keys item = Normal r.
Proof.
  intros H. unfold inventory_item_obj.
  destruct (@pick_total item item_keys H) as [base Hb]. rewrite Hb. cbn [bind].
  destruct (@prop_total item "variant" H) as [v Hv]. rewrite Hv. cbn [bind].
  destruct (@when_truthy_total v (fun variant =>
              vb <- pick variant variant_keys ;;
              p <- prop variant "product" ;;
              p' <- when_truthy p (fun p => pick_obj p ["id"; "title"]) ;;
              Normal (JObj (vb ++ [("product", p')])%list))) as [v' Hv'].
  { intros T. apply truthy_not_nullish in T.
    destruct (@pick_total v variant_keys T) as [vb Hvb]. rewrite Hvb. cbn [bind].
    destruct (@prop_total v "product" T) as [p Hp]. rewrite Hp. cbn [bind].
    destruct (@when_truthy_total p (fun p => pick_obj p ["id"; "title"]))
      as [p' Hp'].
    { intros Tp. apply pick_obj_total. now apply truthy_not_nullish. }
    rewrite Hp'. eexists; reflexivity. }
  rewrite Hv'. eexists; reflexivity.
Qed.

Lemma inventory_level_obj_total (level_keys item_keys variant_keys : list string)
  (level : JsVal) :
  is_nullish level = false ->
  exists r : JsVal,
    inventory_level_obj level_keys item_keys variant_keys level = Normal r.
Proof.
  intros H. unfold inventory_level_obj.
  destruct (@pick_total level level_keys H) as [base Hb]. rewrite Hb. cbn [bind].
  destruct (@prop_total level "item" H) as [i Hi]. rewrite Hi. cbn [bind].
  destruct (@when_truthy_total i (inventory_item_obj item_keys variant_keys))
    as [i' Hi'].
  { intros T. apply inventory_item_obj_total. now apply truthy_not_nullish. }
  rewrite Hi'. cbn [bind].
  destruct (@prop_total level "location" H) as [l Hl]. rewrite Hl. cbn [bind].
  destruct (@when_truthy_total l
              (fun l => pick_obj l ["id"; "name"; "isActive"])) as [l' Hl'].
  { intros T. apply pick_obj_total. now apply truthy_not_nullish. }
  rewrite Hl'. eexists; reflexivity.
Qed.

(** X20. The compiled adjust-inventory tool and the connect and
    disconnect tools return a result for every response that has no
    business errors and a payload other than [null] and [undefined]: a
    missing item, variant, product or location in the payload becomes
    [null] in the result and never a failure. The refactored
    adjust-inventory tool is not guarded this way: on a payload whose
    [item] is [null] or missing it fails. *)
Theorem guarded_inventory_tools_return (t : MutationTool) (input : InputOf t)
  (vars : JsVal) (client : Client MutationData) (p : JsVal)
  (level : Props) (a : AdjustInventory.Input) :
  guards_nested_objects t = true ->
  variables_of t input = Normal vars ->
  client vars = Normal (mkMutationData p []) ->
  is_nullish p = false ->
  (exists r : JsVal, execute_of t (Some client) input = Normal r) /\
  (is_nullish (field_of level "item") = true ->
   forall c : Client MutationData,
     c (AdjustInventory.variables a) = Normal (mkMutationData (JObj level) []) ->
     exists m : string,
       AdjustInventory.execute (Some c) a = Throw (ErrorObj PlainError m)).
Proof.
  intros G Hv Hc Hp. split.
  - rewrite execute_is_try_catch,
      (@body_shapes_without_userErrors t input vars client p Hv Hc).
    destruct t; try discriminate G; cbn [shape_of];
      first [ progress unfold DistAdjustInventory.shape
            | progress unfold ConnectInventoryToLocation.shape
            | progress unfold DisconnectInventoryFromLocation.shape ];
      match goal with
      | |- context [inventory_level_obj ?lk ?ik ?vk p] =>
          destruct (@inventory_level_obj_total lk ik vk p Hp) as [r Hr];
          rewrite Hr; exists r; reflexivity
      end.
  - intros Hi c Hcall.
    unfold AdjustInventory.execute, AdjustInventory.body, getGraphQLClient.
    cbn [bind]. rewrite Hcall. cbn [bind userErrors payload].
    unfold handleGraphQLErrors. cbn [List.length Nat.ltb Nat.leb bind].
    unfold AdjustInventory.shape. cbn [prop bind].
    destruct (AdjustInventory.reduce_quantities (field_of level "quantities"))
      as [q|e]; cbn [bind try_catch].
    + destruct (field_of level "item"); try discriminate Hi;
        cbn; eexists; reflexivity.
    + eexists; reflexivity.
Qed.

Lemma guarded_inventory_tools_return_witness :
  exists r : JsVal,
    ConnectInventoryToLocation.execute
      (Some (fun _ => Normal (mkMutationData (JObj [("id", JStr "1")]) [])))
      (ConnectInventoryToLocation.mkInput "1" "2" 3 None) = Normal r.
Proof.
  exact (proj1 (@guarded_inventory_tools_return T_ConnectInventory
    (ConnectInventoryToLocation.mkInput "1" "2" 3 None) _
    (fun _ => Normal (mkMutationData (JObj [("id", JStr "1")]) []))
    (JObj [("id", JStr "1")]) [("item", JNull)]
    (AdjustInventory.mkInput "1" "2" 0 None)
    eq_refl eq_refl eq_refl eq_refl)).
Defined.

(* ===================================================================== *)
(** ** Arguments that createCollection.ts accepts and does not use        *)
(* ===================================================================== *)

(** X21. The create-collection tool of src/tools/createCollection.ts
    accepts [description], [isPublished], [productsToAdd],
    [privateMetafields] and [publications] and uses none of them: what it
    sends and what it returns are the same with and without them. The
    compiled tool of dist/tools/createCollection.js does send a non-empty
    [productsToAdd], every id qualified as a product. *)
Theorem createCollection_unused_arguments (input : CreateCollection.Input)
  (client : option (Client MutationData)) (ids : list string) :
  CreateCollection.execute client input =
  CreateCollection.execute client
    (CreateCollection.mkInput (CreateCollection.title input) None
       (CreateCollection.descriptionHtml input)
       (CreateCollection.handle input) None (CreateCollection.seo input)
       (CreateCollection.image input) None
       (CreateCollection.sortOrder input)
       (CreateCollection.templateSuffix input) None
       (CreateCollection.ruleSet input) (CreateCollection.metafields input)
       None) /\
  (CreateCollection.productsToAdd input = Some ids -> ids <> [] ->
   get_own (CreateCollection.mutationInput input) "productsToAdd" = None /\
   get_own (DistCreateCollection.collectionInput input) "productsToAdd"
     = Some (js_strings (map (formatGid "Product") ids)) /\
   Forall (fun id => is_gid (JStr id) = true) (map (formatGid "Product") ids)).
Proof.
  split.
  - destruct input. reflexivity.
  - intros Hp Hne. split; [reflexivity|]. split.
    + unfold DistCreateCollection.collectionInput,
        DistCreateCollection.collectionInput_common.
      cbv zeta. reduce_guards. rewrite Hp.
      destruct ids as [|i ids]; [contradiction | reflexivity].
    + apply Forall_forall. intros x Hx. apply in_map_iff in Hx.
      destruct Hx as [i [<- _]]. apply formatGid_is_gid.
Qed.

Lemma createCollection_unused_arguments_witness :
  get_own (CreateCollection.mutationInput
    (CreateCollection.mkInput "Summer" None None None None None None
       (Some ["7"]) None None None None None None)) "productsToAdd" = None /\
  get_own (DistCreateCollection.collectionInput
    (CreateCollection.mkInput "Summer" None None None None None None
       (Some ["7"]) None None None None None None)) "productsToAdd"
  = Some (js_strings (map (formatGid "Product") ["7"])) /\
  Forall (fun id => is_gid (JStr id) = true) (map (formatGid "Product") ["7"]).
Proof.
  assert (N : ["7"] <> @nil string) by discriminate.
  exact (proj2 (@createCollection_unused_arguments
    (CreateCollection.mkInput "Summer" None None None None None None
       (Some ["7"]) None None None None None None) None ["7"]) eq_refl N).
Defined.

(* ===================================================================== *)
(** ** create-order: line items supplied as a string, through the handler *)
(* ===================================================================== *)

Lemma ensure_array_parsed_items (v : JsVal) :
  ensure_array v = JArr (parsed_items v).
Proof. destruct v; reflexivity. Qed.

Lemma create_order_handler_after_preprocess
  (JSON_parse : string -> Completion JsVal) (JSON_stringify : JsVal -> string)
  (client : option (Client MutationData)) (args p : Props) :
  preprocess_lineItems JSON_parse args = Normal p ->
  create_order_handler JSON_parse JSON_stringify client args =
  try_catch
    (validate_lineItems p ;;;
     result <- LegacyCreateOrder.execute client p ;;
     Normal (text_content (JSON_stringify result)))
    create_order_handler_on_error.
Proof. intros P. unfold create_order_handler. now rewrite P. Qed.

Lemma validate_line_item_invalid (bad : JsVal) (i : nat) :
  is_nullish bad = false ->
  valid_line_item bad = false ->
  validate_line_item bad i =
  Throw (ErrorObj PlainError
    ("Line item at index " ++ string_of_nat i
     ++ (if truthy (field_val bad "variantId")
         then " has invalid quantity. Must be a positive number."
         else " is missing variantId"))).
Proof.
  unfold validate_line_item, valid_line_item, throw_Error.
  destruct bad as [| |b|n|s|l|o]; try discriminate; intros _ V;
    try reflexivity.
  cbn [prop bind field_val].
  destruct (truthy (field_of o "variantId")); cbn [negb andb] in *;
    [|reflexivity].
  destruct (field_of o "quantity") as [| |b|n|s|l|o'];
    cbn [truthy negb is_number number_leb0 orb]; try reflexivity.
  - destruct b; reflexivity.
  - destruct (Z.eqb_spec n 0), (Z.leb_spec n 0), (Z.ltb_spec 0 n);
      cbn [negb orb]; try lia; try reflexivity; discriminate.
  - destruct (negb (String.eqb s "")); reflexivity.
Qed.

(** C8. In the create-order handler a [lineItems] string is given to
    [JSON.parse] before anything else. When the parser throws, the call
    fails with the plain [Error]
    ["Failed to create order: Invalid lineItems format. Expected a valid JSON array."],
    not with the parser's exception. When it returns [v], the handler goes
    on with [lineItems] set to the array [v], or to the one-element array
    around [v] when [v] is not an array, and validates each item of it in
    order: at the first item that is not valid the call fails with that
    item's index in the message and the tool is not run; when all items
    are valid the create-order tool runs on the arguments that carry the
    array, and its result comes back as one text content item. *)
Theorem create_order_lineItems_string
  (JSON_parse : string -> Completion JsVal) (JSON_stringify : JsVal -> string)
  (client : option (Client MutationData)) (args : Props) (s : string) :
  field_of args "lineItems" = JStr s ->
  (forall t : Thrown,
     JSON_parse s = Throw t ->
     create_order_handler JSON_parse JSON_stringify client args =
     Throw (ErrorObj PlainError
       "Failed to create order: Invalid lineItems format. Expected a valid JSON array.")) /\
  (forall v : JsVal,
     JSON_parse s = Normal v ->
     preprocess_lineItems JSON_parse args =
       Normal (set_prop args "lineItems" (JArr (parsed_items v))) /\
     (forall (good rest : list JsVal) (bad : JsVal),
        parsed_items v = (good ++ bad :: rest)%list ->
        forallb valid_line_item good = true ->
        valid_line_item bad = false ->
        is_nullish bad = false ->
        create_order_handler JSON_parse JSON_stringify client args =
        Throw (ErrorObj PlainError
          ("Failed to create order: Line item at index "
           ++ string_of_nat (List.length good)
           ++ (if truthy (field_val bad "variantId")
               then " has invalid quantity. Must be a positive number."
               else " is missing variantId")))) /\
     (forallb valid_line_item (parsed_items v) = true ->
        create_order_handler JSON_parse JSON_stringify client args =
        try_catch
          (result <- LegacyCreateOrder.execute client
                       (set_prop args "lineItems" (JArr (parsed_items v))) ;;
           Normal (text_content (JSON_stringify result)))
          create_order_handler_on_error /\
        forall r : JsVal,
          LegacyCreateOrder.execute client
            (set_prop args "lineItems" (JArr (parsed_items v))) = Normal r ->
          create_order_handler JSON_parse JSON_stringify client args =
          Normal (text_content (JSON_stringify r)))).
Proof.
  intros Hs. split.
  - intros t Ht.
    unfold create_order_handler, preprocess_lineItems.
    rewrite Hs, Ht. reflexivity.
  - intros v Hv.
    assert (P : preprocess_lineItems JSON_parse args =
                Normal (set_prop args "lineItems" (JArr (parsed_items v)))).
    { unfold preprocess_lineItems. rewrite Hs, Hv. cbn [bind try_catch].
      now rewrite ensure_array_parsed_items. }
    assert (V : validate_lineItems
                  (set_prop args "lineItems" (JArr (parsed_items v)))
                = forEach validate_line_item (parsed_items v)).
    { unfold validate_lineItems. now rewrite field_of_set_prop_same. }
    split; [exact P|]. split.
    + intros good rest bad Hi Hg Hb Hn.
      rewrite (@create_order_handler_after_preprocess JSON_parse JSON_stringify
                 client args _ P).
      rewrite V, Hi. unfold forEach.
      rewrite (@forEach_first_invalid good rest bad 0
                 (ErrorObj PlainError
                    ("Line item at index " ++ string_of_nat (List.length good)
                     ++ (if truthy (field_val bad "variantId")
                         then " has invalid quantity. Must be a positive number."
                         else " is missing variantId"))) Hg
                 (@validate_line_item_invalid bad (0 + List.length good) Hn Hb)).
      reflexivity.
    + intros Hall.
      assert (E : create_order_handler JSON_parse JSON_stringify client args =
        try_catch
          (result <- LegacyCreateOrder.execute client
                       (set_prop args "lineItems" (JArr (parsed_items v))) ;;
           Normal (text_content (JSON_stringify result)))
          create_order_handler_on_error).
      { rewrite (@create_order_handler_after_preprocess JSON_parse JSON_stringify
                 client args _ P).
        rewrite V. unfold forEach.
        rewrite (proj2 (@forEach_validate_valid (parsed_items v) 0) Hall).
        reflexivity. }
      split; [exact E|].
      intros r Hr. rewrite E, Hr. reflexivity.
Qed.

Lemma create_order_lineItems_string_witness :
  field_of [("lineItems", JStr sample_lineItems_text)] "lineItems"
    = JStr sample_lineItems_text /\
  create_order_handler sample_JSON_parse sample_JSON_stringify
    (Some sample_order_client) [("lineItems", JStr sample_lineItems_text)]
  = Normal (text_content "{...}") /\
  field_of [("lineItems", JStr "two of variant 9")] "lineItems"
    = JStr "two of variant 9" /\
  create_order_handler sample_JSON_parse sample_JSON_stringify
    (Some sample_order_client) [("lineItems", JStr "two of variant 9")]
  = Throw (ErrorObj PlainError
      "Failed to create order: Invalid lineItems format. Expected a valid JSON array.").
Proof.
  split; [reflexivity|]. split.
  - destruct (proj2 (@create_order_lineItems_string sample_JSON_parse
      sample_JSON_stringify (Some sample_order_client)
      [("lineItems", JStr sample_lineItems_text)]
      sample_lineItems_text eq_refl)
      (JArr [JObj [("variantId", JStr "9"); ("quantity", JNum 2)]]) eq_refl)
      as [_ [_ H]].
    destruct (H eq_refl) as [_ R].
    exact (R (JObj [("order",
      JObj [("id", JStr "gid://shopify/DraftOrder/1"); ("name", JUndefined);
            ("email", JUndefined); ("note", JUndefined); ("tags", JUndefined);
            ("totalPrice", JUndefined); ("subtotalPrice", JUndefined);
            ("totalShippingPrice", JUndefined); ("totalTax", JUndefined);
            ("customer", JNull); ("shippingAddress", JUndefined);
            ("billingAddress", JUndefined); ("lineItems", JArr []);
            ("customAttributes", JUndefined); ("metafields", JArr [])])])
      eq_refl).
  - split; [reflexivity|].
    exact (proj1 (@create_order_lineItems_string sample_JSON_parse
      sample_JSON_stringify (Some sample_order_client)
      [("lineItems", JStr "two of variant 9")]
      "two of variant 9" eq_refl)
      (ErrorObj SyntaxError "Unexpected token in JSON") eq_refl).
Defined.

(* ===================================================================== *)
(** ** Omitted optional fields in the variables that are sent             *)
(* ===================================================================== *)

Ltac distinct_keys :=
  cbn [map fst];
  repeat (apply NoDup_cons; [cbn [In]; intuition discriminate|]);
  apply NoDup_nil.

Lemma wire_obj (o : Props) : wire (JObj o) = JObj (wire_props o).
Proof. reflexivity. Qed.

Lemma wire_arr (items : list JsVal) :
  wire (JArr items) = JArr (map wire_elem items).
Proof. reflexivity. Qed.

Lemma wire_props_cons (k : string) (x : JsVal) (rest : Props) :
  wire_props ((k, x) :: rest) =
  match x with
  | JUndefined => wire_props rest
  | _ => (k, wire x) :: wire_props rest
  end.
Proof. destruct x; reflexivity. Qed.

Lemma wire_defined (x : JsVal) : x <> JUndefined -> wire x <> JUndefined.
Proof. destruct x; try congruence; intros _; rewrite ?wire_obj, ?wire_arr; discriminate. Qed.

Lemma wire_null (x : JsVal) : wire x = JNull -> x = JNull.
Proof.
  destruct x; try discriminate; try reflexivity;
    rewrite ?wire_obj, ?wire_arr; discriminate.
Qed.

Lemma wire_elem_defined (x : JsVal) :
  x <> JUndefined -> wire_elem x = wire x.
Proof. destruct x; congruence || reflexivity. Qed.

(** Serialisation adds no key. *)
Lemma get_own_wire_props_absent (o : Props) (k : string) :
  get_own o k = None -> get_own (wire_props o) k = None.
Proof.
  induction o as [|[k' x] o IH]; [reflexivity|].
  rewrite wire_props_cons. cbn [get_own].
  destruct (String.eqb k' k) eqn:E; [discriminate|]. intros H.
  destruct x; cbn [get_own]; rewrite ?E; now apply IH.
Qed.

(** A key bound to a value other than [undefined] is written, bound to
    what is written for the value. *)
Lemma get_own_wire_props_value (o : Props) (k : string) (v : JsVal) :
  get_own o k = Some v -> v <> JUndefined ->
  get_own (wire_props o) k = Some (wire v).
Proof.
  induction o as [|[k' x] o IH]; [discriminate|].
  rewrite wire_props_cons. cbn [get_own].
  destruct (String.eqb k' k) eqn:E.
  - intros H Hv. inversion H; subst x.
    destruct v; try congruence; cbn [get_own]; now rewrite E.
  - intros H Hv. destruct x; cbn [get_own]; rewrite ?E; now apply IH.
Qed.

(** A key bound to [undefined] is not written. *)
Lemma get_own_wire_props_undefined (o : Props) (k : string) :
  NoDup (map fst o) -> get_own o k = Some JUndefined ->
  get_own (wire_props o) k = None.
Proof.
  induction o as [|[k' x] o IH]; [discriminate|].
  intros U. inversion U as [|? ? Hn Hd]; subst.
  rewrite wire_props_cons. cbn [get_own].
  destruct (String.eqb k' k) eqn:E.
  - intros H. inversion H; subst x.
    apply String.eqb_eq in E. subst k'.
    apply get_own_wire_props_absent. now apply get_own_not_in.
  - intros H. destruct x; cbn [get_own]; rewrite ?E; now apply IH.
Qed.

Lemma get_own_wire_props_defined (o : Props) (k : string) :
  get_own (wire_props o) k <> Some JUndefined.
Proof.
  induction o as [|[k' x] o IH]; [discriminate|].
  rewrite wire_props_cons.
  assert (W : x <> JUndefined -> Some (wire x) <> Some JUndefined).
  { intros Hx E. inversion E as [E']. now apply (wire_defined Hx). }
  destruct x; cbn [get_own]; try exact IH;
    (destruct (String.eqb k' k); [apply W; discriminate | exact IH]).
Qed.

(** A key is written bound to [null] only if the object had it bound to
    [null]. *)
Lemma get_own_wire_props_null (o : Props) (k : string) :
  get_own (wire_props o) k = Some JNull -> In (k, JNull) o.
Proof.
  induction o as [|[k' x] o IH]; [discriminate|].
  rewrite wire_props_cons.
  assert (W : String.eqb k' k = true -> Some (wire x) = Some JNull ->
              In (k, JNull) ((k', x) :: o)).
  { intros E H. inversion H as [H']. apply wire_null in H'.
    apply String.eqb_eq in E. subst. now left. }
  destruct x; cbn [get_own];
    try (intros H; right; now apply IH);
    (destruct (String.eqb k' k) eqn:E;
       [intros H; now apply W | intros H; right; now apply IH]).
Qed.

Lemma lookup_wire_key (o : Props) (k : string) (rest : list Step)
  (x : JsVal) :
  get_own o k = Some x -> x <> JUndefined ->
  lookup (wire (JObj o)) (Key k :: rest) = lookup (wire x) rest.
Proof.
  intros H Hx. rewrite wire_obj. cbn [lookup].
  now rewrite (get_own_wire_props_value _ _ H Hx).
Qed.

Lemma lookup_wire_index (items : list JsVal) (i : nat) (rest : list Step)
  (x : JsVal) :
  nth_error items i = Some x -> x <> JUndefined ->
  lookup (wire (JArr items)) (Index i :: rest) = lookup (wire x) rest.
Proof.
  intros H Hx. rewrite wire_arr. cbn [lookup].
  rewrite (map_nth_error wire_elem _ _ H). now rewrite wire_elem_defined.
Qed.

Lemma assign_if_unique_keys (c : bool) (k : string) (v : JsVal) (o : Props) :
  NoDup (map fst o) -> NoDup (map fst (assign_if c k v o)).
Proof.
  unfold assign_if. destruct c; [apply set_prop_unique_keys | exact (fun H => H)].
Qed.

(** The mutation input is inside the variables, at the tool's place for
    it. *)
Lemma sent_input_of (t : MutationTool) (input : InputOf t) (vars : JsVal) :
  variables_of t input = Normal vars ->
  exists o : Props,
    mutation_input_of t input = Normal o /\
    lookup (wire vars) (input_path t) = Some (JObj (wire_props o)).
Proof.
  destruct t; cbn [variables_of mutation_input_of input_path]; intros H;
    try (inversion H; subst vars; eexists; split; reflexivity).
  unfold LegacyCreateOrder.variables in H.
  destruct (LegacyCreateOrder.draftOrderInput input) as [d|]; [|discriminate].
  cbn [bind] in H. inversion H. eexists; split; reflexivity.
Qed.

(** Where a tool copies a field without a guard, its mutation input is an
    object literal (spread over the guarded head, for create-product): no
    key is written twice. *)
Lemma copied_input_unique_keys (t : MutationTool) (input : InputOf t)
  (o : Props) (k : string) :
  copied_unconditionally t k = true ->
  mutation_input_of t input = Normal o ->
  NoDup (map fst o).
Proof.
  destruct t; cbn [copied_unconditionally mutation_input_of];
    try discriminate; intros _ H; inversion H; subst o; clear H.
  - unfold AdjustInventory.mutation_input. distinct_keys.
  - unfold CreateProduct.mutation_input, CreateProduct.formatProductInput,
      spread. cbn [fold_left fst snd].
    repeat apply set_prop_unique_keys.
    unfold CreateProduct.productInput. cbv zeta.
    repeat apply assign_if_unique_keys. distinct_keys.
  - unfold CreateCollection.mutation_input, CreateCollection.mutationInput.
    distinct_keys.
  - unfold DistAdjustInventory.mutation_input. cbv zeta. distinct_keys.
  - unfold ConnectInventoryToLocation.mutation_input. distinct_keys.
  - unfold DisconnectInventoryFromLocation.mutation_input. distinct_keys.
  - unfold LegacyCreateProduct.mutation_input, spread.
    cbn [fold_left fst snd].
    repeat apply set_prop_unique_keys.
    unfold CreateProduct.productInput. cbv zeta.
    repeat apply assign_if_unique_keys. distinct_keys.
  - unfold CreateMetafield.mutation_input, CreateMetafield.metafieldInput.
    distinct_keys.
Qed.

Lemma omitted_field_not_written (t : MutationTool) (input : InputOf t)
  (k : string) (omitted : InputOf t -> bool) (o : Props) :
  In (k, omitted) (optional_fields_of t) ->
  omitted input = true ->
  mutation_input_of t input = Normal o ->
  get_own (wire_props o) k = None.
Proof.
  intros Hin Hom Hmi.
  pose proof (omitted_field_in_memory t input k omitted Hin Hom Hmi) as G.
  destruct (copied_unconditionally t k) eqn:C.
  - apply get_own_wire_props_undefined; [|exact G].
    exact (@copied_input_unique_keys t input o k C Hmi).
  - now apply get_own_wire_props_absent.
Qed.

Lemma mapM_nth {A B : Type} (f : A -> Completion B) (l : list A)
  (ys : list B) (n : nat) (x : A) :
  mapM f l = Normal ys -> nth_error l n = Some x ->
  exists y : B, f x = Normal y /\ nth_error ys n = Some y.
Proof.
  revert ys n. induction l as [|a l IH]; intros ys n; cbn [mapM].
  - intros _ H. destruct n; discriminate H.
  - destruct (f a) as [b|] eqn:Fa; [|discriminate]. cbn [bind].
    destruct (mapM f l) as [bs|]; [|discriminate]. cbn [bind].
    intros E. inversion E; subst ys. destruct n as [|n]; cbn [nth_error].
    + intros H. inversion H; subst a. now exists b.
    + intros H. exact (IH bs n eq_refl H).
Qed.

Lemma sent_variant (p : CreateProduct.Input) (vs : list CreateProduct.Variant)
  (n : nat) (variant : CreateProduct.Variant) :
  CreateProduct.variants p = Some vs -> nth_error vs n = Some variant ->
  lookup (wire (CreateProduct.variables p))
    [Key "input"; Key "variants"; Index n]
  = Some (wire (CreateProduct.variant_input (formatGid "Location" "1") variant)).
Proof.
  intros Hvs Hn. unfold CreateProduct.variables.
  erewrite lookup_wire_key; [|reflexivity|discriminate].
  erewrite lookup_wire_key; [| |].
  - erewrite lookup_wire_index;
      [reflexivity | apply map_nth_error; exact Hn | discriminate].
  - unfold CreateProduct.formatProductInput, spread.
    cbn [fold_left fst snd]. rewrite !get_own_set_prop.
    cbn [String.eqb Ascii.eqb Bool.eqb].
    unfold CreateProduct.opt_list_js. rewrite Hvs. reflexivity.
  - discriminate.
Qed.

Lemma sent_image (p : CreateProduct.Input) (imgs : list CreateProduct.Image)
  (n : nat) (image : CreateProduct.Image) :
  CreateProduct.images p = Some imgs -> nth_error imgs n = Some image ->
  lookup (wire (CreateProduct.variables p))
    [Key "input"; Key "images"; Index n]
  = Some (wire (CreateProduct.image_input image)).
Proof.
  intros Hi Hn. unfold CreateProduct.variables.
  erewrite lookup_wire_key; [|reflexivity|discriminate].
  erewrite lookup_wire_key; [| |].
  - erewrite lookup_wire_index;
      [reflexivity | apply map_nth_error; exact Hn | discriminate].
  - unfold CreateProduct.formatProductInput, spread.
    cbn [fold_left fst snd]. rewrite !get_own_set_prop.
    cbn [String.eqb Ascii.eqb Bool.eqb].
    unfold CreateProduct.opt_list_js. rewrite Hi. reflexivity.
  - discriminate.
Qed.

Lemma sent_line_item (i : CreateOrder.Input) (n : nat)
  (item : CreateOrder.LineItem) :
  nth_error (CreateOrder.lineItems i) n = Some item ->
  lookup (wire (CreateOrder.variables i))
    [Key "order"; Key "lineItems"; Index n]
  = Some (JObj (wire_props (CreateOrder.line_item_input item))).
Proof.
  intros Hn. unfold CreateOrder.variables.
  erewrite lookup_wire_key; [|reflexivity|discriminate].
  erewrite lookup_wire_key; [| |].
  - erewrite lookup_wire_index; cycle 1;
      [ exact (map_nth_error
                 (fun item => JObj (CreateOrder.line_item_input item)) _ _ Hn)
      | discriminate
      | reflexivity ].
  - unfold CreateOrder.formatOrderInput. cbv zeta. reduce_guards.
    reflexivity.
  - discriminate.
Qed.

Lemma draftOrderInput_lineItems (raw d : Props) (items : list JsVal) :
  LegacyCreateOrder.draftOrderInput raw = Normal d ->
  field_of raw "lineItems" = JArr items ->
  exists ys : list JsVal,
    mapM (fun item =>
            vid <- prop item "variantId" ;;
            variantId <- LegacyCreateOrder.qualify_value "item.variantId"
                           "ProductVariant" vid ;;
            Normal (JObj (spread (LegacyCreateOrder.props_of item)
                            [("variantId", variantId)]))) items = Normal ys /\
    get_own d "lineItems" = Some (JArr ys).
Proof.
  intros Hd Hl. unfold LegacyCreateOrder.draftOrderInput in Hd.
  rewrite Hl in Hd. cbn [truthy js_map] in Hd.
  destruct (mapM _ items) as [ys|] eqn:M.
  - exists ys. split; [reflexivity|].
    destruct (truthy (field_of raw "customerId"));
      cbn [bind] in Hd;
      repeat match type of Hd with
      | context [LegacyCreateOrder.qualify_value ?a ?b ?c] =>
          destruct (LegacyCreateOrder.qualify_value a b c); cbn [bind] in Hd;
          try discriminate
      end;
      inversion Hd; rewrite get_own_set_prop, String.eqb_refl; reflexivity.
  - exfalso.
    destruct (truthy (field_of raw "customerId"));
      cbn [bind] in Hd;
      repeat match type of Hd with
      | context [LegacyCreateOrder.qualify_value ?a ?b ?c] =>
          destruct (LegacyCreateOrder.qualify_value a b c); cbn [bind] in Hd;
          try discriminate
      end;
      discriminate Hd.
Qed.

Lemma sent_raw_line_item (raw : Props) (rv : JsVal) (items : list JsVal)
  (n : nat) (item : Props) :
  LegacyCreateOrder.variables raw = Normal rv ->
  field_of raw "lineItems" = JArr items ->
  nth_error items n = Some (JObj item) ->
  exists v : JsVal,
    lookup (wire rv) [Key "input"; Key "lineItems"; Index n]
    = Some (JObj (wire_props (set_prop item "variantId" v))).
Proof.
  intros Hv Hl Hn. unfold LegacyCreateOrder.variables in Hv.
  destruct (LegacyCreateOrder.draftOrderInput raw) as [d|] eqn:D;
    [|discriminate].
  cbn [bind] in Hv. inversion Hv; subst rv; clear Hv.
  destruct (draftOrderInput_lineItems _ D Hl) as [ys [M G]].
  destruct (mapM_nth _ _ n M Hn) as [y [Fy Ny]].
  cbn [prop bind LegacyCreateOrder.props_of] in Fy.
  destruct (LegacyCreateOrder.qualify_value "item.variantId" "ProductVariant"
              (field_of item "variantId")) as [v|]; [|discriminate].
  cbn [bind] in Fy. inversion Fy; subst y.
  exists v.
  erewrite lookup_wire_key; [|reflexivity|discriminate].
  erewrite lookup_wire_key; [|exact G|discriminate].
  erewrite lookup_wire_index; cycle 1;
    [exact Ny | discriminate | reflexivity].
Qed.

(** C4. Omitting an optional field leaves no key for it in the variables
    that are sent. For every mutation tool and every validated input that
    omits an optional field, the mutation input as the transport writes it
    has no key for that field (so none bound to null either). Some tools
    do put the key into the object in memory, bound to [undefined];
    [JSON.stringify] does not write such a key. The same holds inside the
    objects the tools rebuild: the variants and images of both
    create-product tools, the line items of orders/create-order.ts, and
    the line items of src/tools/createOrder.ts, which are copies of the
    given items with the variant id replaced. An object that a tool
    passes on as it is gains no key on the way, holds no key bound to
    [undefined] afterwards, and one bound to [null] only where it was
    given so. *)
Theorem omitted_optional_field_not_sent (t : MutationTool)
  (input : InputOf t) (k : string) (omitted : InputOf t -> bool)
  (vars : JsVal) :
  In (k, omitted) (optional_fields_of t) ->
  omitted input = true ->
  variables_of t input = Normal vars ->
  (exists sent : Props,
     lookup (wire vars) (input_path t) = Some (JObj sent) /\
     get_own sent k = None) /\
  (forall (p : CreateProduct.Input) (pv : JsVal)
          (vs : list CreateProduct.Variant) (n : nat)
          (variant : CreateProduct.Variant) (f : string)
          (om : CreateProduct.Variant -> bool),
     In pv [CreateProduct.variables p; LegacyCreateProduct.variables p] ->
     CreateProduct.variants p = Some vs ->
     nth_error vs n = Some variant ->
     In (f, om) variant_optional_fields ->
     om variant = true ->
     exists sent : Props,
       lookup (wire pv) [Key "input"; Key "variants"; Index n]
         = Some (JObj sent) /\
       get_own sent "price" = Some (JStr (CreateProduct.price variant)) /\
       get_own sent f = None) /\
  (forall (p : CreateProduct.Input) (pv : JsVal)
          (imgs : list CreateProduct.Image) (n : nat)
          (image : CreateProduct.Image) (f : string)
          (om : CreateProduct.Image -> bool),
     In pv [CreateProduct.variables p; LegacyCreateProduct.variables p] ->
     CreateProduct.images p = Some imgs ->
     nth_error imgs n = Some image ->
     In (f, om) image_optional_fields ->
     om image = true ->
     exists sent : Props,
       lookup (wire pv) [Key "input"; Key "images"; Index n]
         = Some (JObj sent) /\
       get_own sent "src" = Some (JStr (CreateProduct.src image)) /\
       get_own sent f = None) /\
  (forall (i : CreateOrder.Input) (n : nat) (item : CreateOrder.LineItem)
          (f : string) (om : CreateOrder.LineItem -> bool),
     nth_error (CreateOrder.lineItems i) n = Some item ->
     In (f, om) line_item_optional_fields ->
     om item = true ->
     exists sent : Props,
       lookup (wire (CreateOrder.variables i))
         [Key "order"; Key "lineItems"; Index n] = Some (JObj sent) /\
       get_own sent "quantity" = Some (JNum (CreateOrder.quantity item)) /\
       get_own sent f = None) /\
  (forall (raw : Props) (rv : JsVal) (items : list JsVal) (n : nat)
          (item : Props) (f : string),
     LegacyCreateOrder.variables raw = Normal rv ->
     field_of raw "lineItems" = JArr items ->
     nth_error items n = Some (JObj item) ->
     f <> "variantId" ->
     has_key item f = false ->
     exists sent : Props,
       lookup (wire rv) [Key "input"; Key "lineItems"; Index n]
         = Some (JObj sent) /\
       get_own sent f = None) /\
  (forall (x : Props) (f : string),
     (get_own x f = None -> get_own (wire_props x) f = None) /\
     get_own (wire_props x) f <> Some JUndefined /\
     (get_own (wire_props x) f = Some JNull -> In (f, JNull) x)).
Proof.
  intros Hin Hom Hv.
  assert (L : forall p, LegacyCreateProduct.variables p
                        = CreateProduct.variables p).
  { intros p. unfold LegacyCreateProduct.variables, CreateProduct.variables,
      LegacyCreateProduct.mutation_input, CreateProduct.formatProductInput.
    do 4 f_equal. }
  split; [|split; [|split; [|split; [|split]]]].
  - destruct (@sent_input_of t input vars Hv) as [o [Hmi Hl]].
    exists (wire_props o). split; [exact Hl|].
    exact (@omitted_field_not_written t input k omitted o Hin Hom Hmi).
  - intros p pv vs n variant f om Hpv Hvs Hn Hf Ho.
    assert (E : pv = CreateProduct.variables p).
    { destruct Hpv as [<-|[<-|[]]]; [reflexivity | apply L]. }
    subst pv. rewrite (@sent_variant p vs n variant Hvs Hn).
    unfold CreateProduct.variant_input. rewrite wire_obj.
    eexists. split; [reflexivity|]. split.
    + apply (@get_own_wire_props_value _ "price"
               (JStr (CreateProduct.price variant))); [reflexivity|discriminate].
    + unfold variant_optional_fields in Hf. cbn [In] in Hf.
      pick_field; destruct variant; cbn in Ho; omit_field;
        first [ apply get_own_wire_props_absent; reflexivity
              | apply get_own_wire_props_undefined;
                [distinct_keys | reflexivity] ].
  - intros p pv imgs n image f om Hpv Hi Hn Hf Ho.
    assert (E : pv = CreateProduct.variables p).
    { destruct Hpv as [<-|[<-|[]]]; [reflexivity | apply L]. }
    subst pv. rewrite (@sent_image p imgs n image Hi Hn).
    unfold CreateProduct.image_input. rewrite wire_obj.
    eexists. split; [reflexivity|]. split.
    + apply (@get_own_wire_props_value _ "src"
               (JStr (CreateProduct.src image))); [reflexivity|discriminate].
    + unfold image_optional_fields in Hf. cbn [In] in Hf.
      pick_field; destruct image; cbn in Ho; omit_field.
      apply get_own_wire_props_undefined; [distinct_keys | reflexivity].
  - intros i n item f om Hn Hf Ho.
    rewrite (@sent_line_item i n item Hn).
    eexists. split; [reflexivity|]. split.
    + apply (@get_own_wire_props_value _ "quantity"
               (JNum (CreateOrder.quantity item))); [reflexivity|discriminate].
    + unfold line_item_optional_fields in Hf. cbn [In] in Hf.
      pick_field; destruct item; cbn in Ho; omit_field;
        unfold CreateOrder.line_item_input;
        first [ apply get_own_wire_props_absent; reflexivity
              | apply get_own_wire_props_undefined;
                [distinct_keys | reflexivity] ].
  - intros raw rv items n item f Hrv Hl Hn Hf Hk.
    destruct (@sent_raw_line_item raw rv items n item Hrv Hl Hn) as [v Hs].
    eexists. split; [exact Hs|].
    apply get_own_wire_props_absent. rewrite get_own_set_prop.
    apply String.eqb_neq in Hf. rewrite String.eqb_sym, Hf.
    now apply has_key_false_get_own.
  - intros x f. split; [apply get_own_wire_props_absent|].
    split; [apply get_own_wire_props_defined | apply get_own_wire_props_null].
Qed.

(** adjust-inventory with no reason: the key is in the object in memory,
    bound to [undefined], and is not in what is sent. *)
Example adjust_inventory_reason_not_sent :
  get_own (AdjustInventory.mutation_input
             (AdjustInventory.mkInput "1" "2" (-3) None)) "reason"
  = Some JUndefined /\
  wire (AdjustInventory.variables (AdjustInventory.mkInput "1" "2" (-3) None))
  = JObj [("input",
      JObj [("inventoryItemId", JStr "gid://shopify/InventoryItem/1");
            ("locationId", JStr "gid://shopify/Location/2");
            ("availableDelta", JNum (-3))])].
Proof. split; reflexivity. Qed.

Lemma omitted_optional_field_not_sent_witness :
  exists sent : Props,
    lookup (wire (AdjustInventory.variables
                    (AdjustInventory.mkInput "1" "2" (-3) None)))
      (input_path T_AdjustInventory) = Some (JObj sent) /\
    get_own sent "reason" = None.
Proof.
  exact (proj1 (@omitted_optional_field_not_sent T_AdjustInventory
    (AdjustInventory.mkInput "1" "2" (-3) None) "reason"
    (fun i => absent (AdjustInventory.reason i))
    (AdjustInventory.variables (AdjustInventory.mkInput "1" "2" (-3) None))
    (or_introl eq_refl) eq_refl eq_refl)).
Defined.
